(** * dingo-store: flat vector index, document service admission, region meta

    A shallow embedding of three parts of the store:
    - [VectorIndexFlat] (vector/vector_index_flat.cc): the flat vector index
      built on a faiss [IndexIDMap2] wrapping an [IndexFlat];
    - [DocumentService] (server/document_service.cc): request validation, the
      [Do...] bodies run by the worker pools and the RPC entry points;
    - [store.Region] (meta/store_meta_manager.h): the applied-timestamp
      watermark.

    Integers are [Z]; [float] is IEEE binary32 through [SpecFloat]; protobuf
    repeated fields are lists; [std::unordered_map] is a [gmap]. Error
    messages of [butil::Status] are dropped: a status is its error code. *)

From Stdlib Require Import ZArith List Bool String.
From Stdlib Require Import Floats.SpecFloat.
From stdpp Require Import base tactics option list gmap.

Local Open Scope Z_scope.

(** ** pb::error and butil::Status *)

Module pb.

(** The members of [pb::error::Errno] that the embedded code names; every
    other member is [Errno_other] with its number. *)
Inductive Errno : Type :=
| OK
| EINTERNAL
| EILLEGAL_PARAMTETERS
| EKEY_EMPTY
| EREQUEST_FULL
| EREGION_NOT_FOUND
| ERANGE_INVALID
| EVECTOR_INVALID
| EVECTOR_ID_DUPLICATED
| EDOCUMENT_EMPTY
| EDOCUMENT_EXCEED_MAX_BATCH_COUNT
| EDOCUMENT_EXCEED_MAX_REQUEST_SIZE
| EDOCUMENT_INDEX_BUILD_ERROR
| EDOCUMENT_INDEX_NOT_READY
| ETXN_MEMORY_LOCK_CONFLICT
| Errno_other (code : Z).

(** [pb::common::MetricType], the members named in vector_index_flat.cc. *)
Inductive MetricType : Type :=
| METRIC_TYPE_NONE
| METRIC_TYPE_L2
| METRIC_TYPE_INNER_PRODUCT
| METRIC_TYPE_COSINE.

End pb.

Export pb.

#[global] Instance Errno_eq_dec : EqDecision Errno.
Proof. solve_decision. Defined.

#[global] Instance MetricType_eq_dec : EqDecision MetricType.
Proof. solve_decision. Defined.

(** [butil::Status], reduced to [error_code()]. *)
Definition Status : Type := Errno.

(** [status.ok()] *)
Definition ok (s : Status) : bool := bool_decide (s = OK).

(** ** float: IEEE 754 binary32 *)

Abbreviation float := spec_float.

Definition float_prec : Z := 24.
Definition float_emax : Z := 128.

(** [a - b] on [float] *)
Definition fsub (a b : float) : float := SFsub float_prec float_emax a b.

(** The literal [1.0F] *)
Definition f_1_0 : float := S754_finite false 8388608 (-23).

(** ** faiss: IndexFlat behind IndexIDMap2

    The third-party index handle. The i-th stored vector of the wrapped
    [IndexFlat] carries the label [id_map[i]]; both are kept together as
    [entries]. [rev_map] is the [unordered_map] from label to position that
    [IndexIDMap2] maintains. *)

Module faiss.

Abbreviation idx_t := Z.

Inductive MetricType : Type := METRIC_INNER_PRODUCT | METRIC_L2.

Record IndexIDMap2 : Type := mkIndexIDMap2 {
  d : Z;
  metric_type : MetricType;
  entries : list (idx_t * list float);
  rev_map : gmap Z nat
}.

(** [id_map] of [IndexIDMap] *)
Definition id_map (index : IndexIDMap2) : list idx_t := (entries index).*1.

(** [ntotal] *)
Definition ntotal (index : IndexIDMap2) : nat := length (entries index).

(** [faiss::IndexFlatL2(d)] / [faiss::IndexFlatIP(d)] wrapped by a fresh
    [IndexIDMap2]. *)
Definition IndexFlatL2 (dim : Z) : IndexIDMap2 := mkIndexIDMap2 dim METRIC_L2 [] ∅.
Definition IndexFlatIP (dim : Z) : IndexIDMap2 := mkIndexIDMap2 dim METRIC_INNER_PRODUCT [] ∅.

(** [for (i = start; i < ntotal; i++) rev_map[id_map[i]] = i] over the labels
    [ids] stored from position [start] on. *)
Fixpoint rev_map_assign (start : nat) (ids : list idx_t) (m : gmap Z nat) : gmap Z nat :=
  match ids with
  | [] => m
  | i :: ids' => rev_map_assign (S start) ids' (<[i := start]> m)
  end.

(** [IndexIDMap2::construct_rev_map] *)
Definition construct_rev_map (ids : list idx_t) : gmap Z nat := rev_map_assign 0 ids ∅.

(** [IndexIDMap2::add_with_ids(n, x, xids)]: the first [n] rows of [x] with
    the first [n] labels of [xids] go to the end, then [rev_map] is assigned
    for the new positions. *)
Definition add_with_ids (index : IndexIDMap2) (n : nat) (x : list (list float)) (xids : list idx_t) : IndexIDMap2 :=
  let added := zip (take n xids) (take n x) in
  mkIndexIDMap2 (d index) (metric_type index)
    (entries index ++ added)
    (rev_map_assign (ntotal index) added.*1 (rev_map index)).

(** [IDSelectorBatch(n, ids).is_member(id)] *)
Definition IDSelectorBatch_is_member (ids : list idx_t) (i : idx_t) : bool := bool_decide (i ∈ ids).

(** [IndexIDMap2::remove_ids(IDSelectorBatch)]: every entry whose label is a
    member goes, the rest keep their order, [rev_map] is rebuilt. Returns the
    number removed. *)
Definition remove_ids (index : IndexIDMap2) (sel : list idx_t) : nat * IndexIDMap2 :=
  let kept := filter (λ e, IDSelectorBatch_is_member sel e.1 = false) (entries index) in
  ((length (entries index) - length kept)%nat,
   mkIndexIDMap2 (d index) (metric_type index) kept (construct_rev_map kept.*1)).

(** The vectors stored under label [i], in storage order. *)
Definition vectors_of (index : IndexIDMap2) (i : idx_t) : list (list float) :=
  (filter (λ e, e.1 = i) (entries index)).*2.

End faiss.

(** ** pb::common and pb::index messages used by the vector index *)

Module common.

(** [pb::common::VectorWithId], with the float payload of its [vector]. *)
Record VectorWithId : Type := mkVectorWithId {
  id : Z;
  float_values : list float
}.

End common.

(** The parts of faiss and of [VectorIndexUtils] whose arithmetic is opaque
    here: distance computation, normalisation and the packing of results. *)
Class FlatMath : Type := {
  FilterFunctor : Type;
  RangeSearchResult : Type;
  VectorWithDistanceResult : Type;
  (** [VectorIndexUtils::NormalizeVectorForFaiss] on one row *)
  NormalizeVectorForFaiss : list float → list float;
  (** [IndexIDMap2::search(n, x, k, distances, labels, params)] *)
  faiss_search :
    faiss.IndexIDMap2 → nat → list (list float) → N → option (list FilterFunctor) →
    list float * list faiss.idx_t;
  (** [IndexIDMap2::range_search(n, x, radius, result, params)]; [None] when
      it throws *)
  faiss_range_search :
    faiss.IndexIDMap2 → nat → list (list float) → float → option (list FilterFunctor) →
    option RangeSearchResult;
  (** [VectorIndexUtils::FillSearchResult], on the caller's [results] *)
  FillSearchResult :
    list common.VectorWithId → N → list float → list faiss.idx_t → pb.MetricType → Z →
    list VectorWithDistanceResult → list VectorWithDistanceResult;
  (** [VectorIndexUtils::FillRangeSearchResult], on the caller's [results] *)
  FillRangeSearchResult :
    RangeSearchResult → pb.MetricType → Z →
    list VectorWithDistanceResult → list VectorWithDistanceResult
}.

(** ** VectorIndexUtils *)

Module VectorIndexUtils.

(** Modelled from the spec: [VectorIndexUtils::CheckVectorDimension] is not
    among the sources; every vector of the batch must have the dimension of
    the index, otherwise the batch is invalid. *)
Definition CheckVectorDimension (vector_with_ids : list common.VectorWithId) (dimension : Z) : Status :=
  if forallb (λ v, Z.of_nat (length (common.float_values v)) =? dimension) vector_with_ids
  then OK else EVECTOR_INVALID.

(** Modelled from the spec: [VectorIndexUtils::ExtractVectorId] is not among
    the sources; the ids of the batch, in order. *)
Definition ExtractVectorId (vector_with_ids : list common.VectorWithId) : list faiss.idx_t :=
  map common.id vector_with_ids.

(** Modelled from the spec: [VectorIndexUtils::CheckVectorIdDuplicated] is not
    among the sources; a batch in which an id occurs twice is refused. *)
Definition CheckVectorIdDuplicated (ids : list faiss.idx_t) (size : nat) : Status :=
  if bool_decide (NoDup (take size ids)) then OK else EVECTOR_ID_DUPLICATED.

(** Modelled from the spec: [VectorIndexUtils::ExtractVectorValue] is not
    among the sources; the rows of the batch, each normalised when
    [normalize] is set ("cosine = normalize + inner-product"). *)
Definition ExtractVectorValue `{FlatMath} (vector_with_ids : list common.VectorWithId)
    (dimension : Z) (normalize : bool) : list (list float) :=
  map (λ v, if normalize then NormalizeVectorForFaiss (common.float_values v)
            else common.float_values v) vector_with_ids.

End VectorIndexUtils.

(** ** VectorIndexFlat (vector/vector_index_flat.cc) *)

Module VectorIndexFlat.

Import VectorIndexUtils.

(** What a method does to the lock and to the faiss handle, in order. *)
Inductive Event `{FlatMath} : Type :=
| LockWrite
| UnlockWrite
| LockRead
| UnlockRead
| remove_ids (sel : list faiss.idx_t)
| add_with_ids (n : nat) (x : list (list float)) (xids : list faiss.idx_t)
| search (n : nat) (x : list (list float)) (k : N) (sel : option (list FilterFunctor))
| range_search (n : nat) (x : list (list float)) (radius : float) (sel : option (list FilterFunctor)).

Record t : Type := mk {
  Id : Z;
  metric_type_ : pb.MetricType;
  dimension_ : Z;
  normalize_ : bool;
  index_id_map2_ : faiss.IndexIDMap2
}.

(** [VectorIndexFlat::VectorIndexFlat]; [flat_metric_type] and
    [flat_dimension] are the fields of [flat_parameter()]. *)
Definition new (id : Z) (flat_metric_type : pb.MetricType) (flat_dimension : Z) : t :=
  let metric_type_ := flat_metric_type in
  let dimension_ := flat_dimension in
  let normalize_ := false in
  if decide (METRIC_TYPE_L2 = metric_type_) then
    mk id metric_type_ dimension_ normalize_ (faiss.IndexFlatL2 dimension_)
  else if decide (METRIC_TYPE_INNER_PRODUCT = metric_type_) then
    mk id metric_type_ dimension_ normalize_ (faiss.IndexFlatIP dimension_)
  else if decide (METRIC_TYPE_COSINE = metric_type_) then
    let normalize_ := true in
    mk id metric_type_ dimension_ normalize_ (faiss.IndexFlatIP dimension_)
  else
    mk id metric_type_ dimension_ normalize_ (faiss.IndexFlatL2 dimension_).

Definition set_index (self : t) (index : faiss.IndexIDMap2) : t :=
  mk (Id self) (metric_type_ self) (dimension_ self) (normalize_ self) index.

(** [VectorIndexFlat::GetExistVectorIds] *)
Definition GetExistVectorIds (self : t) (ids : list faiss.idx_t) (size : nat) : list faiss.idx_t :=
  filter (λ i, faiss.rev_map (index_id_map2_ self) !! i ≠ None) (take size ids).

(** [VectorIndexFlat::AddOrUpsert]: status, the index afterwards, events. *)
Definition AddOrUpsert `{FlatMath} (self : t) (vector_with_ids : list common.VectorWithId)
    (is_upsert : bool) : Status * t * list Event :=
  if bool_decide (vector_with_ids = []) then (EILLEGAL_PARAMTETERS, self, [])
  else
    let status := CheckVectorDimension vector_with_ids (dimension_ self) in
    if negb (ok status) then (status, self, [])
    else
      let ids := ExtractVectorId vector_with_ids in
      let status := CheckVectorIdDuplicated ids (length vector_with_ids) in
      if negb (ok status) then (status, self, [])
      else
        let vector_values := ExtractVectorValue vector_with_ids (dimension_ self) (normalize_ self) in
        let index := index_id_map2_ self in
        (* delete id exists. *)
        let '(index, removal) :=
          if bool_decide (faiss.rev_map index ≠ ∅) then
            let internal_ids := GetExistVectorIds self ids (length vector_with_ids) in
            if bool_decide (internal_ids ≠ []) then
              ((faiss.remove_ids index internal_ids).2, [remove_ids internal_ids])
            else (index, [])
          else (index, []) in
        let index := faiss.add_with_ids index (length vector_with_ids) vector_values ids in
        (OK, set_index self index,
         [LockWrite] ++ removal
           ++ [add_with_ids (length vector_with_ids) vector_values ids; UnlockWrite]).

(** [VectorIndexFlat::Upsert] and [VectorIndexFlat::Add] *)
Definition Upsert `{FlatMath} (self : t) (vector_with_ids : list common.VectorWithId) :=
  AddOrUpsert self vector_with_ids true.
Definition Add `{FlatMath} (self : t) (vector_with_ids : list common.VectorWithId) :=
  AddOrUpsert self vector_with_ids false.

(** [VectorIndexFlat::Delete] *)
Definition Delete `{FlatMath} (self : t) (delete_ids : list Z) : Status * t * list Event :=
  if bool_decide (delete_ids = []) then (OK, self, [])
  else
    let index := index_id_map2_ self in
    if bool_decide (faiss.rev_map index ≠ ∅) then
      let internal_ids := GetExistVectorIds self delete_ids (length delete_ids) in
      if bool_decide (internal_ids ≠ []) then
        let '(remove_count, index) := faiss.remove_ids index internal_ids in
        if bool_decide (0%nat = remove_count) then
          (EVECTOR_INVALID, set_index self index,
           [LockWrite; remove_ids internal_ids; UnlockWrite])
        else
          (OK, set_index self index, [LockWrite; remove_ids internal_ids; UnlockWrite])
      else (OK, self, [LockWrite; UnlockWrite])
    else (OK, self, [LockWrite; UnlockWrite]).

(** [VectorIndexFlat::Search]; [topk] is a [uint32_t]; [results] is the
    caller's vector, returned as the method leaves it. *)
Definition Search `{FlatMath} (self : t) (vector_with_ids : list common.VectorWithId) (topk : N)
    (filters : list FilterFunctor) (results : list VectorWithDistanceResult)
    : Status * list VectorWithDistanceResult * list Event :=
  if bool_decide (vector_with_ids = []) then (EILLEGAL_PARAMTETERS, results, [])
  else if (topk <=? 0)%N then (OK, results, [])
  else
    let status := CheckVectorDimension vector_with_ids (dimension_ self) in
    if negb (ok status) then (status, results, [])
    else
      let vector_values := ExtractVectorValue vector_with_ids (dimension_ self) (normalize_ self) in
      let n := length vector_with_ids in
      let sel := if bool_decide (filters ≠ []) then Some filters else None in
      let '(distances, labels) := faiss_search (index_id_map2_ self) n vector_values topk sel in
      (OK,
       FillSearchResult vector_with_ids topk distances labels (metric_type_ self) (dimension_ self) results,
       [LockRead; search n vector_values topk sel; UnlockRead]).

(** [VectorIndexFlat::RangeSearch] *)
Definition RangeSearch `{FlatMath} (self : t) (vector_with_ids : list common.VectorWithId)
    (radius : float) (filters : list FilterFunctor) (results : list VectorWithDistanceResult)
    : Status * list VectorWithDistanceResult * list Event :=
  if bool_decide (vector_with_ids = []) then (EILLEGAL_PARAMTETERS, results, [])
  else
    let status := CheckVectorDimension vector_with_ids (dimension_ self) in
    if negb (ok status) then (status, results, [])
    else
      let vector_values := ExtractVectorValue vector_with_ids (dimension_ self) (normalize_ self) in
      let n := length vector_with_ids in
      let radius :=
        if bool_decide (metric_type_ self = METRIC_TYPE_COSINE)
           || bool_decide (metric_type_ self = METRIC_TYPE_INNER_PRODUCT)
        then fsub f_1_0 radius else radius in
      let params := if bool_decide (filters ≠ []) then Some filters else None in
      match faiss_range_search (index_id_map2_ self) n vector_values radius params with
      | None =>
          (EINTERNAL, results, [LockRead; range_search n vector_values radius params; UnlockRead])
      | Some range_search_result =>
          (OK,
           FillRangeSearchResult range_search_result (metric_type_ self) (dimension_ self) results,
           [LockRead; range_search n vector_values radius params; UnlockRead])
      end.

(** A [size_t] result stored into an [int64_t]. *)
Definition as_int64 (z : Z) : Z :=
  let r := z mod 2 ^ 64 in if r <? 2 ^ 63 then r else r - 2 ^ 64.

(** [VectorIndexFlat::GetCount] *)
Definition GetCount (self : t) : Status * Z :=
  (OK, Z.of_nat (length (faiss.id_map (index_id_map2_ self)))).

(** [VectorIndexFlat::GetDeletedCount] *)
Definition GetDeletedCount (self : t) : Status * Z := (OK, 0).

(** [VectorIndexFlat::GetMemorySize]; [sizeof(faiss::idx_t)] is 8 and
    [sizeof(faiss::Index::component_t)] is 4. *)
Definition GetMemorySize (self : t) : Status * Z :=
  let count := Z.of_nat (faiss.ntotal (index_id_map2_ self)) in
  if count =? 0 then (OK, 0)
  else
    (OK,
     as_int64 (count * 8 + count * dimension_ self * 4
               + (8 + 8) * Z.of_nat (size (faiss.rev_map (index_id_map2_ self))))).

(** [DEFINE_int64(flat_need_save_count, 10000, ...)] *)
Definition FLAGS_flat_need_save_count : Z := 10000.

(** [VectorIndexFlat::NeedToSave], under the flag value [flat_need_save_count]. *)
Definition NeedToSave (flat_need_save_count : Z) (self : t) (last_save_log_behind : Z) : bool :=
  let element_count := Z.of_nat (length (faiss.id_map (index_id_map2_ self))) in
  if element_count =? 0 then false
  else if last_save_log_behind >? flat_need_save_count then true
  else false.

(** [VectorIndexFlat::IsExceedsMaxElements] and [VectorIndexFlat::SupportSave] *)
Definition IsExceedsMaxElements (self : t) : bool := false.
Definition SupportSave (self : t) : bool := true.

(** What [faiss::read_index(path)] yields: an exception, an index that is
    not an [IndexIDMap2], or an [IndexIDMap2] with its dimension, its metric
    ([None] for a faiss metric other than L2 and inner product), its rows
    with their labels, and its [is_trained] bit. For an [IndexIDMap2] faiss
    rebuilds [rev_map] from the labels read. *)
Inductive read_index : Type :=
| read_throws
| read_not_IndexIDMap2
| read_IndexIDMap2 (d : Z) (metric_type : option faiss.MetricType)
    (entries : list (faiss.idx_t * list float)) (is_trained : bool).

(** [VectorIndexFlat::Load]; [path_empty] is [path.empty()] and [file] is
    what [faiss::read_index] finds there. *)
Definition Load (self : t) (path_empty : bool) (file : read_index) : Status * t :=
  if path_empty then (EILLEGAL_PARAMTETERS, self)
  else
    match file with
    | read_throws => (EINTERNAL, self)
    | read_not_IndexIDMap2 => (EINTERNAL, self)
    | read_IndexIDMap2 d metric_type entries is_trained =>
      (* double check *)
      if negb (d =? dimension_ self) then (EINTERNAL, self)
      else if negb is_trained then (EINTERNAL, self)
      else
        let install (m : faiss.MetricType) :=
          let index := faiss.mkIndexIDMap2 d m entries (faiss.construct_rev_map entries.*1) in
          (OK,
           mk (Id self) (metric_type_ self) (dimension_ self)
              (if decide (METRIC_TYPE_COSINE = metric_type_ self) then true else normalize_ self)
              index) in
        match metric_type_ self with
        | METRIC_TYPE_NONE | METRIC_TYPE_L2 =>
          match metric_type with
          | Some faiss.METRIC_L2 => install faiss.METRIC_L2
          | _ => (EINTERNAL, self)
          end
        | METRIC_TYPE_INNER_PRODUCT | METRIC_TYPE_COSINE =>
          match metric_type with
          | Some faiss.METRIC_INNER_PRODUCT => install faiss.METRIC_INNER_PRODUCT
          | _ => (EINTERNAL, self)
          end
        end
    end.

(** [VectorIndexFlat::Save]; [written] tells whether [faiss::write_index]
    returned without throwing. *)
Definition Save (self : t) (path_empty : bool) (written : bool) : Status :=
  if path_empty then EILLEGAL_PARAMTETERS
  else if negb written then EINTERNAL
  else OK.


End VectorIndexFlat.

(** ** gflags of the document service *)

Module FLAGS.

Record t : Type := mk {
  document_max_batch_count : Z;
  document_max_request_size : Z;
  enable_async_document_search : bool;
  enable_async_document_count : bool;
  enable_async_document_operation : bool;
  max_prewrite_count : Z;
  stream_message_max_limit_size : Z;
  document_max_background_task_count : Z
}.

(** The [DEFINE_...] defaults of document_service.cc; the three flags that
    the file only declares are left to the caller. *)
Definition defaults (max_prewrite_count stream_message_max_limit_size
    document_max_background_task_count : Z) : t :=
  mk 4096 33554432 true true true
     max_prewrite_count stream_message_max_limit_size document_max_background_task_count.

End FLAGS.

(** ** Messages of pb::common, pb::document and pb::store *)

Module msg.

Record RegionEpoch : Type := mkRegionEpoch { conf_version : Z; version : Z }.

Inductive IsolationLevel : Type := InvalidIsolationLevel | SnapshotIsolation | ReadCommitted.

#[global] Instance IsolationLevel_eq_dec : EqDecision IsolationLevel.
Proof. solve_decision. Defined.

Record Context : Type := mkContext {
  region_id : Z;
  region_epoch : RegionEpoch;
  isolation_level : IsolationLevel;
  resolved_locks : list Z
}.

Record Range : Type := mkRange { start_key : string; end_key : string }.

Record RangeWithOptions : Type := mkRangeWithOptions {
  range : Range; with_start : bool; with_end : bool
}.

Record StreamRequestMeta : Type := mkStreamRequestMeta {
  stream_id : string; limit : Z; close : bool
}.

Record StreamResponseMeta : Type := mkStreamResponseMeta {
  resp_stream_id : string; resp_has_more : bool
}.

(** [pb::common::DocumentWithId]; [document_data] is
    [document().document_data()]. *)
Record DocumentWithId : Type := mkDocumentWithId {
  id : Z;
  document_data : list (string * string)
}.

Record DocumentWithScore : Type := mkDocumentWithScore {
  document_with_id : DocumentWithId; score : float
}.

Record DocumentSearchParameter : Type := mkDocumentSearchParameter {
  top_n : Z; query_string : string
}.

Record KeyValue : Type := mkKeyValue { key : string; value : string }.

(** [pb::error::Error]: code and optional region info; the message is
    dropped. *)
Record Error : Type := mkError { errcode : Errno; store_region_info : option Z }.

Definition no_error : Error := mkError OK None.

Inductive Op : Type := Put | Delete | PutIfAbsent | CheckNotExists | Op_other (n : Z).

Record Mutation : Type := mkMutation {
  op : Op; mutation_key : string; document : DocumentWithId
}.

Record DocumentBatchQueryRequest : Type := mkDocumentBatchQueryRequest {
  bq_context : Context; document_ids : list Z; selected_keys : list string;
  without_scalar_data : bool; without_table_data : bool; bq_ts : Z
}.

Record DocumentBatchQueryResponse : Type := mkDocumentBatchQueryResponse {
  bq_error : Error; doucments : list DocumentWithId
}.

Record DocumentSearchRequest : Type := mkDocumentSearchRequest {
  s_context : Context; s_parameter : DocumentSearchParameter
}.

Record DocumentSearchResponse : Type := mkDocumentSearchResponse {
  s_error : Error; s_document_with_scores : list DocumentWithScore
}.

Record DocumentSearchAllRequest : Type := mkDocumentSearchAllRequest {
  sa_context : Context; sa_parameter : DocumentSearchParameter;
  sa_stream_meta : StreamRequestMeta
}.

Record DocumentSearchAllResponse : Type := mkDocumentSearchAllResponse {
  sa_error : Error; sa_document_with_scores : list DocumentWithScore;
  sa_resp_stream_meta : option StreamResponseMeta
}.

Record DocumentAddRequest : Type := mkDocumentAddRequest {
  add_context : Context; documents : list DocumentWithId; is_update : bool; ttl : Z
}.

Record DocumentAddResponse : Type := mkDocumentAddResponse { add_error : Error }.

Record DocumentDeleteRequest : Type := mkDocumentDeleteRequest {
  del_context : Context; ids : list Z
}.

Record DocumentDeleteResponse : Type := mkDocumentDeleteResponse { del_error : Error }.

Record TxnScanRequest : Type := mkTxnScanRequest {
  scan_context : Context; scan_range : RangeWithOptions; scan_limit : Z;
  scan_start_ts : Z; key_only : bool; is_reverse : bool;
  has_coprocessor : bool; scan_stream_meta : StreamRequestMeta
}.

Record TxnScanResponse : Type := mkTxnScanResponse {
  scan_error : Error; txn_result : option string;
  scan_documents : list DocumentWithId; scan_end_key : string; scan_has_more : bool;
  scan_resp_stream_meta : option StreamResponseMeta
}.

Record TxnPrewriteRequest : Type := mkTxnPrewriteRequest {
  pw_context : Context; mutations : list Mutation; primary_lock : string;
  pw_start_ts : Z; lock_ttl : Z; txn_size : Z
}.

Record TxnCheckTxnStatusRequest : Type := mkTxnCheckTxnStatusRequest {
  cs_context : Context; primary_key : string; lock_ts : Z; caller_start_ts : Z; current_ts : Z
}.

Record TxnResolveLockRequest : Type := mkTxnResolveLockRequest {
  rl_context : Context; rl_start_ts : Z; rl_commit_ts : Z; rl_keys : list string
}.

Record TxnGcRequest : Type := mkTxnGcRequest { gc_context : Context; safe_point_ts : Z }.

Record TxnCommitRequest : Type := mkTxnCommitRequest {
  cm_context : Context; cm_start_ts : Z; cm_commit_ts : Z; cm_keys : list string
}.

Record TxnBatchGetRequest : Type := mkTxnBatchGetRequest {
  bg_context : Context; bg_keys : list string; bg_start_ts : Z
}.

Record TxnBatchGetResponse : Type := mkTxnBatchGetResponse {
  bg_error : Error; bg_txn_result : option string; bg_documents : list DocumentWithId
}.

Record TxnDeleteRangeRequest : Type := mkTxnDeleteRangeRequest {
  dr_context : Context; dr_start_key : string; dr_end_key : string
}.

Record TxnDumpRequest : Type := mkTxnDumpRequest {
  dump_context : Context; dump_start_key : string; dump_end_key : string; end_ts : Z
}.

End msg.

(** ** store::Region (meta/store_meta_manager.h) *)

Module store.

(** What the service asks of [region->DocumentIndexWrapper()]. *)
Record DocumentIndexWrapper : Type := mkDocumentIndexWrapper {
  IsReady : bool; IsBuildError : bool
}.

Record Region : Type := mkRegion {
  Id : Z;
  PartitionId : Z;
  Range : msg.Range;
  document_index_wapper_ : DocumentIndexWrapper;
  raw_applied_max_ts_ : Z;
  txn_access_max_ts_ : Z
}.

(** [Region::RawAppliedMaxTs] *)
Definition RawAppliedMaxTs (region : Region) : Z := raw_applied_max_ts_ region.

(** [Region::SetRawAppliedMaxTs] *)
Definition SetRawAppliedMaxTs (region : Region) (ts : Z) : Region :=
  if ts >? raw_applied_max_ts_ region then
    mkRegion (Id region) (PartitionId region) (Range region) (document_index_wapper_ region)
      ts (txn_access_max_ts_ region)
  else region.

(** [Region::TxnAccessMaxTs] *)
Definition TxnAccessMaxTs (region : Region) : Z := txn_access_max_ts_ region.

(** [Region::SetTxnAccessMaxTs] *)
Definition SetTxnAccessMaxTs (region : Region) (ts : Z) : Region :=
  if ts >? txn_access_max_ts_ region then
    mkRegion (Id region) (PartitionId region) (Range region) (document_index_wapper_ region)
      (raw_applied_max_ts_ region) ts
  else region.

(** [Region::Statistics]; [serving_request_count] is a
    [std::atomic<int32_t>], whose [fetch_add] and [fetch_sub] wrap around. *)
Record Statistics : Type := mkStatistics {
  serving_request_count : Z;
  last_serving_time_s : Z
}.

Definition as_int32 (z : Z) : Z :=
  let r := z mod 2 ^ 32 in if r <? 2 ^ 31 then r else r - 2 ^ 32.

(** [Region::GetServingRequestCount] *)
Definition GetServingRequestCount (statistics_ : Statistics) : Z :=
  serving_request_count statistics_.

(** [Region::IncServingRequestCount] *)
Definition IncServingRequestCount (statistics_ : Statistics) : Statistics :=
  mkStatistics (as_int32 (serving_request_count statistics_ + 1)) (last_serving_time_s statistics_).

(** [Region::DecServingRequestCount] *)
Definition DecServingRequestCount (statistics_ : Statistics) : Statistics :=
  mkStatistics (as_int32 (serving_request_count statistics_ - 1)) (last_serving_time_s statistics_).

(** [Region::GetLastServingTime] *)
Definition GetLastServingTime (statistics_ : Statistics) : Z := last_serving_time_s statistics_.

(** [Region::UpdateLastServingTime]; [Timestamp] is [Helper::Timestamp()]. *)
Definition UpdateLastServingTime (Timestamp : Z) (statistics_ : Statistics) : Statistics :=
  mkStatistics (serving_request_count statistics_) Timestamp.

End store.

(** ** The storage engine as the service sees it *)

Module engine.

(** [Engine::DocumentReader::Context] as filled by [DoDocumentBatchQuery]. *)
Record BatchQueryContext : Type := mkBatchQueryContext {
  bq_partition_id : Z; bq_region_id : Z; bq_region_range : msg.Range;
  bq_document_ids : list Z; selected_scalar_keys : list string;
  with_scalar_data : bool; with_table_data : bool; bq_ts : Z
}.

(** [Engine::DocumentReader::Context] as filled by the search bodies. *)
Record SearchContext : Type := mkSearchContext {
  partition_id : Z; region_id : Z; region_range : msg.Range;
  parameter : msg.DocumentSearchParameter
}.

(** [Context] of a write or a transactional read; [has_done] tells whether
    the closure was handed over with it. *)
Record Context : Type := mkContext {
  ctx_region_id : Z; ctx_region_epoch : msg.RegionEpoch;
  ctx_isolation_level : option msg.IsolationLevel;
  ctx_ttl : option Z; has_done : bool
}.

(** The calls on [storage] made by the embedded bodies. *)
Inductive Call : Type :=
| DocumentBatchQuery (ctx : BatchQueryContext)
| DocumentSearch (ctx : SearchContext)
| DocumentSearchAll (ctx : SearchContext) (stream_meta : msg.StreamRequestMeta)
| DocumentAdd (ctx : Context) (is_sync : bool) (documents : list msg.DocumentWithId) (is_update : bool)
| DocumentDelete (ctx : Context) (is_sync : bool) (region_id : Z) (ids : list Z)
| TxnScan (ctx : Context) (stream_meta : msg.StreamRequestMeta) (start_ts : Z)
    (range : msg.Range) (limit : Z) (key_only is_reverse : bool)
    (resolved_locks : gset Z) (disable_coprocessor : bool).

(** What a call gives back: its status and its out-parameters; [stream] is
    the id of [ctx->Stream()], [None] when the context has no stream. *)
Record Reply : Type := mkReply {
  status : Status;
  document_with_ids : list msg.DocumentWithId;
  document_results : list msg.DocumentWithScore;
  kvs : list msg.KeyValue;
  has_more : bool;
  end_key : string;
  txn_result_info : string;
  stream : option string
}.

End engine.

(** The collaborators whose code is outside document_service.cc:
    [ServiceHelper], [Storage], [Helper], [DocumentCodec], protobuf and the
    memory lock table of the region. *)
Class Collaborators : Type := {
  ValidateRegionEpoch : msg.RegionEpoch → option store.Region → Status;
  ValidateRegionState : store.Region → Status;
  ValidateClusterReadOnly : Status;
  ValidateDocumentRegion : store.Region → list Z → Status;
  ValidateRegion : store.Region → list string → Status;
  ValidateRange : msg.Range → Status;
  ValidateRangeInRange : msg.Range → msg.Range → Status;
  ValidateLeader : store.Region → Status;
  (** the region info that [ServiceHelper::GetStoreRegionInfo] attaches *)
  StoreRegionInfo : store.Region → option Z;
  storage : engine.Call → engine.Reply;
  UnPackageDocumentId : string → Z;
  ParseFromString : string → option msg.DocumentWithId;
  (** [request->ByteSizeLong()], a [size_t] *)
  ByteSizeLong_add : msg.DocumentAddRequest → Z;
  ByteSizeLong_prewrite : msg.TxnPrewriteRequest → Z;
  TimestampMs : Z;
  TransformRangeWithOptions : msg.RangeWithOptions → msg.Range;
  IntersectRange : msg.Range → msg.Range → msg.Range;
  (** [region->CheckRange(...)]: conflict found, and the result info *)
  CheckRange : store.Region → string → string → msg.IsolationLevel → Z → gset Z → bool * string
}.

(** The collaborators of the transactional point reads and of the commit
    validation. *)
Class TxnCollaborators : Type := {
  (** [storage->TxnBatchGet(ctx, start_ts, keys, resolved_locks,
      txn_result_info, kvs)] *)
  TxnBatchGet : engine.Context → Z → list string → gset Z → engine.Reply;
  (** [region->CheckKeys(...)]: conflict found, and the result info *)
  CheckKeys : store.Region → list string → msg.IsolationLevel → Z → gset Z → bool * string;
  (** [request->ByteSizeLong()] of a commit request, a [size_t] *)
  ByteSizeLong_commit : msg.TxnCommitRequest → Z
}.

(** ** Helper (common/helper.h): the protobuf and string templates *)

Module Helper.

Section templates.

Context {T : Type}.

(** [Helper::PbRepeatedToVector], the overloads that take the repeated field
    by const reference. *)
Definition PbRepeatedToVector (data : list T) : list T :=
  fold_left (λ vec item, vec ++ [item]) data [].

(** [Helper::VectorToPbRepeated]; the result is [*out] afterwards. *)
Definition VectorToPbRepeated (vec : list T) (out : list T) : list T :=
  fold_left (λ out item, out ++ [item]) vec out.

(** [Helper::VectorToString]; [format] is [fmt::format("{}", _)]. *)
Definition VectorToString (format : T → string) (vec : list T) : string :=
  fold_left
    (λ str i,
       match vec !! i with
       | Some item =>
         let str := (str ++ format item)%string in
         if (i + 1 <? length vec)%nat then (str ++ ",")%string else str
       | None => str
       end)
    (seq 0 (length vec)) EmptyString.

(** [Helper::SetToString]; [set] lists the elements in the order of the
    [std::set], [show] is [operator<<]; the result is [ss.str()]. *)
Definition SetToString (show : T → string) (set : list T) : string :=
  (fold_left
     (λ '(ss, i) elem,
        let ss := if negb (i =? 0)%nat then (ss ++ ", ")%string else ss in
        ((ss ++ show elem)%string, S i))
     set (EmptyString, 0%nat)).1.

End templates.

End Helper.

(** ** DocumentCodec *)

Module DocumentCodec.

Definition INT64_MAX : Z := 9223372036854775807.

(** Modelled from the spec: [DocumentCodec::IsLegalDocumentId] is not among
    the sources; "id must be > 0 and < INT64_MAX". *)
Definition IsLegalDocumentId (document_id : Z) : bool :=
  (document_id >? 0) && (document_id <? INT64_MAX).

End DocumentCodec.

(** ** ServiceHelper *)

Module ServiceHelper.

(** Modelled from the spec: [ServiceHelper::SetError] is not among the
    sources; it populates the error envelope with the code. *)
Definition SetError (error : msg.Error) (errcode : Errno) : msg.Error :=
  msg.mkError errcode (msg.store_region_info error).

(** Modelled from the spec: [ServiceHelper::GetStoreRegionInfo] is not among
    the sources; it fills the optional [store_region_info] of the envelope. *)
Definition GetStoreRegionInfo `{Collaborators} (region : store.Region) (error : msg.Error) : msg.Error :=
  msg.mkError (msg.errcode error) (StoreRegionInfo region).

End ServiceHelper.

(** ** DocumentService: validation (server/document_service.cc) *)

Module DocumentService.

Import DocumentCodec.

(** An [int64_t] flag converted for a comparison with a [size_t]. *)
Definition to_size_t (z : Z) : Z := z mod 2 ^ 64.

(** The sum of two [int64_t] as the machine computes it: the mathematical
    sum when that fits 64 bits, and its two's-complement wrap-around when it
    does not (where the C++ standard leaves the result open). *)
Definition int64_add (a b : Z) : Z :=
  let r := (a + b) mod 2 ^ 64 in if r <? 2 ^ 63 then r else r - 2 ^ 64.

(** The status returned while the document index is not ready. *)
Definition index_not_ready (region : store.Region) : Status :=
  if store.IsBuildError (store.document_index_wapper_ region)
  then EDOCUMENT_INDEX_BUILD_ERROR else EDOCUMENT_INDEX_NOT_READY.

(** [ValidateDocumentBatchQueryRequest] *)
Definition ValidateDocumentBatchQueryRequest `{Collaborators} (flags : FLAGS.t)
    (request : msg.DocumentBatchQueryRequest) (region : store.Region) : Status :=
  let status := ValidateRegionEpoch (msg.region_epoch (msg.bq_context request)) (Some region) in
  if negb (ok status) then status
  else if msg.region_id (msg.bq_context request) =? 0 then EILLEGAL_PARAMTETERS
  else if bool_decide (msg.document_ids request = []) then EILLEGAL_PARAMTETERS
  else if Z.of_nat (length (msg.document_ids request)) >? FLAGS.document_max_batch_count flags
  then EDOCUMENT_EXCEED_MAX_BATCH_COUNT
  else if msg.bq_ts request <? 0 then EILLEGAL_PARAMTETERS
  else
    let status := ValidateLeader region in
    if negb (ok status) then status
    else ValidateDocumentRegion region (msg.document_ids request).

(** [ValidateDocumentSearchRequest] *)
Definition ValidateDocumentSearchRequest `{Collaborators} (flags : FLAGS.t)
    (request : msg.DocumentSearchRequest) (region : option store.Region) : Status :=
  match region with
  | None => EREGION_NOT_FOUND
  | Some region =>
    let status := ValidateRegionEpoch (msg.region_epoch (msg.s_context request)) (Some region) in
    if negb (ok status) then status
    else if msg.region_id (msg.s_context request) =? 0 then EILLEGAL_PARAMTETERS
    else if msg.top_n (msg.s_parameter request) >? FLAGS.document_max_batch_count flags
    then EDOCUMENT_EXCEED_MAX_BATCH_COUNT
    else if msg.top_n (msg.s_parameter request) >? FLAGS.document_max_batch_count flags * 10
    then EDOCUMENT_EXCEED_MAX_BATCH_COUNT
    else if msg.top_n (msg.s_parameter request) <? 0 then EILLEGAL_PARAMTETERS
    else
      let status := ValidateLeader region in
      if negb (ok status) then status
      else if negb (store.IsReady (store.document_index_wapper_ region)) then index_not_ready region
      else ValidateRegionState region
  end.

(** [ValidateDocumentSearchAllRequest] *)
Definition ValidateDocumentSearchAllRequest `{Collaborators} (flags : FLAGS.t)
    (request : msg.DocumentSearchAllRequest) (region : option store.Region) : Status :=
  match region with
  | None => EREGION_NOT_FOUND
  | Some region =>
    let status := ValidateRegionEpoch (msg.region_epoch (msg.sa_context request)) (Some region) in
    if negb (ok status) then status
    else if msg.region_id (msg.sa_context request) =? 0 then EILLEGAL_PARAMTETERS
    else if msg.limit (msg.sa_stream_meta request) <=? 0 then EILLEGAL_PARAMTETERS
    else if msg.limit (msg.sa_stream_meta request) >? FLAGS.stream_message_max_limit_size flags
    then EILLEGAL_PARAMTETERS
    else
      let status := ValidateLeader region in
      if negb (ok status) then status
      else if negb (store.IsReady (store.document_index_wapper_ region)) then index_not_ready region
      else ValidateRegionState region
  end.

(** [ValidateDocumentAddRequest] *)
Definition ValidateDocumentAddRequest `{Collaborators} (flags : FLAGS.t)
    (request : msg.DocumentAddRequest) (region : store.Region) : Status :=
  let status := ValidateRegionEpoch (msg.region_epoch (msg.add_context request)) (Some region) in
  if negb (ok status) then status
  else if msg.region_id (msg.add_context request) =? 0 then EILLEGAL_PARAMTETERS
  else if bool_decide (msg.documents request = []) then EDOCUMENT_EMPTY
  else if Z.of_nat (length (msg.documents request)) >? FLAGS.document_max_batch_count flags
  then EDOCUMENT_EXCEED_MAX_BATCH_COUNT
  else if ByteSizeLong_add request >? to_size_t (FLAGS.document_max_request_size flags)
  then EDOCUMENT_EXCEED_MAX_REQUEST_SIZE
  else if msg.ttl request <? 0 then EILLEGAL_PARAMTETERS
  else
    let status := ValidateLeader region in
    if negb (ok status) then status
    else if negb (store.IsReady (store.document_index_wapper_ region)) then index_not_ready region
    else if negb (forallb (λ document, IsLegalDocumentId (msg.id document)) (msg.documents request))
    then EILLEGAL_PARAMTETERS
    else
      let status := ValidateClusterReadOnly in
      if negb (ok status) then status
      else
        let documents_ids := map msg.id (msg.documents request) in
        ValidateDocumentRegion region documents_ids.

(** [ValidateDocumentDeleteRequest] *)
Definition ValidateDocumentDeleteRequest `{Collaborators} (flags : FLAGS.t)
    (request : msg.DocumentDeleteRequest) (region : store.Region) : Status :=
  let status := ValidateRegionEpoch (msg.region_epoch (msg.del_context request)) (Some region) in
  if negb (ok status) then status
  else if msg.region_id (msg.del_context request) =? 0 then EILLEGAL_PARAMTETERS
  else if bool_decide (msg.ids request = []) then EDOCUMENT_EMPTY
  else if Z.of_nat (length (msg.ids request)) >? FLAGS.document_max_batch_count flags
  then EDOCUMENT_EXCEED_MAX_BATCH_COUNT
  else
    let status := ValidateLeader region in
    if negb (ok status) then status
    else if negb (store.IsReady (store.document_index_wapper_ region)) then index_not_ready region
    else ValidateDocumentRegion region (msg.ids request).

(** [ValidateTxnScanRequestIndex] *)
Definition ValidateTxnScanRequestIndex `{Collaborators} (flags : FLAGS.t)
    (request : msg.TxnScanRequest) (region : option store.Region) (req_range : msg.Range) : Status :=
  if (msg.scan_limit request <=? 0) && (msg.limit (msg.scan_stream_meta request) <=? 0)
  then EILLEGAL_PARAMTETERS
  else if (msg.scan_limit request >? FLAGS.stream_message_max_limit_size flags)
          || (msg.limit (msg.scan_stream_meta request) >? FLAGS.stream_message_max_limit_size flags)
  then EILLEGAL_PARAMTETERS
  else if msg.scan_start_ts request <? 0 then EILLEGAL_PARAMTETERS
  else
    let status := ValidateRegionEpoch (msg.region_epoch (msg.scan_context request)) region in
    if negb (ok status) then status
    else
      match region with
      | None => EREGION_NOT_FOUND
      | Some region =>
        let status := ValidateRange req_range in
        if negb (ok status) then status
        else
          let status := ValidateRangeInRange (store.Range region) req_range in
          if negb (ok status) then status
          else
            let status := ValidateRegionState region in
            if negb (ok status) then status
            else if msg.has_coprocessor request then EILLEGAL_PARAMTETERS
            else OK
      end.



(** [ValidateTxnCommitRequest], first loop: the document ids decoded from
    the keys, [None] at a key whose id is 0. *)
Fixpoint commit_document_ids `{Collaborators} (keys : list string) (document_ids : list Z)
    : option (list Z) :=
  match keys with
  | [] => Some document_ids
  | key :: rest =>
    let document_id := UnPackageDocumentId key in
    if document_id =? 0 then None
    else commit_document_ids rest (document_ids ++ [document_id])
  end.

(** [ValidateTxnCommitRequest] *)
Definition ValidateTxnCommitRequest `{Collaborators} `{TxnCollaborators} (flags : FLAGS.t)
    (request : msg.TxnCommitRequest) (region : store.Region) : Status :=
  (* check if region_epoch is match *)
  let epoch_ret := ValidateRegionEpoch (msg.region_epoch (msg.cm_context request)) (Some region) in
  if negb (ok epoch_ret) then epoch_ret
  else if msg.cm_start_ts request =? 0 then EILLEGAL_PARAMTETERS
  else if msg.cm_commit_ts request =? 0 then EILLEGAL_PARAMTETERS
  else if bool_decide (msg.cm_keys request = []) then EILLEGAL_PARAMTETERS
  else if Z.of_nat (length (msg.cm_keys request)) >? FLAGS.document_max_batch_count flags
  then EDOCUMENT_EXCEED_MAX_BATCH_COUNT
  else if ByteSizeLong_commit request >? to_size_t (FLAGS.document_max_request_size flags)
  then EDOCUMENT_EXCEED_MAX_REQUEST_SIZE
  else if negb (store.IsReady (store.document_index_wapper_ region)) then index_not_ready region
  else
    let status := ValidateClusterReadOnly in
    if negb (ok status) then status
    else
      match commit_document_ids (msg.cm_keys request) [] with
      | None => EILLEGAL_PARAMTETERS
      | Some document_ids =>
        let ret1 := ValidateDocumentRegion region document_ids in
        if negb (ok ret1) then ret1
        else if existsb (λ key, bool_decide (key = EmptyString)) (msg.cm_keys request)
        then EKEY_EMPTY
        else
          let status := ValidateRegion region (msg.cm_keys request) in
          if negb (ok status) then status
          else OK
      end.

(** [DocumentValidateTxnCheckTxnStatusRequest] *)
Definition DocumentValidateTxnCheckTxnStatusRequest `{Collaborators}
    (request : msg.TxnCheckTxnStatusRequest) (region : store.Region) : Status :=
  (* check if region_epoch is match *)
  let status := ValidateRegionEpoch (msg.region_epoch (msg.cs_context request)) (Some region) in
  if negb (ok status) then status
  else if bool_decide (msg.primary_key request = EmptyString) then EILLEGAL_PARAMTETERS
  else if msg.lock_ts request =? 0 then EILLEGAL_PARAMTETERS
  else if msg.caller_start_ts request =? 0 then EILLEGAL_PARAMTETERS
  else if msg.current_ts request =? 0 then EILLEGAL_PARAMTETERS
  else
    let status := ValidateClusterReadOnly in
    if negb (ok status) then status
    else
      let keys := [msg.primary_key request] in
      let status := ValidateRegion region keys in
      if negb (ok status) then status
      else if negb (store.IsReady (store.document_index_wapper_ region)) then index_not_ready region
      else OK.

(** The loop of [DocumentValidateTxnResolveLockRequest] over the keys. *)
Fixpoint check_resolve_keys `{Collaborators} (region : store.Region) (keys : list string) : Status :=
  match keys with
  | [] => OK
  | key :: rest =>
    if bool_decide (key = EmptyString) then EKEY_EMPTY
    else
      let keys := [key] in
      let status := ValidateRegion region keys in
      if negb (ok status) then status
      else check_resolve_keys region rest
  end.

(** [DocumentValidateTxnResolveLockRequest] *)
Definition DocumentValidateTxnResolveLockRequest `{Collaborators}
    (request : msg.TxnResolveLockRequest) (region : store.Region) : Status :=
  (* check if region_epoch is match *)
  let epoch_ret := ValidateRegionEpoch (msg.region_epoch (msg.rl_context request)) (Some region) in
  if negb (ok epoch_ret) then epoch_ret
  else if msg.rl_start_ts request =? 0 then EILLEGAL_PARAMTETERS
  else if msg.rl_commit_ts request <? 0 then EILLEGAL_PARAMTETERS
  else if (msg.rl_commit_ts request >? 0) && (msg.rl_commit_ts request <? msg.rl_start_ts request)
  then EILLEGAL_PARAMTETERS
  else
    let status :=
      if Z.of_nat (length (msg.rl_keys request)) >? 0
      then check_resolve_keys region (msg.rl_keys request) else OK in
    if negb (ok status) then status
    else if negb (store.IsReady (store.document_index_wapper_ region)) then index_not_ready region
    else
      let status := ValidateClusterReadOnly in
      if negb (ok status) then status
      else OK.

(** [ValidateTxnBatchGetRequest] *)
Definition ValidateTxnBatchGetRequest `{Collaborators} (request : msg.TxnBatchGetRequest)
    (region : store.Region) : Status :=
  (* check if region_epoch is match *)
  let epoch_ret := ValidateRegionEpoch (msg.region_epoch (msg.bg_context request)) (Some region) in
  if negb (ok epoch_ret) then epoch_ret
  else if Z.of_nat (length (msg.bg_keys request)) =? 0 then EILLEGAL_PARAMTETERS
  else if msg.bg_start_ts request =? 0 then EILLEGAL_PARAMTETERS
  else if existsb (λ key, bool_decide (key = EmptyString)) (msg.bg_keys request) then EKEY_EMPTY
  else
    let status := ValidateRegion region (msg.bg_keys request) in
    if negb (ok status) then status
    else OK.

(** [DocumentValidateTxnGcRequest] *)
Definition DocumentValidateTxnGcRequest `{Collaborators} (request : msg.TxnGcRequest)
    (region : store.Region) : Status :=
  (* check if region_epoch is match *)
  let epoch_ret := ValidateRegionEpoch (msg.region_epoch (msg.gc_context request)) (Some region) in
  if negb (ok epoch_ret) then epoch_ret
  else if msg.safe_point_ts request =? 0 then EILLEGAL_PARAMTETERS
  else OK.

(** [start_key.compare(end_key) > 0] on [std::string]: bytes compared as
    unsigned, a proper prefix first. *)
Definition compare_gt (start_key end_key : string) : bool :=
  match String.compare start_key end_key with Gt => true | _ => false end.

(** [ValidateTxnDeleteRangeRequest] *)
Definition ValidateTxnDeleteRangeRequest `{Collaborators} (request : msg.TxnDeleteRangeRequest)
    (region : store.Region) : Status :=
  (* check if region_epoch is match *)
  let epoch_ret := ValidateRegionEpoch (msg.region_epoch (msg.dr_context request)) (Some region) in
  if negb (ok epoch_ret) then epoch_ret
  else if bool_decide (msg.dr_start_key request = EmptyString) then EILLEGAL_PARAMTETERS
  else if bool_decide (msg.dr_end_key request = EmptyString) then EILLEGAL_PARAMTETERS
  else if bool_decide (msg.dr_start_key request = msg.dr_end_key request) then EILLEGAL_PARAMTETERS
  else if compare_gt (msg.dr_start_key request) (msg.dr_end_key request) then EILLEGAL_PARAMTETERS
  else OK.

(** [ValidateTxnDumpRequest] *)
Definition ValidateTxnDumpRequest `{Collaborators} (request : msg.TxnDumpRequest)
    (region : store.Region) : Status :=
  (* check if region_epoch is match *)
  let epoch_ret := ValidateRegionEpoch (msg.region_epoch (msg.dump_context request)) (Some region) in
  if negb (ok epoch_ret) then epoch_ret
  else if bool_decide (msg.dump_start_key request = EmptyString) then EILLEGAL_PARAMTETERS
  else if bool_decide (msg.dump_end_key request = EmptyString) then EILLEGAL_PARAMTETERS
  else if bool_decide (msg.dump_start_key request = msg.dump_end_key request)
  then EILLEGAL_PARAMTETERS
  else if compare_gt (msg.dump_start_key request) (msg.dump_end_key request)
  then EILLEGAL_PARAMTETERS
  else if msg.end_ts request =? 0 then EILLEGAL_PARAMTETERS
  else OK.

(** ** DocumentService: the bodies run by the worker pools *)

(** What a body leaves behind: the response, the calls it made on
    [storage], how often the closure [done] was run by it, and the region. *)
Record Outcome (Response : Type) : Type := mkOutcome {
  response : Response;
  calls : list engine.Call;
  done_runs : nat;
  region_after : store.Region
}.

Arguments mkOutcome {Response} _ _ _ _.
Arguments response {Response} _.
Arguments calls {Response} _.
Arguments done_runs {Response} _.
Arguments region_after {Response} _.

(** [SetError] followed by [GetStoreRegionInfo], as every body does when
    validation fails. *)
Definition validation_error `{Collaborators} (region : store.Region) (error : msg.Error)
    (status : Status) : msg.Error :=
  ServiceHelper.GetStoreRegionInfo region (ServiceHelper.SetError error status).

(** [DoDocumentBatchQuery] *)
Definition DoDocumentBatchQuery `{Collaborators} (flags : FLAGS.t) (region : store.Region)
    (request : msg.DocumentBatchQueryRequest) (response : msg.DocumentBatchQueryResponse)
    : Outcome msg.DocumentBatchQueryResponse :=
  let status := ValidateDocumentBatchQueryRequest flags request region in
  if negb (ok status) then
    mkOutcome (msg.mkDocumentBatchQueryResponse
                 (validation_error region (msg.bq_error response) status) (msg.doucments response))
      [] 1 region
  else
    let ctx := engine.mkBatchQueryContext (store.PartitionId region) (store.Id region)
                 (store.Range region) (msg.document_ids request) (msg.selected_keys request)
                 (negb (msg.without_scalar_data request)) (negb (msg.without_table_data request))
                 (msg.bq_ts request) in
    let reply := storage (engine.DocumentBatchQuery ctx) in
    if negb (ok (engine.status reply)) then
      mkOutcome (msg.mkDocumentBatchQueryResponse
                   (ServiceHelper.SetError (msg.bq_error response) (engine.status reply))
                   (msg.doucments response))
        [engine.DocumentBatchQuery ctx] 1 region
    else
      mkOutcome (msg.mkDocumentBatchQueryResponse (msg.bq_error response)
                   (msg.doucments response ++ engine.document_with_ids reply))
        [engine.DocumentBatchQuery ctx] 1 region.

(** [DoDocumentSearch] *)
Definition DoDocumentSearch `{Collaborators} (flags : FLAGS.t) (region : store.Region)
    (request : msg.DocumentSearchRequest) (response : msg.DocumentSearchResponse)
    : Outcome msg.DocumentSearchResponse :=
  let status := ValidateDocumentSearchRequest flags request (Some region) in
  if negb (ok status) then
    mkOutcome (msg.mkDocumentSearchResponse
                 (validation_error region (msg.s_error response) status)
                 (msg.s_document_with_scores response))
      [] 1 region
  else if msg.top_n (msg.s_parameter request) =? 0 then mkOutcome response [] 1 region
  else
    let ctx := engine.mkSearchContext (store.PartitionId region) (store.Id region)
                 (store.Range region) (msg.s_parameter request) in
    let reply := storage (engine.DocumentSearch ctx) in
    if negb (ok (engine.status reply)) then
      mkOutcome (msg.mkDocumentSearchResponse
                   (ServiceHelper.SetError (msg.s_error response) (engine.status reply))
                   (msg.s_document_with_scores response))
        [engine.DocumentSearch ctx] 1 region
    else
      mkOutcome (msg.mkDocumentSearchResponse (msg.s_error response)
                   (msg.s_document_with_scores response ++ engine.document_results reply))
        [engine.DocumentSearch ctx] 1 region.

(** [DoDocumentSearchAll]; [None] when [CHECK(stream != nullptr)] aborts. *)
Definition DoDocumentSearchAll `{Collaborators} (flags : FLAGS.t) (region : store.Region)
    (request : msg.DocumentSearchAllRequest) (response : msg.DocumentSearchAllResponse)
    : option (Outcome msg.DocumentSearchAllResponse) :=
  let status := ValidateDocumentSearchAllRequest flags request (Some region) in
  if negb (ok status) then
    Some (mkOutcome (msg.mkDocumentSearchAllResponse
                       (validation_error region (msg.sa_error response) status)
                       (msg.sa_document_with_scores response) (msg.sa_resp_stream_meta response))
            [] 1 region)
  else
    let ctx := engine.mkSearchContext (store.PartitionId region) (store.Id region)
                 (store.Range region) (msg.sa_parameter request) in
    let call := engine.DocumentSearchAll ctx (msg.sa_stream_meta request) in
    let reply := storage call in
    if negb (ok (engine.status reply)) then
      Some (mkOutcome (msg.mkDocumentSearchAllResponse
                         (ServiceHelper.SetError (msg.sa_error response) (engine.status reply))
                         (msg.sa_document_with_scores response) (msg.sa_resp_stream_meta response))
              [call] 1 region)
    else
      match engine.stream reply with
      | None => None
      | Some stream_id =>
        Some (mkOutcome (msg.mkDocumentSearchAllResponse (msg.sa_error response)
                           (msg.sa_document_with_scores response ++ engine.document_results reply)
                           (Some (msg.mkStreamResponseMeta stream_id (engine.has_more reply))))
                [call] 1 region)
      end.

(** [DoDocumentAdd] *)
Definition DoDocumentAdd `{Collaborators} (flags : FLAGS.t) (region : store.Region)
    (request : msg.DocumentAddRequest) (response : msg.DocumentAddResponse) (is_sync : bool)
    : Outcome msg.DocumentAddResponse :=
  let status := ValidateDocumentAddRequest flags request region in
  if negb (ok status) then
    mkOutcome (msg.mkDocumentAddResponse (validation_error region (msg.add_error response) status))
      [] 1 region
  else
    let ctx := engine.mkContext (msg.region_id (msg.add_context request))
                 (msg.region_epoch (msg.add_context request)) None
                 (if msg.ttl request >? 0 then Some (int64_add TimestampMs (msg.ttl request)) else None)
                 (negb is_sync) in
    let call := engine.DocumentAdd ctx is_sync (msg.documents request) (msg.is_update request) in
    let status := engine.status (storage call) in
    if negb (ok status) then
      mkOutcome (msg.mkDocumentAddResponse (ServiceHelper.SetError (msg.add_error response) status))
        [call] 1 region
    else mkOutcome response [call] (if is_sync then 1 else 0) region.

(** [DoDocumentDelete] *)
Definition DoDocumentDelete `{Collaborators} (flags : FLAGS.t) (region : store.Region)
    (request : msg.DocumentDeleteRequest) (response : msg.DocumentDeleteResponse) (is_sync : bool)
    : Outcome msg.DocumentDeleteResponse :=
  let status := ValidateDocumentDeleteRequest flags request region in
  if negb (ok status) then
    mkOutcome (msg.mkDocumentDeleteResponse (validation_error region (msg.del_error response) status))
      [] 1 region
  else
    let ctx := engine.mkContext (msg.region_id (msg.del_context request))
                 (msg.region_epoch (msg.del_context request)) None None (negb is_sync) in
    let call := engine.DocumentDelete ctx is_sync (store.Id region) (msg.ids request) in
    let status := engine.status (storage call) in
    if negb (ok status) then
      mkOutcome (msg.mkDocumentDeleteResponse (ServiceHelper.SetError (msg.del_error response) status))
        [call] 1 region
    else mkOutcome response [call] (if is_sync then 1 else 0) region.

(** The loop of [DoTxnScanDocument] over the key-values read: the documents
    added to the response, and whether every value parsed. *)
Fixpoint add_documents `{Collaborators} (kvs : list msg.KeyValue) (documents : list msg.DocumentWithId)
    : list msg.DocumentWithId * bool :=
  match kvs with
  | [] => (documents, true)
  | kv :: rest =>
    if bool_decide (msg.value kv = EmptyString)
    then add_documents rest (documents ++ [msg.mkDocumentWithId 0 []])
    else
      match ParseFromString (msg.value kv) with
      | None => (documents, false)
      | Some document_with_id => add_documents rest (documents ++ [document_with_id])
      end
  end.

(** [DoTxnScanDocument]; [None] when [CHECK(stream != nullptr)] aborts. *)
Definition DoTxnScanDocument `{Collaborators} (flags : FLAGS.t) (region : store.Region)
    (request : msg.TxnScanRequest) (response : msg.TxnScanResponse)
    : option (Outcome msg.TxnScanResponse) :=
  let with_error error :=
    msg.mkTxnScanResponse error (msg.txn_result response) (msg.scan_documents response)
      (msg.scan_end_key response) (msg.scan_has_more response) (msg.scan_resp_stream_meta response) in
  let region := store.SetTxnAccessMaxTs region (msg.scan_start_ts request) in
  let uniform_range := TransformRangeWithOptions (msg.scan_range request) in
  let status := ValidateTxnScanRequestIndex flags request (Some region) uniform_range in
  if negb (ok status) then
    if bool_decide (ERANGE_INVALID = status) then Some (mkOutcome response [] 1 region)
    else Some (mkOutcome (with_error (validation_error region (msg.scan_error response) status))
                 [] 1 region)
  else
    let resolved_locks : gset Z := list_to_set (msg.resolved_locks (msg.scan_context request)) in
    let correction_range := IntersectRange (store.Range region) uniform_range in
    let isolation_level := msg.isolation_level (msg.scan_context request) in
    let check := CheckRange region (msg.start_key correction_range) (msg.end_key correction_range)
                   isolation_level (msg.scan_start_ts request) resolved_locks in
    (* read key check *)
    if bool_decide (isolation_level = msg.SnapshotIsolation) && check.1 then
      Some (mkOutcome
              (msg.mkTxnScanResponse
                 (ServiceHelper.SetError (msg.scan_error response) ETXN_MEMORY_LOCK_CONFLICT)
                 (Some check.2) (msg.scan_documents response) (msg.scan_end_key response)
                 (msg.scan_has_more response) (msg.scan_resp_stream_meta response))
              [] 1 region)
    else
      let ctx := engine.mkContext (msg.region_id (msg.scan_context request))
                   (msg.region_epoch (msg.scan_context request)) (Some isolation_level) None false in
      let call := engine.TxnScan ctx (msg.scan_stream_meta request) (msg.scan_start_ts request)
                    correction_range (msg.scan_limit request) (msg.key_only request)
                    (msg.is_reverse request) resolved_locks (negb (msg.has_coprocessor request)) in
      let reply := storage call in
      if negb (ok (engine.status reply)) then
        Some (mkOutcome
                (with_error (ServiceHelper.SetError (msg.scan_error response) (engine.status reply)))
                [call] 1 region)
      else
        let '(documents, parsed) := add_documents (engine.kvs reply) (msg.scan_documents response) in
        if negb parsed then
          Some (mkOutcome
                  (msg.mkTxnScanResponse
                     (msg.mkError EINTERNAL (msg.store_region_info (msg.scan_error response)))
                     (msg.txn_result response) documents (msg.scan_end_key response)
                     (msg.scan_has_more response) (msg.scan_resp_stream_meta response))
                  [call] 1 region)
        else
          let txn_result :=
            if Z.of_nat (String.length (engine.txn_result_info reply)) >? 0
            then Some (engine.txn_result_info reply) else msg.txn_result response in
          match engine.stream reply with
          | None => None
          | Some stream_id =>
            Some (mkOutcome
                    (msg.mkTxnScanResponse (msg.scan_error response) txn_result documents
                       (engine.end_key reply) (engine.has_more reply)
                       (Some (msg.mkStreamResponseMeta stream_id (engine.has_more reply))))
                    [call] 1 region)
          end.

(** The arguments of a call of [storage->TxnBatchGet]. *)
Record TxnBatchGetCall : Type := mkTxnBatchGetCall {
  tbg_ctx : engine.Context;
  tbg_start_ts : Z;
  tbg_keys : list string;
  tbg_resolved_locks : gset Z
}.

(** What [DoTxnBatchGetDocument] leaves behind: the response, its calls of
    [storage->TxnBatchGet], how often it ran the closure, and the region. *)
Record BatchGetOutcome : Type := mkBatchGetOutcome {
  bg_response : msg.TxnBatchGetResponse;
  bg_calls : list TxnBatchGetCall;
  bg_done_runs : nat;
  bg_region_after : store.Region
}.

(** [DoTxnBatchGetDocument] *)
Definition DoTxnBatchGetDocument `{Collaborators} `{TxnCollaborators} (region : store.Region)
    (request : msg.TxnBatchGetRequest) (response : msg.TxnBatchGetResponse) : BatchGetOutcome :=
  let region := store.SetTxnAccessMaxTs region (msg.bg_start_ts request) in
  let status := ValidateTxnBatchGetRequest request region in
  if negb (ok status) then
    mkBatchGetOutcome
      (msg.mkTxnBatchGetResponse (validation_error region (msg.bg_error response) status)
         (msg.bg_txn_result response) (msg.bg_documents response))
      [] 1 region
  else
    let keys := msg.bg_keys request in
    let resolved_locks : gset Z := list_to_set (msg.resolved_locks (msg.bg_context request)) in
    let isolation_level := msg.isolation_level (msg.bg_context request) in
    let check := CheckKeys region keys isolation_level (msg.bg_start_ts request) resolved_locks in
    (* read key check *)
    if bool_decide (isolation_level = msg.SnapshotIsolation) && check.1 then
      mkBatchGetOutcome
        (msg.mkTxnBatchGetResponse
           (ServiceHelper.SetError (msg.bg_error response) ETXN_MEMORY_LOCK_CONFLICT)
           (Some check.2) (msg.bg_documents response))
        [] 1 region
    else
      let ctx := engine.mkContext (msg.region_id (msg.bg_context request))
                   (msg.region_epoch (msg.bg_context request)) (Some isolation_level) None false in
      let call := mkTxnBatchGetCall ctx (msg.bg_start_ts request) keys resolved_locks in
      let reply := TxnBatchGet ctx (msg.bg_start_ts request) keys resolved_locks in
      if negb (ok (engine.status reply)) then
        mkBatchGetOutcome
          (msg.mkTxnBatchGetResponse
             (ServiceHelper.SetError (msg.bg_error response) (engine.status reply))
             (msg.bg_txn_result response) (msg.bg_documents response))
          [call] 1 region
      else
        let '(documents, parsed) := add_documents (engine.kvs reply) (msg.bg_documents response) in
        if negb parsed then
          mkBatchGetOutcome
            (msg.mkTxnBatchGetResponse
               (msg.mkError EINTERNAL (msg.store_region_info (msg.bg_error response)))
               (msg.bg_txn_result response) documents)
            [call] 1 region
        else
          mkBatchGetOutcome
            (msg.mkTxnBatchGetResponse (msg.bg_error response)
               (Some (engine.txn_result_info reply)) documents)
            [call] 1 region.

(** ** DocumentService: the RPC entry points *)

(** The methods of [DocumentServiceImpl]. *)
Inductive Rpc : Type :=
| DocumentBatchQuery | DocumentSearch | DocumentSearchAll | DocumentAdd | DocumentDelete
| DocumentGetBorderId | DocumentScanQuery | DocumentGetRegionMetrics | DocumentCount
| TxnGet | TxnScan | TxnPessimisticLock | TxnPessimisticRollback | TxnPrewrite | TxnCommit
| TxnCheckTxnStatus | TxnResolveLock | TxnBatchGet | TxnBatchRollback | TxnScanLock
| TxnHeartBeat | TxnGc | TxnDeleteRange | BackupData | RestoreData | TxnDump
| Hello | GetMemoryInfo.

Inductive WorkerSet : Type := read_worker_set_ | write_worker_set_.

Inductive Dispatch : Type := ExecuteRR | ExecuteLeastQueue.

(** How an entry point is written: whether it returns when the closure has
    no region, whether it asks [IsBackgroundPendingTaskCountExceed], the flag
    that lets it run its body inline, whether it validates before queueing,
    and the pool and policy it queues with. *)
Record Entry : Type := mkEntry {
  checks_region : bool;
  checks_background : bool;
  async_flag : option (FLAGS.t → bool);
  validates_first : bool;
  worker_set : WorkerSet;
  dispatch : Dispatch
}.

Definition entry_of (rpc : Rpc) : Entry :=
  match rpc with
  | DocumentBatchQuery =>
      mkEntry true false (Some FLAGS.enable_async_document_operation) false read_worker_set_ ExecuteRR
  | DocumentSearch =>
      mkEntry true false (Some FLAGS.enable_async_document_search) false read_worker_set_ ExecuteLeastQueue
  | DocumentSearchAll =>
      mkEntry true false (Some FLAGS.enable_async_document_search) false read_worker_set_ ExecuteLeastQueue
  | DocumentAdd => mkEntry true true None false write_worker_set_ ExecuteRR
  | DocumentDelete => mkEntry true false None false write_worker_set_ ExecuteRR
  | DocumentGetBorderId =>
      mkEntry true false (Some FLAGS.enable_async_document_operation) false read_worker_set_ ExecuteRR
  | DocumentScanQuery =>
      mkEntry true false (Some FLAGS.enable_async_document_operation) false read_worker_set_ ExecuteRR
  | DocumentGetRegionMetrics =>
      mkEntry true false (Some FLAGS.enable_async_document_operation) false read_worker_set_ ExecuteRR
  | DocumentCount =>
      mkEntry true false (Some FLAGS.enable_async_document_count) false read_worker_set_ ExecuteRR
  | TxnGet => mkEntry true false None false read_worker_set_ ExecuteRR
  | TxnScan => mkEntry true false None false read_worker_set_ ExecuteRR
  | TxnPessimisticLock => mkEntry true false None false write_worker_set_ ExecuteRR
  | TxnPessimisticRollback => mkEntry true false None false write_worker_set_ ExecuteRR
  | TxnPrewrite => mkEntry true true None false write_worker_set_ ExecuteRR
  | TxnCommit => mkEntry true true None false write_worker_set_ ExecuteRR
  | TxnCheckTxnStatus => mkEntry true true None true write_worker_set_ ExecuteRR
  | TxnResolveLock => mkEntry true true None true write_worker_set_ ExecuteRR
  | TxnBatchGet => mkEntry true false None false read_worker_set_ ExecuteRR
  | TxnBatchRollback => mkEntry true false None false write_worker_set_ ExecuteRR
  | TxnScanLock => mkEntry true false None false read_worker_set_ ExecuteRR
  | TxnHeartBeat => mkEntry true false None false write_worker_set_ ExecuteRR
  | TxnGc => mkEntry true false None true write_worker_set_ ExecuteRR
  | TxnDeleteRange => mkEntry true false None false write_worker_set_ ExecuteRR
  | BackupData => mkEntry true false None false write_worker_set_ ExecuteRR
  | RestoreData => mkEntry true false None false write_worker_set_ ExecuteRR
  | TxnDump => mkEntry true false None false read_worker_set_ ExecuteRR
  | Hello => mkEntry false false None false read_worker_set_ ExecuteRR
  | GetMemoryInfo => mkEntry false false None false read_worker_set_ ExecuteRR
  end.

(** What an entry point does on the RPC thread, in order. *)
Inductive Step : Type :=
| SetError (errcode : Errno)
| done_Run
| run_inline (rpc : Rpc)
| Execute (worker_set : WorkerSet) (dispatch : Dispatch) (rpc : Rpc) (ret : bool).

(** What the entry point finds when it runs: whether the closure has a
    region, the count of pending background tasks, the status of the
    validation done before queueing, and the answers of the worker sets. *)
Record Surroundings : Type := mkSurroundings {
  region_found : bool;
  GetBackgroundPendingTaskCount : Z;
  validation : Status;
  queue_accepts : WorkerSet → Dispatch → bool
}.

(** [DocumentServiceImpl::IsBackgroundPendingTaskCountExceed] *)
Definition IsBackgroundPendingTaskCountExceed (flags : FLAGS.t) (env : Surroundings) : bool :=
  GetBackgroundPendingTaskCount env >? FLAGS.document_max_background_task_count flags.

(** The entry point [DocumentServiceImpl::rpc]. *)
Definition serve (flags : FLAGS.t) (env : Surroundings) (rpc : Rpc) : list Step :=
  let entry := entry_of rpc in
  if checks_region entry && negb (region_found env) then [done_Run]
  else if checks_background entry && IsBackgroundPendingTaskCountExceed flags env
  then [SetError EREQUEST_FULL; done_Run]
  else if match async_flag entry with Some flag => negb (flag flags) | None => false end
  then [run_inline rpc]
  else if validates_first entry && negb (ok (validation env))
  then [SetError (validation env)]
  else
    (* Run in queue. *)
    let ret := queue_accepts env (worker_set entry) (dispatch entry) in
    if negb ret
    then [Execute (worker_set entry) (dispatch entry) rpc ret; SetError EREQUEST_FULL; done_Run]
    else [Execute (worker_set entry) (dispatch entry) rpc ret].

(** The error code of the response after the steps, from [errcode]. *)
Definition errcode_after (steps : list Step) (errcode : Errno) : Errno :=
  fold_left (λ code step, match step with SetError c => c | _ => code end) steps errcode.

(** How often the steps ran the closure. *)
Definition done_count (steps : list Step) : nat :=
  length (omap (λ step, match step with done_Run => Some step | _ => None end) steps).

End DocumentService.

(** * Vocabulary of the properties *)

(** [rev_map] knows exactly the labels of [id_map]. *)
Definition rev_map_consistent (index : faiss.IndexIDMap2) : Prop :=
  ∀ i : Z, i ∈ faiss.id_map index ↔ is_Some (faiss.rev_map index !! i).

(** The row that [AddOrUpsert] hands to faiss for [v]. *)
Definition stored_row `{FlatMath} (self : VectorIndexFlat.t) (v : common.VectorWithId) : list float :=
  if VectorIndexFlat.normalize_ self then NormalizeVectorForFaiss (common.float_values v)
  else common.float_values v.

(** The radii that a run handed to [IndexIDMap2::range_search]. *)
Definition radii_handed `{FlatMath} (tr : list VectorIndexFlat.Event) : list float :=
  omap (λ e, match e with VectorIndexFlat.range_search _ _ r _ => Some r | _ => None end) tr.

(** The states a flat index goes through under [AddOrUpsert] and [Delete]. *)
Inductive evolves `{FlatMath} (init : VectorIndexFlat.t) : VectorIndexFlat.t → Prop :=
| evolves_new : evolves init init
| evolves_AddOrUpsert self batch is_upsert :
    evolves init self → evolves init (VectorIndexFlat.AddOrUpsert self batch is_upsert).1.2
| evolves_Delete self delete_ids :
    evolves init self → evolves init (VectorIndexFlat.Delete self delete_ids).1.2.

(** The states a flat index goes through under [AddOrUpsert], [Delete] and
    [Load], whatever the batches, the ids and the files read are. *)
Inductive lives `{FlatMath} (init : VectorIndexFlat.t) : VectorIndexFlat.t → Prop :=
| lives_new : lives init init
| lives_AddOrUpsert self batch is_upsert :
    lives init self → lives init (VectorIndexFlat.AddOrUpsert self batch is_upsert).1.2
| lives_Delete self delete_ids :
    lives init self → lives init (VectorIndexFlat.Delete self delete_ids).1.2
| lives_Load self path_empty file :
    lives init self → lives init (VectorIndexFlat.Load self path_empty file).2.

(** The batch as faiss sees it when the index normalises. *)
Definition normalized_rows `{FlatMath} (batch : list common.VectorWithId) : list (list float) :=
  (λ v, NormalizeVectorForFaiss (common.float_values v)) <$> batch.

(** A scan body answered as a stream: it returned, without error, with the
    stream meta of the response set. *)
Definition streamed_scan (o : option (DocumentService.Outcome msg.TxnScanResponse)) : Prop :=
  ∃ outcome stream_meta,
    o = Some outcome
    ∧ msg.errcode (msg.scan_error (DocumentService.response outcome)) = OK
    ∧ msg.scan_resp_stream_meta (DocumentService.response outcome) = Some stream_meta.

Definition streamed_search_all (o : option (DocumentService.Outcome msg.DocumentSearchAllResponse))
    : Prop :=
  ∃ outcome stream_meta,
    o = Some outcome
    ∧ msg.errcode (msg.sa_error (DocumentService.response outcome)) = OK
    ∧ msg.sa_resp_stream_meta (DocumentService.response outcome) = Some stream_meta.

(** A step that hands the request on: the body run on the RPC thread, or a
    task that a worker set accepted. *)
Definition handed_over (step : DocumentService.Step) : bool :=
  match step with
  | DocumentService.run_inline _ => true
  | DocumentService.Execute _ _ _ ret => ret
  | _ => false
  end.

(** The document that the scan and batch-get bodies add for a value read:
    an empty value gives the default document, any other value is parsed. *)
Definition document_of_value `{Collaborators} (kv : msg.KeyValue) : option msg.DocumentWithId :=
  if bool_decide (msg.value kv = EmptyString) then Some (msg.mkDocumentWithId 0 [])
  else ParseFromString (msg.value kv).

(** ** Sample surroundings

    A concrete arithmetic for the flat index and a concrete set of
    collaborators of the document service, to run the embedding on. *)

Module sample.

Definition f0 : float := S754_zero false.
Definition f3 : float := S754_finite false 12582912 (-22).
Definition f4 : float := S754_finite false 8388608 (-21).
Definition f_0_25 : float := S754_finite false 8388608 (-25).
Definition f_0_75 : float := S754_finite false 12582912 (-24).

(** Left-to-right L2 normalisation in binary32. *)
Definition l2_normalize (row : list float) : list float :=
  let fmul := SFmul float_prec float_emax in
  let fadd := SFadd float_prec float_emax in
  let norm := SFsqrt float_prec float_emax (fold_left (λ acc x, fadd acc (fmul x x)) row f0) in
  map (λ x, SFdiv float_prec float_emax x norm) row.

(** A flat arithmetic: filters are predicates on labels, a search reports
    the first [k] labels with distance zero, a range search reports every
    stored label at the radius it was given. *)
Definition math : FlatMath := {|
  FilterFunctor := Z → bool;
  RangeSearchResult := list (Z * float);
  VectorWithDistanceResult := Z * float;
  NormalizeVectorForFaiss := l2_normalize;
  faiss_search := λ index n x k sel,
    (replicate (N.to_nat k) f0, take (N.to_nat k) (faiss.id_map index));
  faiss_range_search := λ index n x radius sel,
    Some ((λ e : Z * list float, (e.1, radius)) <$> faiss.entries index);
  FillSearchResult := λ q k distances labels metric dimension results,
    results ++ zip labels distances;
  FillRangeSearchResult := λ r metric dimension results, results ++ r
|}.

Definition epoch : msg.RegionEpoch := msg.mkRegionEpoch 1 7.

Definition region : store.Region :=
  store.mkRegion 80001 3 (msg.mkRange "a" "z") (store.mkDocumentIndexWrapper true false) 0 0.

Definition context : msg.Context := msg.mkContext 80001 epoch msg.SnapshotIsolation [].

(** Collaborators that accept every request: a leader of a healthy region
    in a writable cluster, whose engine answers every call with [OK], no
    rows and the stream ["s1"]. Keys carry the document id as a decimal
    digit in their last character. *)
Definition collaborators : Collaborators := {|
  ValidateRegionEpoch := λ _ _, OK;
  ValidateRegionState := λ _, OK;
  ValidateClusterReadOnly := OK;
  ValidateDocumentRegion := λ _ _, OK;
  ValidateRegion := λ _ _, OK;
  ValidateRange := λ _, OK;
  ValidateRangeInRange := λ _ _, OK;
  ValidateLeader := λ _, OK;
  StoreRegionInfo := λ r, Some (store.Id r);
  storage := λ _, engine.mkReply OK [] [] [] false "" "" (Some "s1"%string);
  UnPackageDocumentId := λ key,
    match rev (list_ascii_of_string key) with
    | c :: _ => Z.of_nat (Ascii.nat_of_ascii c) - 48
    | [] => 0
    end;
  ParseFromString := λ _, None;
  ByteSizeLong_add := λ request, 16 * Z.of_nat (length (msg.documents request));
  ByteSizeLong_prewrite := λ request, 32 * Z.of_nat (length (msg.mutations request));
  TimestampMs := 1700000000000;
  TransformRangeWithOptions := msg.range;
  IntersectRange := λ r1 r2, r2;
  CheckRange := λ _ _ _ _ _ _, (false, ""%string)
|}.

Definition flags : FLAGS.t := FLAGS.defaults 1024 1000 32.

Definition document (id : Z) : msg.DocumentWithId := msg.mkDocumentWithId id [("title", "x")]%string.

Definition add_request (ids : list Z) : msg.DocumentAddRequest :=
  msg.mkDocumentAddRequest context (document <$> ids) false 0.

Definition scan_request (limit : Z) : msg.TxnScanRequest :=
  msg.mkTxnScanRequest context (msg.mkRangeWithOptions (msg.mkRange "b" "c") true false)
    limit 100 false false false (msg.mkStreamRequestMeta "" 0 false).

Definition search_all_request (limit : Z) : msg.DocumentSearchAllRequest :=
  msg.mkDocumentSearchAllRequest context (msg.mkDocumentSearchParameter 10 "x")
    (msg.mkStreamRequestMeta "" limit false).

Definition scan_response : msg.TxnScanResponse :=
  msg.mkTxnScanResponse msg.no_error None [] "" false None.

Definition search_all_response : msg.DocumentSearchAllResponse :=
  msg.mkDocumentSearchAllResponse msg.no_error [] None.

Definition search_request (top_n : Z) : msg.DocumentSearchRequest :=
  msg.mkDocumentSearchRequest context (msg.mkDocumentSearchParameter top_n "x").

Definition search_response : msg.DocumentSearchResponse :=
  msg.mkDocumentSearchResponse msg.no_error [].

Definition add_response : msg.DocumentAddResponse := msg.mkDocumentAddResponse msg.no_error.

(** An L2 index of dimension 2 that holds the row (3, 4) under the id 42. *)
Definition stocked : VectorIndexFlat.t :=
  VectorIndexFlat.mk 1 METRIC_TYPE_L2 2 false
    (faiss.mkIndexIDMap2 2 faiss.METRIC_L2 [(42, [f3; f4])] {[ 42 := 0%nat ]}).

(** A queue that takes nothing. *)
Definition full_queues : DocumentService.Surroundings :=
  DocumentService.mkSurroundings true 0 OK (λ _ _, false).

(** A backlog of background tasks above the bound of [flags]. *)
Definition backlog : DocumentService.Surroundings :=
  DocumentService.mkSurroundings true 33 OK (λ _ _, true).

(** An index file that holds the row (3, 4) under the id 5, written by an
    L2 index of dimension 2. *)
Definition index_file : VectorIndexFlat.read_index :=
  VectorIndexFlat.read_IndexIDMap2 2 (Some faiss.METRIC_L2) [(5, [f3; f4])] true.

(** Surroundings in which the validation before queueing fails. *)
Definition refusing : DocumentService.Surroundings :=
  DocumentService.mkSurroundings true 0 EILLEGAL_PARAMTETERS (λ _ _, true).

(** Transactional collaborators: no key is locked in memory, and a batch get
    finds one key with an empty value. *)
Definition txn_collaborators : TxnCollaborators := {|
  TxnBatchGet := λ _ _ _ _,
    engine.mkReply OK [] [] [msg.mkKeyValue "k1" ""] false "" "" None;
  CheckKeys := λ _ _ _ _ _, (false, ""%string);
  ByteSizeLong_commit := λ request, 24 * Z.of_nat (length (msg.cm_keys request))
|}.

Definition batch_get_request : msg.TxnBatchGetRequest :=
  msg.mkTxnBatchGetRequest context ["k1"%string] 100.

Definition batch_get_response : msg.TxnBatchGetResponse :=
  msg.mkTxnBatchGetResponse msg.no_error None [].

Definition delete_range_request : msg.TxnDeleteRangeRequest :=
  msg.mkTxnDeleteRangeRequest context "b" "c".

(** A region that serves as many requests as a 32-bit counter can hold. *)
Definition busy : store.Statistics := store.mkStatistics 2147483647 0.

(** Collaborators as [collaborators], but with a [ValidateRange] that
    reports a range whose start key is not below its end key as
    [ERANGE_INVALID]. *)
Definition range_checking : Collaborators := {|
  ValidateRegionEpoch := λ _ _, OK;
  ValidateRegionState := λ _, OK;
  ValidateClusterReadOnly := OK;
  ValidateDocumentRegion := λ _ _, OK;
  ValidateRegion := λ _ _, OK;
  ValidateRange := λ range,
    match String.compare (msg.start_key range) (msg.end_key range) with
    | Lt => OK
    | _ => ERANGE_INVALID
    end;
  ValidateRangeInRange := λ _ _, OK;
  ValidateLeader := λ _, OK;
  StoreRegionInfo := λ r, Some (store.Id r);
  storage := λ _, engine.mkReply OK [] [] [] false "" "" (Some "s1"%string);
  UnPackageDocumentId := λ _, 1;
  ParseFromString := λ _, None;
  ByteSizeLong_add := λ request, 16 * Z.of_nat (length (msg.documents request));
  ByteSizeLong_prewrite := λ request, 32 * Z.of_nat (length (msg.mutations request));
  TimestampMs := 1700000000000;
  TransformRangeWithOptions := msg.range;
  IntersectRange := λ r1 r2, r2;
  CheckRange := λ _ _ _ _ _ _, (false, ""%string)
|}.

(** A scan from "c" to "b". *)
Definition backward_scan_request : msg.TxnScanRequest :=
  msg.mkTxnScanRequest context (msg.mkRangeWithOptions (msg.mkRange "c" "b") true false)
    10 100 false false false (msg.mkStreamRequestMeta "" 0 false).



(** The backlog of [backlog], met by a request whose region is not found. *)
Definition backlog_without_region : DocumentService.Surroundings :=
  DocumentService.mkSurroundings false 33 OK (λ _ _, true).


End sample.

(** * Properties *)

(** Case analysis on the conditions of a chain of early returns, outermost
    first. *)
Ltac early_return :=
  match goal with
  | |- context [negb (ok ?s)] => destruct (ok s) eqn:?; cbn [negb]
  | |- context [if ?c then _ else _] => destruct c eqn:?
  end.

(** ** The faiss handle *)

Lemma rev_map_assign_is_Some (ids : list Z) :
  ∀ (start : nat) (m : gmap Z nat) (i : Z),
    is_Some (faiss.rev_map_assign start ids m !! i) ↔ i ∈ ids ∨ is_Some (m !! i).
Proof.
  induction ids as [|a ids IH]; intros start m i; simpl.
  - rewrite elem_of_nil. tauto.
  - rewrite IH, lookup_insert_is_Some', elem_of_cons. intuition congruence.
Qed.


Lemma construct_rev_map_consistent (index : faiss.IndexIDMap2) (sel : list Z) :
  rev_map_consistent (faiss.remove_ids index sel).2.
Proof.
  intros i. unfold faiss.remove_ids, faiss.id_map, faiss.construct_rev_map. simpl.
  rewrite rev_map_assign_is_Some, lookup_empty. split; [auto|].
  intros [?|[? ?]]; done.
Qed.

Lemma add_with_ids_consistent (index : faiss.IndexIDMap2) n x xids :
  rev_map_consistent index → rev_map_consistent (faiss.add_with_ids index n x xids).
Proof.
  intros Hc i. unfold faiss.add_with_ids, faiss.id_map. simpl.
  rewrite fmap_app, elem_of_app, rev_map_assign_is_Some.
  specialize (Hc i). unfold faiss.id_map in Hc. tauto.
Qed.


(** ** Upsert on the flat index *)



Lemma batch_zip_fst {B : Type} (f : common.VectorWithId → B) (batch : list common.VectorWithId) :
  (zip (common.id <$> batch) (f <$> batch)).*1 = common.id <$> batch.
Proof. induction batch as [|a batch IH]; [done|]. csimpl. by rewrite IH. Qed.


Lemma filter_none {A : Type} (P : A → Prop) `{∀ x, Decision (P x)} (l : list A) :
  (∀ x, x ∈ l → ¬ P x) → filter P l = [].
Proof.
  intros Hn. destruct (filter P l) as [|x l'] eqn:E; [done|].
  assert (Hx : x ∈ filter P l) by (rewrite E; left).
  apply list_elem_of_filter in Hx as [? ?]. by destruct (Hn x).
Qed.




(** ** Range search radius *)

(** A call that fails its argument checks never reaches the traversal. *)
Lemma RangeSearch_rejected_no_traversal `{FlatMath} (self : VectorIndexFlat.t)
    (q : list common.VectorWithId) (radius : float) (filters : list FilterFunctor)
    (results : list VectorWithDistanceResult) :
  q = [] ∨ VectorIndexUtils.CheckVectorDimension q (VectorIndexFlat.dimension_ self) ≠ OK →
  radii_handed (VectorIndexFlat.RangeSearch self q radius filters results).2 = [].
Proof.
  intros Hbad. unfold VectorIndexFlat.RangeSearch.
  case_bool_decide as Hq; [done|]. destruct Hbad as [?|Hd]; [done|].
  unfold ok. by rewrite (bool_decide_eq_false_2 (_ = OK)).
Qed.

(** C1. A range search that reaches the index hands it [1.0F - radius] when
    the metric type is inner product or cosine, and [radius] itself when the
    metric type is L2. *)
Theorem RangeSearch_radius_by_metric `{FlatMath} (self : VectorIndexFlat.t)
    (q : list common.VectorWithId) (radius : float) (filters : list FilterFunctor)
    (results : list VectorWithDistanceResult) :
  q ≠ [] →
  VectorIndexUtils.CheckVectorDimension q (VectorIndexFlat.dimension_ self) = OK →
  let handed := radii_handed (VectorIndexFlat.RangeSearch self q radius filters results).2 in
  (VectorIndexFlat.metric_type_ self = METRIC_TYPE_INNER_PRODUCT
   ∨ VectorIndexFlat.metric_type_ self = METRIC_TYPE_COSINE →
   handed = [fsub f_1_0 radius])
  ∧ (VectorIndexFlat.metric_type_ self = METRIC_TYPE_L2 → handed = [radius]).
Proof.
  intros Hq Hd handed. unfold handed, VectorIndexFlat.RangeSearch.
  rewrite (bool_decide_eq_false_2 (q = [])) by done. rewrite Hd.
  unfold ok. rewrite (bool_decide_eq_true_2 (OK = OK)) by done. cbn [negb].
  split.
  - intros [Hm|Hm]; rewrite Hm; repeat case_bool_decide; try done; cbn [orb]; by case_match.
  - intros Hm; rewrite Hm; repeat case_bool_decide; try done; cbn [orb]; by case_match.
Qed.

(** ** The set-up of an index under [AddOrUpsert] and [Delete] *)

Lemma AddOrUpsert_keeps_setup `{FlatMath} self batch is_upsert :
  let self' := (VectorIndexFlat.AddOrUpsert self batch is_upsert).1.2 in
  VectorIndexFlat.normalize_ self' = VectorIndexFlat.normalize_ self
  ∧ faiss.metric_type (VectorIndexFlat.index_id_map2_ self')
    = faiss.metric_type (VectorIndexFlat.index_id_map2_ self).
Proof.
  unfold VectorIndexFlat.AddOrUpsert.
  repeat (case_bool_decide || case_match); simplify_eq/=; done.
Qed.

Lemma Delete_keeps_setup `{FlatMath} self delete_ids :
  let self' := (VectorIndexFlat.Delete self delete_ids).1.2 in
  VectorIndexFlat.normalize_ self' = VectorIndexFlat.normalize_ self
  ∧ faiss.metric_type (VectorIndexFlat.index_id_map2_ self')
    = faiss.metric_type (VectorIndexFlat.index_id_map2_ self).
Proof.
  unfold VectorIndexFlat.Delete.
  repeat (case_bool_decide || case_match); simplify_eq/=; try done.
  all: unfold faiss.remove_ids in *; by simplify_eq/=.
Qed.

(** ** The applied-timestamp watermark *)

Lemma SetRawAppliedMaxTs_max (region : store.Region) (ts : Z) :
  store.RawAppliedMaxTs (store.SetRawAppliedMaxTs region ts)
  = Z.max (store.RawAppliedMaxTs region) ts.
Proof.
  unfold store.SetRawAppliedMaxTs, store.RawAppliedMaxTs.
  destruct (Z.gtb_spec ts (store.raw_applied_max_ts_ region)); simpl; lia.
Qed.

(** C8. After any sequence of [SetRawAppliedMaxTs] calls the watermark is the
    maximum of its initial value and the arguments: it is the initial value
    or one of the arguments, and it is below none of them; and no single
    call lowers it. *)
Theorem raw_applied_max_ts_is_running_maximum (region : store.Region) (tss : list Z) :
  let final := store.RawAppliedMaxTs (fold_left store.SetRawAppliedMaxTs tss region) in
  (final = store.RawAppliedMaxTs region ∨ final ∈ tss)
  ∧ store.RawAppliedMaxTs region ≤ final
  ∧ (∀ ts, ts ∈ tss → ts ≤ final)
  ∧ (∀ (r : store.Region) (ts : Z),
       store.RawAppliedMaxTs r ≤ store.RawAppliedMaxTs (store.SetRawAppliedMaxTs r ts)).
Proof.
  cbn zeta. split_and!.
  - revert region. induction tss as [|ts tss IH]; intros region; [by left|].
    cbn [fold_left]. destruct (IH (store.SetRawAppliedMaxTs region ts)) as [E|Hin].
    + rewrite E, SetRawAppliedMaxTs_max.
      destruct (Z.max_spec (store.RawAppliedMaxTs region) ts) as [[_ ->]|[_ ->]];
        [right; left|by left].
    + right. by right.
  - revert region. induction tss as [|ts tss IH]; intros region; [done|].
    cbn [fold_left]. etrans; [|apply IH]. rewrite SetRawAppliedMaxTs_max. lia.
  - revert region. induction tss as [|t tss IH]; intros region ts Hin;
      [by apply elem_of_nil in Hin|].
    cbn [fold_left]. apply elem_of_cons in Hin as [->|Hin]; [|by apply IH].
    assert (Hge : ∀ l r, store.RawAppliedMaxTs r
                         ≤ store.RawAppliedMaxTs (fold_left store.SetRawAppliedMaxTs l r)).
    { clear. induction l as [|a l IHl]; intros r; [done|]. cbn [fold_left].
      etrans; [|apply IHl]. rewrite SetRawAppliedMaxTs_max. lia. }
    etrans; [|apply Hge]. rewrite SetRawAppliedMaxTs_max. lia.
  - intros r ts. rewrite SetRawAppliedMaxTs_max. lia.
Qed.

(** ** Admission at the RPC entry points *)

(** C6. Whenever an entry point of the document service tries to queue its
    task and the worker set refuses, the response error becomes
    [EREQUEST_FULL] and the closure is run, exactly once and after the error
    is set. *)
Theorem enqueue_failure_replies_request_full (flags : FLAGS.t)
    (env : DocumentService.Surroundings) (rpc : DocumentService.Rpc)
    (worker_set : DocumentService.WorkerSet) (dispatch : DocumentService.Dispatch) (errcode : Errno) :
  DocumentService.Execute worker_set dispatch rpc false ∈ DocumentService.serve flags env rpc →
  DocumentService.serve flags env rpc
  = [DocumentService.Execute worker_set dispatch rpc false;
     DocumentService.SetError EREQUEST_FULL; DocumentService.done_Run]
  ∧ DocumentService.errcode_after (DocumentService.serve flags env rpc) errcode = EREQUEST_FULL
  ∧ DocumentService.done_count (DocumentService.serve flags env rpc) = 1%nat.
Proof.
  unfold DocumentService.serve. intros Hin.
  repeat match type of Hin with
         | _ ∈ (if ?c then _ else _) => destruct c eqn:?
         end;
    rewrite ?elem_of_cons, ?elem_of_nil in Hin; destruct_or?; simplify_eq; try done.
  - match goal with E : false = _ |- _ => by rewrite <- E end.
  - match goal with E : false = _ |- _ => rewrite <- E in * end. done.
Qed.

(** C7. With a region found and more pending background tasks than
    [document_max_background_task_count], [DocumentAdd], [TxnPrewrite] and
    [TxnCommit] set [EREQUEST_FULL], run the closure and return: nothing is
    handed to a worker set. *)
Theorem background_backlog_rejects_writes (flags : FLAGS.t)
    (env : DocumentService.Surroundings) (rpc : DocumentService.Rpc) (errcode : Errno) :
  rpc = DocumentService.DocumentAdd ∨ rpc = DocumentService.TxnPrewrite
    ∨ rpc = DocumentService.TxnCommit →
  DocumentService.region_found env = true →
  DocumentService.GetBackgroundPendingTaskCount env
    > FLAGS.document_max_background_task_count flags →
  DocumentService.serve flags env rpc
  = [DocumentService.SetError EREQUEST_FULL; DocumentService.done_Run]
  ∧ DocumentService.errcode_after (DocumentService.serve flags env rpc) errcode = EREQUEST_FULL
  ∧ (∀ ws d r ret, DocumentService.Execute ws d r ret ∉ DocumentService.serve flags env rpc).
Proof.
  intros Hrpc Hregion Hpending.
  assert (Hs : DocumentService.serve flags env rpc
               = [DocumentService.SetError EREQUEST_FULL; DocumentService.done_Run]).
  { unfold DocumentService.serve, DocumentService.IsBackgroundPendingTaskCountExceed.
    rewrite Hregion. destruct (Z.gtb_spec (DocumentService.GetBackgroundPendingTaskCount env)
                                 (FLAGS.document_max_background_task_count flags)); [|lia].
    by destruct Hrpc as [->|[->| ->]]. }
  rewrite Hs. split_and!; [done..|].
  intros ws d r ret Hin. rewrite !elem_of_cons, elem_of_nil in Hin. by destruct_or?.
Qed.

(** ** Validation of document requests *)

Lemma ok_true (s : Status) : ok s = true → s = OK.
Proof. unfold ok. by intros ?%bool_decide_eq_true. Qed.

Lemma ok_false (s : Status) : ok s = false → s ≠ OK.
Proof. unfold ok. by intros ?%bool_decide_eq_false. Qed.

Lemma index_not_ready_error (region : store.Region) : DocumentService.index_not_ready region ≠ OK.
Proof. unfold DocumentService.index_not_ready. by case_match. Qed.

#[local] Hint Resolve ok_false index_not_ready_error : core.








(** ** Scans beyond the stream limit *)

(** C4, as the code has it. A document [TxnScan] whose limit, or whose
    stream limit, exceeds [stream_message_max_limit_size] is refused with
    [EILLEGAL_PARAMTETERS]: no scan is made and no stream is opened. A
    [DocumentSearchAll] whose stream limit exceeds it is refused likewise,
    with [EILLEGAL_PARAMTETERS] once region epoch and region id pass. *)
Theorem over_limit_scan_rejected `{Collaborators} (flags : FLAGS.t) (region : store.Region) :
  (∀ request response,
     msg.scan_limit request > FLAGS.stream_message_max_limit_size flags
     ∨ msg.limit (msg.scan_stream_meta request) > FLAGS.stream_message_max_limit_size flags →
     ∃ outcome,
       DocumentService.DoTxnScanDocument flags region request response = Some outcome
       ∧ DocumentService.calls outcome = []
       ∧ msg.errcode (msg.scan_error (DocumentService.response outcome)) = EILLEGAL_PARAMTETERS
       ∧ msg.scan_resp_stream_meta (DocumentService.response outcome)
         = msg.scan_resp_stream_meta response)
  ∧ (∀ request response,
       msg.limit (msg.sa_stream_meta request) > FLAGS.stream_message_max_limit_size flags →
       let status := DocumentService.ValidateDocumentSearchAllRequest flags request (Some region) in
       status ≠ OK
       ∧ (ValidateRegionEpoch (msg.region_epoch (msg.sa_context request)) (Some region) = OK →
          msg.region_id (msg.sa_context request) ≠ 0 →
          status = EILLEGAL_PARAMTETERS)
       ∧ ∃ outcome,
           DocumentService.DoDocumentSearchAll flags region request response = Some outcome
           ∧ DocumentService.calls outcome = []
           ∧ msg.errcode (msg.sa_error (DocumentService.response outcome)) = status
           ∧ msg.sa_resp_stream_meta (DocumentService.response outcome)
             = msg.sa_resp_stream_meta response).
Proof.
  split.
  - intros request response Hlimit.
    assert (Hst : ∀ r range,
              DocumentService.ValidateTxnScanRequestIndex flags request r range
              = EILLEGAL_PARAMTETERS).
    { intros r range. unfold DocumentService.ValidateTxnScanRequestIndex.
      destruct (_ && _); [done|].
      destruct Hlimit as [Hl|Hl].
      - replace (msg.scan_limit request >? FLAGS.stream_message_max_limit_size flags)
          with true by lia. done.
      - replace (msg.limit (msg.scan_stream_meta request)
                 >? FLAGS.stream_message_max_limit_size flags) with true by lia.
        by rewrite orb_true_r. }
    unfold DocumentService.DoTxnScanDocument. rewrite Hst.
    unfold ok. rewrite (bool_decide_eq_false_2 (EILLEGAL_PARAMTETERS = OK)) by done. cbn [negb].
    rewrite (bool_decide_eq_false_2 (ERANGE_INVALID = EILLEGAL_PARAMTETERS)) by done.
    eexists. split; [done|]. done.
  - intros request response Hlimit status.
    assert (Hgt : (msg.limit (msg.sa_stream_meta request)
                   >? FLAGS.stream_message_max_limit_size flags) = true) by lia.
    assert (Hbad : status ≠ OK).
    { unfold status, DocumentService.ValidateDocumentSearchAllRequest. rewrite Hgt.
      repeat early_return; auto. }
    split; [done|]. split.
    + intros Hepoch Hid. unfold status, DocumentService.ValidateDocumentSearchAllRequest.
      rewrite Hepoch, Hgt. change (ok OK) with true. cbn [negb].
      apply Z.eqb_neq in Hid. rewrite Hid. by case_match.
    + unfold DocumentService.DoDocumentSearchAll. fold status.
      unfold ok. rewrite bool_decide_eq_false_2 by done. cbn [negb].
      eexists. split; [done|]. done.
Qed.

(** ** Searches for nothing *)

(** C10. A [Search] with a non-empty batch and [topk] zero returns [OK],
    leaves [results] as they were and makes no call on the faiss index; a
    [DocumentSearch] with [top_n] zero that passes validation leaves the
    response as it was, without error and without documents, and makes no
    call on the storage engine. *)
Theorem zero_top_k_searches_nothing `{FlatMath} `{Collaborators} :
  (∀ (self : VectorIndexFlat.t) (q : list common.VectorWithId) (filters : list FilterFunctor)
     (results : list VectorWithDistanceResult),
     q ≠ [] → VectorIndexFlat.Search self q 0 filters results = (OK, results, []))
  ∧ (∀ (flags : FLAGS.t) (region : store.Region) (request : msg.DocumentSearchRequest)
       (response : msg.DocumentSearchResponse),
       msg.top_n (msg.s_parameter request) = 0 →
       DocumentService.ValidateDocumentSearchRequest flags request (Some region) = OK →
       DocumentService.DoDocumentSearch flags region request response
       = DocumentService.mkOutcome response [] 1 region).
Proof.
  split.
  - intros self q filters results Hq. unfold VectorIndexFlat.Search.
    by rewrite (bool_decide_eq_false_2 (q = [])).
  - intros flags region request response Htop Hvalid.
    unfold DocumentService.DoDocumentSearch. by rewrite Hvalid, Htop.
Qed.

(** * The properties at work on the sample surroundings *)

Lemma rev_map_consistent_by_dom (index : faiss.IndexIDMap2) :
  dom (faiss.rev_map index) = list_to_set (faiss.id_map index) → rev_map_consistent index.
Proof. intros E i. by rewrite <- elem_of_dom, E, elem_of_list_to_set. Qed.

(** On a cosine index a range search with radius 0.25 hands 0.75 to faiss. *)
Lemma RangeSearch_radius_cosine_sample :
  let self := VectorIndexFlat.new 1 METRIC_TYPE_COSINE 2 in
  let q := [common.mkVectorWithId 7 [sample.f3; sample.f4]] in
  q ≠ []
  ∧ VectorIndexUtils.CheckVectorDimension q (VectorIndexFlat.dimension_ self) = OK
  ∧ radii_handed (H := sample.math) (VectorIndexFlat.RangeSearch self q sample.f_0_25 [] []).2
    = [sample.f_0_75].
Proof.
  intros self q.
  assert (Hq : q ≠ []) by done.
  assert (Hd : VectorIndexUtils.CheckVectorDimension q (VectorIndexFlat.dimension_ self) = OK)
    by reflexivity.
  split; [exact Hq|]. split; [exact Hd|].
  exact (proj1 (RangeSearch_radius_by_metric (H := sample.math) self q sample.f_0_25 [] [] Hq Hd)
           (or_intror eq_refl)).
Defined.




(** A scan with limit 1001 against a stream limit of 1000 is refused. *)
Lemma over_limit_scan_rejected_sample :
  let request := sample.scan_request 1001 in
  msg.scan_limit request > FLAGS.stream_message_max_limit_size sample.flags
  ∧ ∃ outcome,
      DocumentService.DoTxnScanDocument (H := sample.collaborators) sample.flags sample.region
        request sample.scan_response = Some outcome
      ∧ DocumentService.calls outcome = []
      ∧ msg.errcode (msg.scan_error (DocumentService.response outcome)) = EILLEGAL_PARAMTETERS.
Proof.
  intros request.
  assert (Hl : msg.scan_limit request > FLAGS.stream_message_max_limit_size sample.flags)
    by reflexivity.
  split; [exact Hl|].
  destruct (proj1 (over_limit_scan_rejected (H := sample.collaborators) sample.flags sample.region)
              request sample.scan_response (or_introl Hl)) as (outcome & Hrun & Hcalls & Herr & _).
  exists outcome. split; [exact Hrun|]. split; [exact Hcalls|exact Herr].
Defined.

(** C4, as the specification states it, fails: with a stream limit of 1000
    a document [TxnScan] with limit 1001 and a [DocumentSearchAll] with
    stream limit 1001 are not answered as streams, although the same
    requests with limit 1000 are. *)
Lemma over_limit_scan_is_not_streamed :
  (msg.scan_limit (sample.scan_request 1001) > FLAGS.stream_message_max_limit_size sample.flags
   ∧ ¬ streamed_scan
         (DocumentService.DoTxnScanDocument (H := sample.collaborators) sample.flags sample.region
            (sample.scan_request 1001) sample.scan_response)
   ∧ streamed_scan
       (DocumentService.DoTxnScanDocument (H := sample.collaborators) sample.flags sample.region
          (sample.scan_request 1000) sample.scan_response))
  ∧ (msg.limit (msg.sa_stream_meta (sample.search_all_request 1001))
       > FLAGS.stream_message_max_limit_size sample.flags
     ∧ ¬ streamed_search_all
           (DocumentService.DoDocumentSearchAll (H := sample.collaborators) sample.flags
              sample.region (sample.search_all_request 1001) sample.search_all_response)
     ∧ streamed_search_all
         (DocumentService.DoDocumentSearchAll (H := sample.collaborators) sample.flags
            sample.region (sample.search_all_request 1000) sample.search_all_response)).
Proof.
  split; (split; [reflexivity|split]).
  - intros (outcome & stream_meta & Hrun & Herr & _).
    vm_compute in Hrun. injection Hrun as <-. vm_compute in Herr. discriminate.
  - eexists _, _. vm_compute. split; [reflexivity|]. split; reflexivity.
  - intros (outcome & stream_meta & Hrun & Herr & _).
    vm_compute in Hrun. injection Hrun as <-. vm_compute in Herr. discriminate.
  - eexists _, _. vm_compute. split; [reflexivity|]. split; reflexivity.
Qed.



(** [DocumentAdd] against full queues answers [EREQUEST_FULL] and runs the
    closure. *)
Lemma enqueue_failure_sample :
  let steps := DocumentService.serve sample.flags sample.full_queues DocumentService.DocumentAdd in
  DocumentService.Execute DocumentService.write_worker_set_ DocumentService.ExecuteRR
    DocumentService.DocumentAdd false ∈ steps
  ∧ DocumentService.errcode_after steps OK = EREQUEST_FULL
  ∧ DocumentService.done_count steps = 1%nat.
Proof.
  intros steps.
  assert (Hin : DocumentService.Execute DocumentService.write_worker_set_
                  DocumentService.ExecuteRR DocumentService.DocumentAdd false ∈ steps) by left.
  split; [exact Hin|].
  exact (proj2 (enqueue_failure_replies_request_full sample.flags sample.full_queues
                  DocumentService.DocumentAdd DocumentService.write_worker_set_
                  DocumentService.ExecuteRR OK Hin)).
Defined.

(** [TxnPrewrite] under a backlog of 33 tasks against a bound of 32 is
    refused before any queue is asked. *)
Lemma background_backlog_sample :
  DocumentService.GetBackgroundPendingTaskCount sample.backlog
    > FLAGS.document_max_background_task_count sample.flags
  ∧ DocumentService.serve sample.flags sample.backlog DocumentService.TxnPrewrite
    = [DocumentService.SetError EREQUEST_FULL; DocumentService.done_Run].
Proof.
  assert (Hp : DocumentService.GetBackgroundPendingTaskCount sample.backlog
               > FLAGS.document_max_background_task_count sample.flags) by reflexivity.
  split; [exact Hp|].
  exact (proj1 (background_backlog_rejects_writes sample.flags sample.backlog
                  DocumentService.TxnPrewrite OK (or_intror (or_introl eq_refl)) eq_refl Hp)).
Defined.

(** C7, as the specification states it, fails: under a backlog of 33 tasks
    against a bound of 32, a [DocumentAdd], [TxnPrewrite] or [TxnCommit]
    whose region is not found runs the closure and returns; the error code
    of the response is left as it is, [EREQUEST_FULL] is not set. *)
Lemma backlog_without_region_sets_no_error :
  DocumentService.GetBackgroundPendingTaskCount sample.backlog_without_region
    > FLAGS.document_max_background_task_count sample.flags
  ∧ DocumentService.serve sample.flags sample.backlog_without_region DocumentService.DocumentAdd
    = [DocumentService.done_Run]
  ∧ DocumentService.serve sample.flags sample.backlog_without_region DocumentService.TxnPrewrite
    = [DocumentService.done_Run]
  ∧ DocumentService.serve sample.flags sample.backlog_without_region DocumentService.TxnCommit
    = [DocumentService.done_Run]
  ∧ DocumentService.errcode_after
      (DocumentService.serve sample.flags sample.backlog_without_region DocumentService.DocumentAdd)
      OK = OK
  ∧ DocumentService.errcode_after
      (DocumentService.serve sample.flags sample.backlog_without_region DocumentService.DocumentAdd)
      OK ≠ EREQUEST_FULL.
Proof. by split_and!. Qed.

(** The watermark after 5, 3, 9, 7 is not below 9. *)
Lemma raw_applied_max_ts_sample :
  9 ≤ store.RawAppliedMaxTs (fold_left store.SetRawAppliedMaxTs [5; 3; 9; 7] sample.region).
Proof.
  apply (proj1 (proj2 (proj2 (raw_applied_max_ts_is_running_maximum sample.region [5; 3; 9; 7])))).
  do 2 right. left.
Defined.

(** A search for the top 0 on the stocked index, and a document search for
    the top 0, return at once. *)
Lemma zero_top_k_sample :
  let q := [common.mkVectorWithId 7 [sample.f3; sample.f4]] in
  q ≠ []
  ∧ VectorIndexFlat.Search (H := sample.math) sample.stocked q 0 [] [] = (OK, [], [])
  ∧ DocumentService.DoDocumentSearch (H := sample.collaborators) sample.flags sample.region
      (sample.search_request 0) sample.search_response
    = DocumentService.mkOutcome sample.search_response [] 1 sample.region.
Proof.
  intros q.
  assert (Hq : q ≠ []) by done.
  split; [exact Hq|]. split.
  - exact (proj1 (zero_top_k_searches_nothing (H := sample.math) (H0 := sample.collaborators))
             sample.stocked q [] [] Hq).
  - exact (proj2 (zero_top_k_searches_nothing (H := sample.math) (H0 := sample.collaborators))
             sample.flags sample.region (sample.search_request 0) sample.search_response
             eq_refl eq_refl).
Defined.

(** * Further properties *)

(** ** The flat index as a table from ids to rows *)

Lemma filter_agree {A : Type} (P Q : A → Prop) `{∀ x, Decision (P x)} `{∀ x, Decision (Q x)}
    (l : list A) :
  (∀ x, x ∈ l → (P x ↔ Q x)) → filter P l = filter Q l.
Proof.
  induction l as [|a l IH]; intros Hpq; [done|].
  assert (Ha : P a ↔ Q a) by (apply Hpq; left).
  assert (Hl : filter P l = filter Q l) by (apply IH; intros x Hx; apply Hpq; by right).
  destruct (decide (P a)) as [Hp|Hp].
  - rewrite !filter_cons_True by tauto. by rewrite Hl.
  - rewrite !filter_cons_False by tauto. done.
Qed.

Lemma filter_all {A : Type} (P : A → Prop) `{∀ x, Decision (P x)} (l : list A) :
  (∀ x, x ∈ l → P x) → filter P l = l.
Proof.
  induction l as [|a l IH]; intros Hp; [done|].
  rewrite filter_cons_True by (apply Hp; left). f_equal. apply IH. intros x Hx. apply Hp. by right.
Qed.

Lemma filter_shorter {A : Type} (P : A → Prop) `{∀ x, Decision (P x)} (l : list A) (x : A) :
  x ∈ l → ¬ P x → (length (filter P l) < length l)%nat.
Proof.
  induction l as [|a l IH]; intros Hin Hx; [by apply elem_of_nil in Hin|].
  pose proof (length_filter P l) as Hle.
  apply elem_of_cons in Hin as [->|Hin].
  - rewrite filter_cons_False by done. simpl. lia.
  - specialize (IH Hin Hx). destruct (decide (P a)).
    + rewrite filter_cons_True by done. simpl. lia.
    + rewrite filter_cons_False by done. simpl. lia.
Qed.

(** On a consistent index the selector built from [GetExistVectorIds]
    removes exactly the entries whose label is among [ids]. *)
Lemma remove_existing_entries (self : VectorIndexFlat.t) (ids : list Z) (n : nat) :
  rev_map_consistent (VectorIndexFlat.index_id_map2_ self) →
  n = length ids →
  faiss.entries
    (faiss.remove_ids (VectorIndexFlat.index_id_map2_ self)
       (VectorIndexFlat.GetExistVectorIds self ids n)).2
  = filter (λ e : Z * list float, e.1 ∉ ids) (faiss.entries (VectorIndexFlat.index_id_map2_ self)).
Proof.
  intros Hc ->. unfold faiss.remove_ids. cbn [snd faiss.entries].
  apply filter_agree. intros [i v] Hin. cbn [fst].
  unfold faiss.IDSelectorBatch_is_member, VectorIndexFlat.GetExistVectorIds.
  rewrite firstn_all, bool_decide_eq_false, list_elem_of_filter.
  assert (Hs : is_Some (faiss.rev_map (VectorIndexFlat.index_id_map2_ self) !! i)).
  { apply Hc. unfold faiss.id_map. apply list_elem_of_fmap. by exists (i, v). }
  destruct Hs as [p Hp]. rewrite Hp. split.
  - intros Hn Hi. apply Hn. by split.
  - intros Hi [_ Hi']. done.
Qed.

(** When no label of [ids] is known to [rev_map], no entry carries one. *)
Lemma no_existing_entries (self : VectorIndexFlat.t) (ids : list Z) (n : nat) :
  rev_map_consistent (VectorIndexFlat.index_id_map2_ self) →
  n = length ids →
  faiss.rev_map (VectorIndexFlat.index_id_map2_ self) = ∅
  ∨ VectorIndexFlat.GetExistVectorIds self ids n = [] →
  filter (λ e : Z * list float, e.1 ∉ ids) (faiss.entries (VectorIndexFlat.index_id_map2_ self))
  = faiss.entries (VectorIndexFlat.index_id_map2_ self).
Proof.
  intros Hc -> Hnone. apply filter_all. intros [i v] Hin Hi. cbn [fst] in Hi.
  assert (Hs : is_Some (faiss.rev_map (VectorIndexFlat.index_id_map2_ self) !! i)).
  { apply Hc. unfold faiss.id_map. apply list_elem_of_fmap. by exists (i, v). }
  destruct Hs as [p Hp]. destruct Hnone as [He|He].
  - by rewrite He, lookup_empty in Hp.
  - assert (Hex : i ∈ VectorIndexFlat.GetExistVectorIds self ids (length ids)).
    { unfold VectorIndexFlat.GetExistVectorIds. rewrite firstn_all.
      apply list_elem_of_filter. split; [by rewrite Hp|done]. }
    rewrite He in Hex. by apply elem_of_nil in Hex.
Qed.

Lemma AddOrUpsert_success_entries `{FlatMath} (self self' : VectorIndexFlat.t)
    (batch : list common.VectorWithId) (is_upsert : bool) (tr : list VectorIndexFlat.Event) :
  rev_map_consistent (VectorIndexFlat.index_id_map2_ self) →
  VectorIndexFlat.AddOrUpsert self batch is_upsert = (OK, self', tr) →
  faiss.entries (VectorIndexFlat.index_id_map2_ self')
  = filter (λ e : Z * list float, e.1 ∉ common.id <$> batch)
      (faiss.entries (VectorIndexFlat.index_id_map2_ self))
    ++ zip (common.id <$> batch) (stored_row self <$> batch)
  ∧ rev_map_consistent (VectorIndexFlat.index_id_map2_ self').
Proof.
  intros Hc Hrun. set (ids := common.id <$> batch). set (rows := stored_row self <$> batch).
  unfold VectorIndexFlat.AddOrUpsert in Hrun.
  case_bool_decide as Hne; [done|].
  destruct (ok (VectorIndexUtils.CheckVectorDimension _ _)) eqn:Hdim; cbn [negb] in Hrun.
  2:{ injection Hrun as Hs _ _. by rewrite Hs in Hdim. }
  destruct (ok (VectorIndexUtils.CheckVectorIdDuplicated _ _)) eqn:Hdup; cbn [negb] in Hrun.
  2:{ injection Hrun as Hs _ _. by rewrite Hs in Hdup. }
  unfold VectorIndexUtils.ExtractVectorId in Hrun.
  change (map common.id batch) with ids in Hrun.
  change (VectorIndexUtils.ExtractVectorValue batch (VectorIndexFlat.dimension_ self)
            (VectorIndexFlat.normalize_ self)) with rows in Hrun.
  assert (Hn : length batch = length ids) by (unfold ids; by rewrite length_fmap).
  assert (Hl1 : take (length batch) ids = ids) by (rewrite Hn; apply firstn_all).
  assert (Hl2 : take (length batch) rows = rows).
  { unfold rows. rewrite <- (length_fmap (stored_row self) batch) at 1. apply firstn_all. }
  assert (Hadd : ∀ index1,
            faiss.entries (faiss.add_with_ids index1 (length batch) rows ids)
            = faiss.entries index1 ++ zip ids rows).
  { intros index1. unfold faiss.add_with_ids. cbn [faiss.entries]. by rewrite Hl1, Hl2. }
  case_bool_decide as Hrev; [case_bool_decide as Hex|]; injection Hrun as <- <-;
    cbn [VectorIndexFlat.set_index VectorIndexFlat.index_id_map2_]; rewrite Hadd.
  - split; [|apply add_with_ids_consistent, construct_rev_map_consistent].
    f_equal. exact (remove_existing_entries self ids (length batch) Hc Hn).
  - split; [|by apply add_with_ids_consistent].
    rewrite (no_existing_entries self ids (length batch)); [done..|].
    right. by destruct (decide (VectorIndexFlat.GetExistVectorIds self ids (length batch) = [])).
  - split; [|by apply add_with_ids_consistent].
    rewrite (no_existing_entries self ids (length batch)); [done..|].
    left. by destruct (decide (faiss.rev_map (VectorIndexFlat.index_id_map2_ self) = ∅)).
Qed.

Lemma AddOrUpsert_failure_untouched `{FlatMath} (self self' : VectorIndexFlat.t)
    (batch : list common.VectorWithId) (is_upsert : bool) (st : Status)
    (tr : list VectorIndexFlat.Event) :
  VectorIndexFlat.AddOrUpsert self batch is_upsert = (st, self', tr) →
  st ≠ OK → self' = self ∧ tr = [].
Proof.
  unfold VectorIndexFlat.AddOrUpsert. intros Hrun Hst.
  repeat (case_bool_decide || case_match); by simplify_eq.
Qed.

Lemma Delete_entries_consistent `{FlatMath} (self : VectorIndexFlat.t) (delete_ids : list Z) :
  rev_map_consistent (VectorIndexFlat.index_id_map2_ self) →
  let run := VectorIndexFlat.Delete self delete_ids in
  run.1.1 = OK
  ∧ faiss.entries (VectorIndexFlat.index_id_map2_ run.1.2)
    = filter (λ e : Z * list float, e.1 ∉ delete_ids)
        (faiss.entries (VectorIndexFlat.index_id_map2_ self))
  ∧ rev_map_consistent (VectorIndexFlat.index_id_map2_ run.1.2).
Proof.
  intros Hc run. unfold run, VectorIndexFlat.Delete.
  case_bool_decide as Hne.
  { subst. cbn [fst snd]. split; [done|]. split; [|done].
    symmetry. apply filter_all. intros x _. apply not_elem_of_nil. }
  case_bool_decide as Hrev; [case_bool_decide as Hex|]; cbn [fst snd].
  - pose proof (remove_existing_entries self delete_ids (length delete_ids) Hc eq_refl) as Hrm.
    destruct (faiss.remove_ids (VectorIndexFlat.index_id_map2_ self)
                (VectorIndexFlat.GetExistVectorIds self delete_ids (length delete_ids)))
      as [remove_count index] eqn:Hremove.
    assert (Hcons : rev_map_consistent index).
    { pose proof (construct_rev_map_consistent (VectorIndexFlat.index_id_map2_ self)
                    (VectorIndexFlat.GetExistVectorIds self delete_ids (length delete_ids))) as Hk.
      by rewrite Hremove in Hk. }
    cbn [snd] in Hrm.
    assert (Hpos : remove_count ≠ 0%nat).
    { destruct (VectorIndexFlat.GetExistVectorIds self delete_ids (length delete_ids))
        as [|i rest] eqn:Hids; [done|].
      assert (Hi : i ∈ VectorIndexFlat.GetExistVectorIds self delete_ids (length delete_ids))
        by (rewrite Hids; left).
      unfold VectorIndexFlat.GetExistVectorIds in Hi. rewrite firstn_all in Hi.
      apply list_elem_of_filter in Hi as [Hknown Hi].
      assert (Hin : i ∈ faiss.id_map (VectorIndexFlat.index_id_map2_ self)).
      { apply Hc. by destruct (faiss.rev_map (VectorIndexFlat.index_id_map2_ self) !! i). }
      unfold faiss.id_map in Hin. apply list_elem_of_fmap in Hin as [[j v] [-> Hin]].
      unfold faiss.remove_ids in Hremove. injection Hremove as <- <-.
      cbn [faiss.entries] in Hrm. rewrite Hrm.
      pose proof (filter_shorter (λ e : Z * list float, e.1 ∉ delete_ids) _ (j, v) Hin) as Hlt.
      cbn [fst] in Hlt. specialize (Hlt (λ Hn, Hn Hi)). lia. }
    rewrite bool_decide_eq_false_2 by done. cbn [fst snd VectorIndexFlat.set_index
      VectorIndexFlat.index_id_map2_]. done.
  - split; [done|]. split; [|done]. symmetry.
    apply (no_existing_entries self delete_ids (length delete_ids)); [done..|].
    right. by destruct (decide (VectorIndexFlat.GetExistVectorIds self delete_ids
                                  (length delete_ids) = [])).
  - split; [done|]. split; [|done]. symmetry.
    apply (no_existing_entries self delete_ids (length delete_ids)); [done..|].
    left. by destruct (decide (faiss.rev_map (VectorIndexFlat.index_id_map2_ self) = ∅)).
Qed.

Lemma NoDup_fst_filter {A B : Type} (P : A * B → Prop) `{∀ x, Decision (P x)} (l : list (A * B)) :
  NoDup l.*1 → NoDup (filter P l).*1.
Proof.
  induction l as [|[a b] l IH]; intros Hnd; [done|].
  rewrite fmap_cons in Hnd. apply NoDup_cons in Hnd as [Ha Hnd].
  destruct (decide (P (a, b))).
  - rewrite filter_cons_True by done. rewrite fmap_cons. apply NoDup_cons. split; [|by apply IH].
    intros Hin. apply Ha. apply list_elem_of_fmap in Hin as [[a' b'] [-> Hin]].
    apply list_elem_of_filter in Hin as [_ Hin]. apply list_elem_of_fmap. by exists (a', b').
  - rewrite filter_cons_False by done. by apply IH.
Qed.

Lemma consistent_size (index : faiss.IndexIDMap2) :
  rev_map_consistent index → NoDup (faiss.id_map index) →
  size (faiss.rev_map index) = length (faiss.id_map index).
Proof.
  intros Hc Hnd. rewrite <- size_dom, <- (size_list_to_set (C := gset Z)) by done.
  f_equal. apply set_eq. intros i. rewrite elem_of_dom, elem_of_list_to_set. symmetry. apply Hc.
Qed.

Lemma new_consistent (id : Z) (metric : pb.MetricType) (dimension : Z) :
  rev_map_consistent (VectorIndexFlat.index_id_map2_ (VectorIndexFlat.new id metric dimension))
  ∧ faiss.entries (VectorIndexFlat.index_id_map2_ (VectorIndexFlat.new id metric dimension)) = [].
Proof.
  unfold VectorIndexFlat.new. repeat case_decide; (split; [|done]);
    intros i; unfold faiss.id_map; cbn; rewrite lookup_empty, elem_of_nil; split;
    (done || by intros [? ?]).
Qed.

Lemma AddOrUpsert_success_NoDup `{FlatMath} (self self' : VectorIndexFlat.t)
    (batch : list common.VectorWithId) (is_upsert : bool) (tr : list VectorIndexFlat.Event) :
  VectorIndexFlat.AddOrUpsert self batch is_upsert = (OK, self', tr) →
  NoDup (common.id <$> batch).
Proof.
  intros Hrun. unfold VectorIndexFlat.AddOrUpsert in Hrun.
  case_bool_decide as Hne; [done|].
  destruct (ok (VectorIndexUtils.CheckVectorDimension _ _)) eqn:Hdim; cbn [negb] in Hrun.
  2:{ injection Hrun as Hs _ _. by rewrite Hs in Hdim. }
  destruct (ok (VectorIndexUtils.CheckVectorIdDuplicated _ _)) eqn:Hdup; cbn [negb] in Hrun.
  2:{ injection Hrun as Hs _ _. by rewrite Hs in Hdup. }
  apply ok_true in Hdup. unfold VectorIndexUtils.CheckVectorIdDuplicated in Hdup.
  match type of Hdup with
  | (if bool_decide ?P then _ else _) = _ =>
      destruct (decide P) as [Hnd|Hnd]; [|by rewrite bool_decide_eq_false_2 in Hdup]
  end.
  unfold VectorIndexUtils.ExtractVectorId in Hnd.
  change (map common.id batch) with (common.id <$> batch) in Hnd.
  rewrite <- (length_fmap common.id batch) in Hnd. by rewrite firstn_all in Hnd.
Qed.

(** The state invariant of the flat index: [rev_map] knows exactly the
    labels of [id_map], and no label occurs twice. *)
Lemma step_keeps_table `{FlatMath} (self : VectorIndexFlat.t) :
  rev_map_consistent (VectorIndexFlat.index_id_map2_ self) →
  NoDup (faiss.id_map (VectorIndexFlat.index_id_map2_ self)) →
  (∀ batch is_upsert,
     let self' := (VectorIndexFlat.AddOrUpsert self batch is_upsert).1.2 in
     rev_map_consistent (VectorIndexFlat.index_id_map2_ self')
     ∧ NoDup (faiss.id_map (VectorIndexFlat.index_id_map2_ self')))
  ∧ (∀ delete_ids,
       let self' := (VectorIndexFlat.Delete self delete_ids).1.2 in
       rev_map_consistent (VectorIndexFlat.index_id_map2_ self')
       ∧ NoDup (faiss.id_map (VectorIndexFlat.index_id_map2_ self'))).
Proof.
  intros Hc Hnd. split.
  - intros batch is_upsert self'.
    destruct (VectorIndexFlat.AddOrUpsert self batch is_upsert) as [[st s'] tr] eqn:Hrun.
    subst self'. cbn [fst snd].
    destruct (decide (st = OK)) as [->|Hst].
    + destruct (AddOrUpsert_success_entries self s' batch is_upsert tr Hc Hrun) as [He Hc'].
      split; [done|]. unfold faiss.id_map. rewrite He, fmap_app, batch_zip_fst.
      apply NoDup_app. split; [by apply NoDup_fst_filter|]. split.
      * intros i Hi Hin. apply list_elem_of_fmap in Hi as [[j v] [-> Hi]].
        by apply list_elem_of_filter in Hi as [Hn _].
      * by eapply AddOrUpsert_success_NoDup.
    + by destruct (AddOrUpsert_failure_untouched self s' batch is_upsert st tr Hrun Hst) as [-> _].
  - intros delete_ids self'. subst self'.
    destruct (Delete_entries_consistent self delete_ids Hc) as (_ & He & Hc').
    split; [done|]. unfold faiss.id_map. rewrite He. by apply NoDup_fst_filter.
Qed.

Lemma evolves_table `{FlatMath} (id : Z) (metric : pb.MetricType) (dimension : Z)
    (self : VectorIndexFlat.t) :
  evolves (VectorIndexFlat.new id metric dimension) self →
  rev_map_consistent (VectorIndexFlat.index_id_map2_ self)
  ∧ NoDup (faiss.id_map (VectorIndexFlat.index_id_map2_ self)).
Proof.
  induction 1 as [|self batch is_upsert _ [IH1 IH2]|self delete_ids _ [IH1 IH2]].
  - destruct (new_consistent id metric dimension) as [Hc He]. split; [done|].
    unfold faiss.id_map. rewrite He. constructor.
  - by apply step_keeps_table.
  - by apply step_keeps_table.
Qed.

Lemma vectors_of_filter_other (l : list (Z * list float)) (ids : list Z) (i : Z) :
  i ∉ ids →
  filter (λ e : Z * list float, e.1 = i) (filter (λ e : Z * list float, e.1 ∉ ids) l)
  = filter (λ e : Z * list float, e.1 = i) l.
Proof. intros Hi. apply list_filter_filter_l. intros [j v] Hj. cbn in *. by subst. Qed.

Lemma evolves_setup `{FlatMath} (init self : VectorIndexFlat.t) :
  evolves init self →
  VectorIndexFlat.dimension_ self = VectorIndexFlat.dimension_ init
  ∧ VectorIndexFlat.metric_type_ self = VectorIndexFlat.metric_type_ init.
Proof.
  induction 1 as [|self batch is_upsert _ [IH1 IH2]|self delete_ids _ [IH1 IH2]]; [done|..].
  - rewrite <- IH1, <- IH2. unfold VectorIndexFlat.AddOrUpsert.
    repeat (case_bool_decide || case_match); by simplify_eq/=.
  - rewrite <- IH1, <- IH2. unfold VectorIndexFlat.Delete.
    repeat (case_bool_decide || case_match); by simplify_eq/=.
Qed.

(** ** Cosine indexes, in every state *)

Lemma evolves_lives `{FlatMath} (init self : VectorIndexFlat.t) :
  evolves init self → lives init self.
Proof. induction 1; by constructor. Qed.

Lemma AddOrUpsert_keeps_config `{FlatMath} self batch is_upsert :
  let self' := (VectorIndexFlat.AddOrUpsert self batch is_upsert).1.2 in
  VectorIndexFlat.dimension_ self' = VectorIndexFlat.dimension_ self
  ∧ VectorIndexFlat.metric_type_ self' = VectorIndexFlat.metric_type_ self.
Proof.
  unfold VectorIndexFlat.AddOrUpsert.
  repeat (case_bool_decide || case_match); by simplify_eq/=.
Qed.

Lemma Delete_keeps_config `{FlatMath} self delete_ids :
  let self' := (VectorIndexFlat.Delete self delete_ids).1.2 in
  VectorIndexFlat.dimension_ self' = VectorIndexFlat.dimension_ self
  ∧ VectorIndexFlat.metric_type_ self' = VectorIndexFlat.metric_type_ self.
Proof.
  unfold VectorIndexFlat.Delete.
  repeat (case_bool_decide || case_match); by simplify_eq/=.
Qed.

(** [Load] keeps the dimension and the metric type, leaves [rev_map] in
    agreement with [id_map], and leaves a cosine index normalising over an
    inner-product handle. *)
Lemma Load_keeps_table (self : VectorIndexFlat.t) (path_empty : bool)
    (file : VectorIndexFlat.read_index) :
  let self' := (VectorIndexFlat.Load self path_empty file).2 in
  VectorIndexFlat.dimension_ self' = VectorIndexFlat.dimension_ self
  ∧ VectorIndexFlat.metric_type_ self' = VectorIndexFlat.metric_type_ self
  ∧ (rev_map_consistent (VectorIndexFlat.index_id_map2_ self) →
     rev_map_consistent (VectorIndexFlat.index_id_map2_ self'))
  ∧ (VectorIndexFlat.metric_type_ self = METRIC_TYPE_COSINE →
     VectorIndexFlat.normalize_ self = true →
     faiss.metric_type (VectorIndexFlat.index_id_map2_ self) = faiss.METRIC_INNER_PRODUCT →
     VectorIndexFlat.normalize_ self' = true
     ∧ faiss.metric_type (VectorIndexFlat.index_id_map2_ self') = faiss.METRIC_INNER_PRODUCT).
Proof.
  assert (Hcons : ∀ d m entries,
            rev_map_consistent
              (faiss.mkIndexIDMap2 d m entries (faiss.construct_rev_map entries.*1))).
  { intros d m entries i. unfold faiss.id_map, faiss.construct_rev_map. cbn.
    rewrite rev_map_assign_is_Some, lookup_empty. split; [auto|]. intros [?|[? ?]]; done. }
  unfold VectorIndexFlat.Load.
  destruct path_empty; [done|].
  destruct file as [| |d metric entries is_trained]; [done..|].
  destruct (negb (d =? VectorIndexFlat.dimension_ self)); [done|].
  destruct is_trained; cbn [negb]; [|done].
  destruct (VectorIndexFlat.metric_type_ self) eqn:Hm, metric as [[]|];
    cbn [snd VectorIndexFlat.dimension_ VectorIndexFlat.metric_type_ VectorIndexFlat.normalize_
         VectorIndexFlat.index_id_map2_ faiss.metric_type];
    rewrite ?Hm; split_and!; try done; intros _; apply Hcons.
Qed.

(** What every state of a constructed index keeps: the dimension and the
    metric type it was constructed with, a [rev_map] that agrees with
    [id_map], and for the cosine metric the normalisation over an
    inner-product handle. *)
Lemma lives_table `{FlatMath} (id : Z) (metric : pb.MetricType) (dimension : Z)
    (self : VectorIndexFlat.t) :
  lives (VectorIndexFlat.new id metric dimension) self →
  VectorIndexFlat.dimension_ self = dimension
  ∧ VectorIndexFlat.metric_type_ self = metric
  ∧ rev_map_consistent (VectorIndexFlat.index_id_map2_ self)
  ∧ (metric = METRIC_TYPE_COSINE →
     VectorIndexFlat.normalize_ self = true
     ∧ faiss.metric_type (VectorIndexFlat.index_id_map2_ self) = faiss.METRIC_INNER_PRODUCT).
Proof.
  induction 1 as [|self batch is_upsert _ (IHd & IHm & IHc & IHn)
                  |self delete_ids _ (IHd & IHm & IHc & IHn)
                  |self path_empty file _ (IHd & IHm & IHc & IHn)].
  - split_and!.
    + unfold VectorIndexFlat.new. by repeat case_decide.
    + unfold VectorIndexFlat.new. by repeat case_decide.
    + apply new_consistent.
    + by intros ->.
  - destruct (AddOrUpsert_keeps_config self batch is_upsert) as [Hd Hm].
    destruct (AddOrUpsert_keeps_setup self batch is_upsert) as [Hn Hf].
    split_and!; [congruence|congruence| |intros Hcos; rewrite Hn, Hf; auto].
    destruct (VectorIndexFlat.AddOrUpsert self batch is_upsert) as [[st self'] tr] eqn:Hrun.
    destruct (decide (st = OK)) as [->|Hst].
    + by destruct (AddOrUpsert_success_entries _ _ _ _ _ IHc Hrun).
    + by destruct (AddOrUpsert_failure_untouched _ _ _ _ _ _ Hrun Hst) as [-> _].
  - destruct (Delete_keeps_config self delete_ids) as [Hd Hm].
    destruct (Delete_keeps_setup self delete_ids) as [Hn Hf].
    split_and!; [congruence|congruence| |intros Hcos; rewrite Hn, Hf; auto].
    by destruct (Delete_entries_consistent self delete_ids IHc) as (_ & _ & ?).
  - destruct (Load_keeps_table self path_empty file) as (Hd & Hm & Hc & Hn).
    split_and!; [congruence|congruence|auto|].
    intros Hcos. destruct (IHn Hcos) as [? ?]. apply Hn; congruence.
Qed.

(** C9. An index constructed with the cosine metric wraps an inner-product
    faiss index and normalises, in every state it reaches through
    [AddOrUpsert], [Delete] and [Load]. There, a batch that is not empty,
    has the dimension of the index and repeats no id is added: [AddOrUpsert]
    returns [OK], hands to [add_with_ids] the normalised rows of the batch
    under its ids, and the index then holds the old entries of the other
    ids followed by the normalised rows of the batch. A query batch that is
    not empty and has the dimension of the index reaches [search] (for a
    positive [topk]) and [range_search] as its normalised rows, in one call
    under the read lock. No call of the three methods ever hands faiss
    anything but the normalised rows. *)
Theorem cosine_is_normalized_inner_product `{FlatMath} (id dimension : Z) (self : VectorIndexFlat.t) :
  lives (VectorIndexFlat.new id METRIC_TYPE_COSINE dimension) self →
  faiss.metric_type (VectorIndexFlat.index_id_map2_ self) = faiss.METRIC_INNER_PRODUCT
  ∧ VectorIndexFlat.normalize_ self = true
  ∧ (∀ batch is_upsert,
       batch ≠ [] →
       VectorIndexUtils.CheckVectorDimension batch (VectorIndexFlat.dimension_ self) = OK →
       VectorIndexUtils.CheckVectorIdDuplicated (VectorIndexUtils.ExtractVectorId batch)
         (length batch) = OK →
       let run := VectorIndexFlat.AddOrUpsert self batch is_upsert in
       run.1.1 = OK
       ∧ VectorIndexFlat.add_with_ids (length batch) (normalized_rows batch) (common.id <$> batch)
           ∈ run.2
       ∧ faiss.entries (VectorIndexFlat.index_id_map2_ run.1.2)
         = filter (λ e : Z * list float, e.1 ∉ common.id <$> batch)
             (faiss.entries (VectorIndexFlat.index_id_map2_ self))
           ++ zip (common.id <$> batch) (normalized_rows batch))
  ∧ (∀ q topk filters results,
       q ≠ [] → (0 < topk)%N →
       VectorIndexUtils.CheckVectorDimension q (VectorIndexFlat.dimension_ self) = OK →
       let run := VectorIndexFlat.Search self q topk filters results in
       run.1.1 = OK
       ∧ run.2 = [VectorIndexFlat.LockRead;
                  VectorIndexFlat.search (length q) (normalized_rows q) topk
                    (if bool_decide (filters ≠ []) then Some filters else None);
                  VectorIndexFlat.UnlockRead])
  ∧ (∀ q radius filters results,
       q ≠ [] →
       VectorIndexUtils.CheckVectorDimension q (VectorIndexFlat.dimension_ self) = OK →
       (VectorIndexFlat.RangeSearch self q radius filters results).2
       = [VectorIndexFlat.LockRead;
          VectorIndexFlat.range_search (length q) (normalized_rows q) (fsub f_1_0 radius)
            (if bool_decide (filters ≠ []) then Some filters else None);
          VectorIndexFlat.UnlockRead])
  ∧ (∀ batch is_upsert n x xids,
       VectorIndexFlat.add_with_ids n x xids ∈ (VectorIndexFlat.AddOrUpsert self batch is_upsert).2 →
       x = normalized_rows batch)
  ∧ (∀ q topk filters results n x k sel,
       VectorIndexFlat.search n x k sel ∈ (VectorIndexFlat.Search self q topk filters results).2 →
       x = normalized_rows q)
  ∧ (∀ q radius filters results n x r sel,
       VectorIndexFlat.range_search n x r sel
         ∈ (VectorIndexFlat.RangeSearch self q radius filters results).2 →
       x = normalized_rows q).
Proof.
  intros Hlives.
  destruct (lives_table _ _ _ _ Hlives) as (_ & Hmt & Hc & Hsetup).
  destruct (Hsetup eq_refl) as [Hn Hm]. clear Hsetup.
  assert (Hrows : ∀ batch,
            VectorIndexUtils.ExtractVectorValue batch (VectorIndexFlat.dimension_ self)
              (VectorIndexFlat.normalize_ self) = normalized_rows batch).
  { intros batch. unfold VectorIndexUtils.ExtractVectorValue. by rewrite Hn. }
  split; [done|]. split; [done|]. split_and!.
  - intros batch is_upsert Hne Hdim Hdup run.
    assert (Hrun : ∃ removal,
              run = (OK, run.1.2,
                     [VectorIndexFlat.LockWrite] ++ removal
                       ++ [VectorIndexFlat.add_with_ids (length batch) (normalized_rows batch)
                             (common.id <$> batch); VectorIndexFlat.UnlockWrite])).
    { unfold run, VectorIndexFlat.AddOrUpsert.
      rewrite (bool_decide_eq_false_2 (batch = [])) by done.
      rewrite Hdim, Hdup, Hrows. change (ok OK) with true. cbn [negb].
      repeat case_bool_decide; eexists; reflexivity. }
    destruct Hrun as [removal Hrun].
    split; [by rewrite Hrun|]. split.
    + rewrite Hrun. cbn [snd]. rewrite !elem_of_app, !elem_of_cons. auto.
    + destruct (AddOrUpsert_success_entries self run.1.2 batch is_upsert _ Hc Hrun) as [-> _].
      do 2 f_equal. unfold stored_row, normalized_rows. by rewrite Hn.
  - intros q topk filters results Hne Hk Hdim run.
    unfold run, VectorIndexFlat.Search.
    rewrite (bool_decide_eq_false_2 (q = [])) by done.
    rewrite (proj2 (N.leb_gt topk 0) Hk), Hdim, Hrows. change (ok OK) with true. cbn [negb].
    by destruct (faiss_search _ _ _ _ _).
  - intros q radius filters results Hne Hdim. unfold VectorIndexFlat.RangeSearch.
    rewrite (bool_decide_eq_false_2 (q = [])) by done.
    rewrite Hdim, Hrows, Hmt. change (ok OK) with true. cbn [negb].
    rewrite (bool_decide_eq_true_2 (METRIC_TYPE_COSINE = METRIC_TYPE_COSINE)) by done.
    cbn [orb]. by destruct (faiss_range_search _ _ _ _ _).
  - intros batch is_upsert n x xids. unfold VectorIndexFlat.AddOrUpsert.
    unfold VectorIndexUtils.ExtractVectorValue. rewrite Hn.
    repeat (case_bool_decide || case_match); simplify_eq/=;
      rewrite ?elem_of_cons, ?elem_of_nil; intros Hin; destruct_or?; simplify_eq; done.
  - intros q topk filters results n x k sel. unfold VectorIndexFlat.Search.
    unfold VectorIndexUtils.ExtractVectorValue. rewrite Hn.
    repeat (case_bool_decide || case_match); simplify_eq/=;
      rewrite ?elem_of_cons, ?elem_of_nil; intros Hin; destruct_or?; simplify_eq; done.
  - intros q radius filters results n x r sel. unfold VectorIndexFlat.RangeSearch.
    unfold VectorIndexUtils.ExtractVectorValue. rewrite Hn.
    repeat (case_bool_decide || case_match); simplify_eq/=;
      rewrite ?elem_of_cons, ?elem_of_nil; intros Hin; destruct_or?; simplify_eq; done.
Qed.

(** X1. On an index whose [rev_map] agrees with [id_map], a successful
    [AddOrUpsert] leaves exactly the old entries whose id is not in the
    batch, in their order, followed by the batch in its order; so the rows of
    every id outside the batch are what they were. *)
Theorem AddOrUpsert_keeps_rest_appends_batch `{FlatMath} (self self' : VectorIndexFlat.t)
    (batch : list common.VectorWithId) (is_upsert : bool) (tr : list VectorIndexFlat.Event) :
  rev_map_consistent (VectorIndexFlat.index_id_map2_ self) →
  VectorIndexFlat.AddOrUpsert self batch is_upsert = (OK, self', tr) →
  faiss.entries (VectorIndexFlat.index_id_map2_ self')
  = filter (λ e : Z * list float, e.1 ∉ common.id <$> batch)
      (faiss.entries (VectorIndexFlat.index_id_map2_ self))
    ++ zip (common.id <$> batch) (stored_row self <$> batch)
  ∧ (∀ i, i ∉ common.id <$> batch →
       faiss.vectors_of (VectorIndexFlat.index_id_map2_ self') i
       = faiss.vectors_of (VectorIndexFlat.index_id_map2_ self) i).
Proof.
  intros Hc Hrun.
  destruct (AddOrUpsert_success_entries self self' batch is_upsert tr Hc Hrun) as [He _].
  split; [done|]. intros i Hi. unfold faiss.vectors_of.
  rewrite He, filter_app, vectors_of_filter_other by done.
  rewrite (filter_none (λ e : Z * list float, e.1 = i) (zip _ _)); [by rewrite app_nil_r|].
  intros [j v] Hin Hj. cbn in Hj. subst j. apply Hi.
  rewrite <- (batch_zip_fst (stored_row self) batch). apply list_elem_of_fmap. by exists (i, v).
Qed.

(** X2. An [AddOrUpsert] that does not return [OK] leaves the index as it
    was and touches neither the lock nor faiss; an empty batch is refused
    with [EILLEGAL_PARAMTETERS]. *)
Theorem AddOrUpsert_failure_changes_nothing `{FlatMath} (self : VectorIndexFlat.t)
    (batch : list common.VectorWithId) (is_upsert : bool) :
  let run := VectorIndexFlat.AddOrUpsert self batch is_upsert in
  (run.1.1 ≠ OK → run.1.2 = self ∧ run.2 = [])
  ∧ (batch = [] → run.1.1 = EILLEGAL_PARAMTETERS).
Proof.
  intros run. split.
  - destruct run as [[st s'] tr] eqn:Hrun. cbn [fst snd]. intros Hst.
    by apply (AddOrUpsert_failure_untouched self s' batch is_upsert st tr).
  - intros ->. done.
Qed.

(** X3. On an index whose [rev_map] agrees with [id_map], [Delete] always
    returns [OK]: it leaves exactly the entries whose id is not listed, so a
    listed id has no row afterwards and every other id keeps its rows. *)
Theorem Delete_removes_listed_ids `{FlatMath} (self : VectorIndexFlat.t) (delete_ids : list Z) :
  rev_map_consistent (VectorIndexFlat.index_id_map2_ self) →
  let run := VectorIndexFlat.Delete self delete_ids in
  let index' := VectorIndexFlat.index_id_map2_ run.1.2 in
  run.1.1 = OK
  ∧ faiss.entries index'
    = filter (λ e : Z * list float, e.1 ∉ delete_ids)
        (faiss.entries (VectorIndexFlat.index_id_map2_ self))
  ∧ (∀ i, i ∈ delete_ids → faiss.vectors_of index' i = [])
  ∧ (∀ i, i ∉ delete_ids →
       faiss.vectors_of index' i = faiss.vectors_of (VectorIndexFlat.index_id_map2_ self) i).
Proof.
  intros Hc run index'.
  destruct (Delete_entries_consistent self delete_ids Hc) as (Hst & He & _).
  split; [done|]. split; [done|]. unfold index', run, faiss.vectors_of. rewrite He. split.
  - intros i Hi. rewrite filter_none; [done|].
    intros [j v] Hin Hj. cbn in Hj. subst j. by apply list_elem_of_filter in Hin as [Hn _].
  - intros i Hi. by rewrite vectors_of_filter_other.
Qed.

(** X4. In every state that a constructed index reaches through
    [AddOrUpsert] and [Delete], [rev_map] knows exactly the ids of [id_map],
    no id is held twice, and [rev_map] has one entry per stored row. *)
Theorem flat_index_holds_each_id_once `{FlatMath} (id : Z) (metric : pb.MetricType)
    (dimension : Z) (self : VectorIndexFlat.t) :
  evolves (VectorIndexFlat.new id metric dimension) self →
  rev_map_consistent (VectorIndexFlat.index_id_map2_ self)
  ∧ NoDup (faiss.id_map (VectorIndexFlat.index_id_map2_ self))
  ∧ size (faiss.rev_map (VectorIndexFlat.index_id_map2_ self))
    = faiss.ntotal (VectorIndexFlat.index_id_map2_ self).
Proof.
  intros Hev. destruct (evolves_table id metric dimension self Hev) as [Hc Hnd].
  split; [done|]. split; [done|].
  rewrite consistent_size by done. unfold faiss.id_map, faiss.ntotal. by rewrite length_fmap.
Qed.

(** X5. After a successful [AddOrUpsert] on a consistent index, [GetCount]
    is the old count, less the entries that carried an id of the batch, plus
    the size of the batch: it grows by the size of the batch when no id was
    present, and stays the same when every id was present and the index held
    no id twice. *)
Theorem GetCount_after_upsert `{FlatMath} (self self' : VectorIndexFlat.t)
    (batch : list common.VectorWithId) (is_upsert : bool) (tr : list VectorIndexFlat.Event) :
  rev_map_consistent (VectorIndexFlat.index_id_map2_ self) →
  VectorIndexFlat.AddOrUpsert self batch is_upsert = (OK, self', tr) →
  let ids := common.id <$> batch in
  let id_map := faiss.id_map (VectorIndexFlat.index_id_map2_ self) in
  let replaced :=
    filter (λ e : Z * list float, e.1 ∈ ids) (faiss.entries (VectorIndexFlat.index_id_map2_ self)) in
  (VectorIndexFlat.GetCount self').2
  = (VectorIndexFlat.GetCount self).2 - Z.of_nat (length replaced) + Z.of_nat (length batch)
  ∧ ((∀ i, i ∈ ids → i ∉ id_map) →
     (VectorIndexFlat.GetCount self').2
     = (VectorIndexFlat.GetCount self).2 + Z.of_nat (length batch))
  ∧ (NoDup id_map → (∀ i, i ∈ ids → i ∈ id_map) →
     (VectorIndexFlat.GetCount self').2 = (VectorIndexFlat.GetCount self).2).
Proof.
  intros Hc Hrun ids id_map replaced.
  destruct (AddOrUpsert_success_entries self self' batch is_upsert tr Hc Hrun) as [He _].
  pose proof (AddOrUpsert_success_NoDup self self' batch is_upsert tr Hrun) as Hnd.
  set (entries := faiss.entries (VectorIndexFlat.index_id_map2_ self)) in *.
  assert (Hsplit : (length (filter (λ e : Z * list float, e.1 ∉ ids) entries)
                    + length replaced = length entries)%nat).
  { unfold replaced. clear. induction entries as [|e l IH]; [done|].
    destruct (decide (e.1 ∈ ids)).
    - rewrite (filter_cons_True (λ e, e.1 ∈ ids)), (filter_cons_False (λ e, e.1 ∉ ids)) by tauto.
      simpl. lia.
    - rewrite (filter_cons_False (λ e, e.1 ∈ ids)), (filter_cons_True (λ e, e.1 ∉ ids)) by tauto.
      simpl. lia. }
  assert (Hcount : (VectorIndexFlat.GetCount self').2
                   = (VectorIndexFlat.GetCount self).2 - Z.of_nat (length replaced)
                     + Z.of_nat (length batch)).
  { unfold VectorIndexFlat.GetCount, faiss.id_map. cbn [snd]. fold entries.
    rewrite He, !length_fmap, length_app, length_zip, !length_fmap.
    change (common.id <$> batch) with ids. lia. }
  split; [done|]. split.
  - intros Hfresh. rewrite Hcount.
    assert (replaced = []) as ->; [|simpl; lia].
    apply filter_none. intros [i v] Hin Hi. cbn in Hi. apply (Hfresh i Hi).
    unfold id_map, faiss.id_map. apply list_elem_of_fmap. by exists (i, v).
  - intros Hnd_map Hpresent. rewrite Hcount.
    assert (Hlen : length replaced = length batch); [|lia].
    rewrite <- (length_fmap fst replaced), <- (length_fmap common.id batch).
    apply Permutation_length, NoDup_Permutation; [by apply NoDup_fst_filter|done|].
    intros i. split.
    + intros Hi. apply list_elem_of_fmap in Hi as [[j v] [-> Hi]].
      by apply list_elem_of_filter in Hi as [Hj _].
    + intros Hi. specialize (Hpresent i Hi). unfold id_map, faiss.id_map in Hpresent.
      apply list_elem_of_fmap in Hpresent as [[j v] [-> Hin]].
      apply list_elem_of_fmap. exists (j, v). split; [done|]. by apply list_elem_of_filter.
Qed.

(** X6. In every state that a constructed index of dimension
    [dimension >= 0] reaches through [AddOrUpsert], [Delete] and [Load] and
    in which no label is stored twice, [GetMemorySize] reports
    [24 + 4 * dimension] bytes per stored row (8 for the label, 4 per
    component, 16 for the [rev_map] entry), as long as that total fits an
    [int64_t]; an empty index reports 0. [AddOrUpsert] and [Delete] alone
    never store a label twice. A file that [Load] reads may; [rev_map] then
    has fewer entries than there are rows, and the report is smaller. *)
Theorem GetMemorySize_per_row `{FlatMath} (id : Z) (metric : pb.MetricType)
    (dimension : Z) (self : VectorIndexFlat.t) :
  lives (VectorIndexFlat.new id metric dimension) self →
  0 ≤ dimension →
  (VectorIndexFlat.GetCount self).2 * (24 + 4 * dimension) < 2 ^ 63 →
  (NoDup (faiss.id_map (VectorIndexFlat.index_id_map2_ self)) →
   VectorIndexFlat.GetMemorySize self
   = (OK, (VectorIndexFlat.GetCount self).2 * (24 + 4 * dimension)))
  ∧ (evolves (VectorIndexFlat.new id metric dimension) self →
     NoDup (faiss.id_map (VectorIndexFlat.index_id_map2_ self))).
Proof.
  intros Hlives Hdim Hfit. split; [|intros Hev; by destruct (evolves_table id metric dimension self Hev)].
  intros Hnd.
  destruct (lives_table id metric dimension self Hlives) as (Hd' & _ & Hc & _).
  pose proof (consistent_size _ Hc Hnd) as Hsize.
  unfold VectorIndexFlat.GetMemorySize, VectorIndexFlat.GetCount in *. cbn [snd] in *.
  rewrite Hsize, Hd'. unfold faiss.ntotal, faiss.id_map in *. rewrite length_fmap in *.
  set (count := Z.of_nat (length (faiss.entries (VectorIndexFlat.index_id_map2_ self)))) in *.
  destruct (Z.eqb_spec count 0) as [->|Hne]; [done|].
  f_equal. unfold VectorIndexFlat.as_int64.
  assert (Hpos : 0 ≤ count) by (unfold count; lia).
  replace (count * 8 + count * dimension * 4 + (8 + 8) * count)
    with (count * (24 + 4 * dimension)) by lia.
  rewrite Z.mod_small by nia.
  destruct (Z.ltb_spec (count * (24 + 4 * dimension)) (2 ^ 63)); [done|lia].
Qed.

(** X7. [Load] either fails and leaves the index as it was, or succeeds on
    a non-empty path and a trained [IndexIDMap2] of the configured dimension
    whose faiss metric is L2 for the metric types none and L2 and inner
    product for inner product and cosine; the rows read are installed with a
    [rev_map] that agrees with them, metric type and dimension stay, and a
    cosine index normalises afterwards. *)
Theorem Load_installs_matching_index (self self' : VectorIndexFlat.t) (path_empty : bool)
    (file : VectorIndexFlat.read_index) (st : Status) :
  VectorIndexFlat.Load self path_empty file = (st, self') →
  (st ≠ OK → self' = self)
  ∧ (st = OK →
     path_empty = false
     ∧ VectorIndexFlat.metric_type_ self' = VectorIndexFlat.metric_type_ self
     ∧ VectorIndexFlat.dimension_ self' = VectorIndexFlat.dimension_ self
     ∧ (VectorIndexFlat.metric_type_ self = METRIC_TYPE_COSINE →
        VectorIndexFlat.normalize_ self' = true)
     ∧ rev_map_consistent (VectorIndexFlat.index_id_map2_ self')
     ∧ ∃ m entries,
         file = VectorIndexFlat.read_IndexIDMap2 (VectorIndexFlat.dimension_ self) (Some m)
                  entries true
         ∧ faiss.d (VectorIndexFlat.index_id_map2_ self') = VectorIndexFlat.dimension_ self
         ∧ faiss.metric_type (VectorIndexFlat.index_id_map2_ self') = m
         ∧ faiss.entries (VectorIndexFlat.index_id_map2_ self') = entries
         ∧ (m = faiss.METRIC_INNER_PRODUCT
            ↔ VectorIndexFlat.metric_type_ self = METRIC_TYPE_INNER_PRODUCT
              ∨ VectorIndexFlat.metric_type_ self = METRIC_TYPE_COSINE)).
Proof.
  unfold VectorIndexFlat.Load. intros Hrun.
  assert (Hcons : ∀ d m entries,
            rev_map_consistent
              (faiss.mkIndexIDMap2 d m entries (faiss.construct_rev_map entries.*1))).
  { intros d m entries i. unfold faiss.id_map, faiss.construct_rev_map. cbn.
    rewrite rev_map_assign_is_Some, lookup_empty. split; [auto|]. intros [?|[? ?]]; done. }
  destruct path_empty; [by simplify_eq|].
  destruct file as [| |d metric entries is_trained]; [by simplify_eq..|].
  destruct (Z.eqb_spec d (VectorIndexFlat.dimension_ self)) as [->|Hd]; cbn [negb] in Hrun;
    [|by simplify_eq].
  destruct is_trained; cbn [negb] in Hrun; [|by simplify_eq].
  destruct (VectorIndexFlat.metric_type_ self) eqn:Hm, metric as [[]|]; simplify_eq;
    (split; [done|]); intros Hst; try discriminate Hst;
    cbn [VectorIndexFlat.metric_type_ VectorIndexFlat.dimension_
      VectorIndexFlat.normalize_ VectorIndexFlat.index_id_map2_ faiss.d faiss.metric_type
      faiss.entries]; rewrite ?Hm;
    (split_and!; [done|done|done|intros ?; try done; by case_decide|apply Hcons|]);
    eexists _, _; (split_and!; [done|done|done|done|]);
    (split; [intros; auto || done|intros [?|?]; done]).
Qed.



(** X8. [Search] and [RangeSearch] only read: a call that does not return
    [OK] leaves the caller's results as they were, and the index is reached
    by exactly one faiss call, made between taking and releasing the read
    lock, or not at all; a refused [Search] never reaches it. Valid arguments
    always reach it in a range search, which fails only when faiss throws. *)
Theorem queries_only_read `{FlatMath} (self : VectorIndexFlat.t)
    (q : list common.VectorWithId) (filters : list FilterFunctor)
    (results : list VectorWithDistanceResult) :
  (∀ topk,
     let run := VectorIndexFlat.Search self q topk filters results in
     (run.1.1 ≠ OK → run.1.2 = results ∧ run.2 = [])
     ∧ (run.2 = []
        ∨ ∃ n x k sel,
            run.2 = [VectorIndexFlat.LockRead; VectorIndexFlat.search n x k sel;
                     VectorIndexFlat.UnlockRead]))
  ∧ (∀ radius,
       let run := VectorIndexFlat.RangeSearch self q radius filters results in
       (run.1.1 ≠ OK → run.1.2 = results)
       ∧ (run.2 = []
          ∨ ∃ n x r sel,
              run.2 = [VectorIndexFlat.LockRead; VectorIndexFlat.range_search n x r sel;
                       VectorIndexFlat.UnlockRead])
       ∧ (q ≠ [] → VectorIndexUtils.CheckVectorDimension q (VectorIndexFlat.dimension_ self) = OK →
          run.2 ≠ [] ∧ (run.1.1 = OK ∨ run.1.1 = EINTERNAL))).
Proof.
  split.
  - intros topk run. unfold run, VectorIndexFlat.Search.
    repeat (case_bool_decide || case_match); cbn [fst snd]; (split; [try done|]);
      try (by left); try (right; by eexists _, _, _, _).
  - intros radius run. unfold run, VectorIndexFlat.RangeSearch.
    case_bool_decide as Hq; [cbn [fst snd]; split_and!; [done|by left|done]|].
    destruct (ok (VectorIndexUtils.CheckVectorDimension _ _)) eqn:Hd; cbn [negb].
    + case_match; cbn [fst snd]; (split_and!; [done|right; by eexists _, _, _, _|]);
        intros _ _; (split; [done|]); auto.
    + cbn [fst snd]. split_and!; [done|by left|]. intros _ Hok. by rewrite Hok in Hd.
Qed.

(** X9. An index without rows never asks to be saved, whatever the log lag;
    after a successful [AddOrUpsert] the index asks to be saved exactly when
    the lag exceeds [flat_need_save_count]. *)
Theorem NeedToSave_after_upsert `{FlatMath} (flat_need_save_count : Z)
    (self self' : VectorIndexFlat.t) (batch : list common.VectorWithId) (is_upsert : bool)
    (tr : list VectorIndexFlat.Event) (last_save_log_behind : Z) :
  rev_map_consistent (VectorIndexFlat.index_id_map2_ self) →
  VectorIndexFlat.AddOrUpsert self batch is_upsert = (OK, self', tr) →
  VectorIndexFlat.NeedToSave flat_need_save_count self' last_save_log_behind
  = (last_save_log_behind >? flat_need_save_count)
  ∧ (faiss.entries (VectorIndexFlat.index_id_map2_ self) = [] →
     VectorIndexFlat.NeedToSave flat_need_save_count self last_save_log_behind = false).
Proof.
  intros Hc Hrun. split.
  - destruct (AddOrUpsert_success_entries self self' batch is_upsert tr Hc Hrun) as [He _].
    assert (Hne : batch ≠ []).
    { intros ->. unfold VectorIndexFlat.AddOrUpsert in Hrun. by simplify_eq/=. }
    unfold VectorIndexFlat.NeedToSave, faiss.id_map.
    rewrite He, length_fmap, length_app, length_zip, !length_fmap.
    destruct batch as [|v batch]; [done|]. cbn [length].
    match goal with |- context [Z.of_nat ?n =? 0] => destruct (Z.eqb_spec (Z.of_nat n) 0) end;
      [lia|]. by case_match.
  - intros He. unfold VectorIndexFlat.NeedToSave, faiss.id_map. by rewrite He.
Qed.

(** ** The RPC entry points: answer or hand over *)

(** X10. Every entry point of the document service either hands the request
    over (to its body on the RPC thread, or to a worker set that accepts the
    task) and then touches neither the response nor the closure, or it does
    not hand it over and runs the closure exactly once; the one exception
    are the entry points that validate before queueing, which on a failed
    validation only set the error. The closure is never run twice. *)
Theorem entry_point_answers_or_hands_over (flags : FLAGS.t) (env : DocumentService.Surroundings)
    (rpc : DocumentService.Rpc) :
  let steps := DocumentService.serve flags env rpc in
  (DocumentService.done_count steps ≤ 1)%nat
  ∧ (∀ step, step ∈ steps → handed_over step = true → steps = [step])
  ∧ ((∀ step, step ∈ steps → handed_over step = false) →
     DocumentService.done_count steps = 1%nat
     ∨ (DocumentService.validates_first (DocumentService.entry_of rpc) = true
        ∧ DocumentService.validation env ≠ OK
        ∧ steps = [DocumentService.SetError (DocumentService.validation env)])).
Proof.
  cbn zeta. unfold DocumentService.serve.
  destruct (DocumentService.queue_accepts env _ _) eqn:Hq; cbn [negb];
    repeat match goal with
           | |- context [if ?c then _ else _] => destruct c eqn:?
           end;
    (split_and!;
     [cbn; lia
     |intros step Hin Hh; rewrite ?elem_of_cons, ?elem_of_nil in Hin; destruct_or?;
      simplify_eq; cbn in Hh; congruence
     |intros Hno; try (by left);
      try (exfalso; specialize (Hno _ ltac:(by left)); cbn in Hno; congruence)]).
  all: right; match goal with
              | E : _ && negb (ok _) = true |- _ => apply andb_prop in E as [Hv Hnok]
              end;
    (split_and!; [done| |done]); apply negb_true_iff in Hnok; by apply ok_false.
Qed.

(** X11. [TxnCheckTxnStatus], [TxnResolveLock] and [TxnGc] are the entry
    points that validate the request before queueing it. When the region is
    there, the background backlog is within its bound and that validation
    fails, they set the error of the response and return: the task is not
    queued, no body runs, and the closure is not run. *)
Theorem refused_before_queueing_is_left_unanswered (flags : FLAGS.t)
    (env : DocumentService.Surroundings) (rpc : DocumentService.Rpc) (errcode : Errno) :
  (DocumentService.validates_first (DocumentService.entry_of rpc) = true
   ↔ rpc ∈ [DocumentService.TxnCheckTxnStatus; DocumentService.TxnResolveLock;
            DocumentService.TxnGc])
  ∧ (DocumentService.validates_first (DocumentService.entry_of rpc) = true →
     DocumentService.region_found env = true →
     DocumentService.IsBackgroundPendingTaskCountExceed flags env = false →
     DocumentService.validation env ≠ OK →
     DocumentService.serve flags env rpc
     = [DocumentService.SetError (DocumentService.validation env)]
     ∧ DocumentService.done_count (DocumentService.serve flags env rpc) = 0%nat
     ∧ DocumentService.errcode_after (DocumentService.serve flags env rpc) errcode
       = DocumentService.validation env).
Proof.
  split.
  - rewrite !elem_of_cons, elem_of_nil.
    destruct rpc; cbn; (split; [intros ?; try done; auto|intros ?; by destruct_or?]).
  - intros Hv Hregion Hback Hnok.
    assert (Hs : DocumentService.serve flags env rpc
                 = [DocumentService.SetError (DocumentService.validation env)]).
    { unfold DocumentService.serve. rewrite Hregion, Hback, Hv, !andb_false_r.
      destruct (ok (DocumentService.validation env)) eqn:Hok;
        [by apply ok_true in Hok|].
      by destruct rpc. }
    by rewrite Hs.
Qed.

(** X12. A body runs on the RPC thread only for an entry point of the read
    pool whose async flag is switched off; the entry points of the write pool
    always queue, and with the flags at their defaults so does every entry
    point. A task is only ever offered to the pool of its entry point. *)
Theorem only_unflagged_reads_run_inline (flags : FLAGS.t) (env : DocumentService.Surroundings)
    (rpc : DocumentService.Rpc) :
  (∀ rpc', DocumentService.run_inline rpc' ∈ DocumentService.serve flags env rpc →
     rpc' = rpc
     ∧ DocumentService.worker_set (DocumentService.entry_of rpc) = DocumentService.read_worker_set_
     ∧ ∃ flag, DocumentService.async_flag (DocumentService.entry_of rpc) = Some flag
               ∧ flag flags = false)
  ∧ (∀ a b c rpc', DocumentService.run_inline rpc'
                   ∉ DocumentService.serve (FLAGS.defaults a b c) env rpc)
  ∧ (∀ ws d rpc' ret,
       DocumentService.Execute ws d rpc' ret ∈ DocumentService.serve flags env rpc →
       rpc' = rpc
       ∧ ws = DocumentService.worker_set (DocumentService.entry_of rpc)
       ∧ d = DocumentService.dispatch (DocumentService.entry_of rpc)
       ∧ ret = DocumentService.queue_accepts env ws d).
Proof.
  split_and!.
  - intros rpc'. unfold DocumentService.serve.
    repeat match goal with
           | |- context [if ?c then _ else _] => destruct c eqn:?
           end;
      rewrite ?elem_of_cons, ?elem_of_nil; intros Hin; destruct_or?; simplify_eq.
    match goal with
    | |- context [DocumentService.entry_of ?r] =>
      destruct (DocumentService.async_flag (DocumentService.entry_of r)) as [flag|] eqn:Hflag;
        [|done];
      (split_and!; [done| |exists flag; split; [done|by apply negb_true_iff]]);
      by destruct r
    end.
  - intros a b c rpc'. unfold DocumentService.serve.
    assert (Hflag : match DocumentService.async_flag (DocumentService.entry_of rpc) with
                    | Some flag => negb (flag (FLAGS.defaults a b c))
                    | None => false
                    end = false) by by destruct rpc.
    rewrite Hflag.
    repeat match goal with
           | |- context [if ?c then _ else _] => destruct c eqn:?
           end;
      rewrite ?elem_of_cons, ?elem_of_nil; intros Hin; by destruct_or?.
  - intros ws d rpc' ret. unfold DocumentService.serve.
    repeat match goal with
           | |- context [if ?c then _ else _] => destruct c eqn:?
           end;
      rewrite ?elem_of_cons, ?elem_of_nil; intros Hin; destruct_or?; by simplify_eq.
Qed.

(** ** The bodies: closure, storage calls and response *)

(** X13. [DoDocumentAdd] and [DoDocumentDelete] make at most one storage
    call, with the closure attached to its context exactly when the call is
    not synchronous. The body runs the closure itself exactly once, except
    when it made an asynchronous storage call that returned [OK]: then the
    closure is left to the engine and the body does not run it. *)
Theorem write_bodies_release_closure_once `{Collaborators} (flags : FLAGS.t)
    (region : store.Region) (is_sync : bool) :
  (∀ request response,
     let o := DocumentService.DoDocumentAdd flags region request response is_sync in
     (length (DocumentService.calls o) ≤ 1)%nat
     ∧ (∀ ctx s documents is_update,
          engine.DocumentAdd ctx s documents is_update ∈ DocumentService.calls o →
          s = is_sync ∧ engine.has_done ctx = negb is_sync)
     ∧ (DocumentService.done_runs o = 0%nat
        ↔ is_sync = false
          ∧ ∃ call, DocumentService.calls o = [call] ∧ engine.status (storage call) = OK)
     ∧ (DocumentService.done_runs o ≠ 0%nat → DocumentService.done_runs o = 1%nat))
  ∧ (∀ request response,
       let o := DocumentService.DoDocumentDelete flags region request response is_sync in
       (length (DocumentService.calls o) ≤ 1)%nat
       ∧ (∀ ctx s region_id ids,
            engine.DocumentDelete ctx s region_id ids ∈ DocumentService.calls o →
            s = is_sync ∧ engine.has_done ctx = negb is_sync)
       ∧ (DocumentService.done_runs o = 0%nat
          ↔ is_sync = false
            ∧ ∃ call, DocumentService.calls o = [call] ∧ engine.status (storage call) = OK)
       ∧ (DocumentService.done_runs o ≠ 0%nat → DocumentService.done_runs o = 1%nat)).
Proof.
  split; intros request response o; subst o;
    [unfold DocumentService.DoDocumentAdd|unfold DocumentService.DoDocumentDelete].
  all: destruct (ok (_ flags request region)) eqn:Hvalid; cbn [negb];
    [|cbn; split_and!;
      [lia|intros ???? Hin; by apply elem_of_nil in Hin
      |split; [done|by intros [_ (? & ? & _)]]|done]].
  all: match goal with
       | |- context [storage ?c] => destruct (ok (engine.status (storage c))) eqn:Hcall
       end; cbn [negb DocumentService.calls DocumentService.done_runs length].
  all: split_and!;
    [lia
    |intros ???? Hin; apply list_elem_of_singleton in Hin; by simplify_eq
    | |destruct is_sync; done].
  all: split;
    [intros Hruns;
     first [done|destruct is_sync; [done|]; split; [done|];
                 eexists; split; [done|by apply ok_true]]
    |intros [-> (call & Hc & Hst)];
     first [done|simplify_eq; by apply ok_false in Hcall]].
Qed.

Lemma SetTxnAccessMaxTs_max (region : store.Region) (ts : Z) :
  store.TxnAccessMaxTs (store.SetTxnAccessMaxTs region ts)
  = Z.max (store.TxnAccessMaxTs region) ts.
Proof.
  unfold store.SetTxnAccessMaxTs, store.TxnAccessMaxTs.
  destruct (Z.gtb_spec ts (store.txn_access_max_ts_ region)); simpl; lia.
Qed.

Lemma SetTxnAccessMaxTs_rest (region : store.Region) (ts : Z) :
  store.Range (store.SetTxnAccessMaxTs region ts) = store.Range region
  ∧ store.RawAppliedMaxTs (store.SetTxnAccessMaxTs region ts) = store.RawAppliedMaxTs region
  ∧ store.Id (store.SetTxnAccessMaxTs region ts) = store.Id region
  ∧ store.document_index_wapper_ (store.SetTxnAccessMaxTs region ts)
    = store.document_index_wapper_ region.
Proof. unfold store.SetTxnAccessMaxTs. by case_match. Qed.

(** X14. [DoTxnScanDocument] and [DoTxnBatchGetDocument] record the start
    timestamp of the request on the region before they validate it: whatever
    the answer (refused, lock conflict, storage failure or success), the
    region afterwards is the region after [SetTxnAccessMaxTs(start_ts)]. That
    call raises the transaction-access watermark to the maximum of its value
    and [start_ts] and leaves the raw-applied watermark alone, as
    [SetRawAppliedMaxTs] leaves the transaction-access watermark alone. *)
Theorem txn_reads_record_start_ts `{Collaborators} `{TxnCollaborators} (flags : FLAGS.t)
    (region : store.Region) :
  (∀ request response o,
     DocumentService.DoTxnScanDocument flags region request response = Some o →
     DocumentService.region_after o
     = store.SetTxnAccessMaxTs region (msg.scan_start_ts request))
  ∧ (∀ request response,
       DocumentService.bg_region_after
         (DocumentService.DoTxnBatchGetDocument region request response)
       = store.SetTxnAccessMaxTs region (msg.bg_start_ts request))
  ∧ (∀ ts,
       store.TxnAccessMaxTs (store.SetTxnAccessMaxTs region ts)
       = Z.max (store.TxnAccessMaxTs region) ts
       ∧ store.RawAppliedMaxTs (store.SetTxnAccessMaxTs region ts)
         = store.RawAppliedMaxTs region
       ∧ store.TxnAccessMaxTs (store.SetRawAppliedMaxTs region ts)
         = store.TxnAccessMaxTs region).
Proof.
  split_and!.
  - intros request response o. unfold DocumentService.DoTxnScanDocument.
    repeat (case_match || case_bool_decide); intros; by simplify_eq.
  - intros request response. unfold DocumentService.DoTxnBatchGetDocument.
    by repeat (case_match || case_bool_decide).
  - intros ts. split_and!; [apply SetTxnAccessMaxTs_max|apply SetTxnAccessMaxTs_rest|].
    unfold store.SetRawAppliedMaxTs. by case_match.
Qed.

(** X15. Whenever [DoTxnScanDocument] calls [storage->TxnScan], it is its
    only call and its arguments were checked: the start timestamp is not
    negative, neither limit exceeds [stream_message_max_limit_size] and one
    of them is positive, the request has no coprocessor (so the coprocessor
    is always disabled), the transformed range passed [ValidateRange] and
    [ValidateRangeInRange], the range handed over is its intersection with
    the range of the region, and the context carries no closure. *)
Theorem TxnScan_reaches_storage_checked `{Collaborators} (flags : FLAGS.t)
    (region : store.Region) (request : msg.TxnScanRequest) (response : msg.TxnScanResponse)
    (o : DocumentService.Outcome msg.TxnScanResponse) (call : engine.Call) :
  DocumentService.DoTxnScanDocument flags region request response = Some o →
  call ∈ DocumentService.calls o →
  let uniform_range := TransformRangeWithOptions (msg.scan_range request) in
  DocumentService.calls o = [call]
  ∧ call
    = engine.TxnScan
        (engine.mkContext (msg.region_id (msg.scan_context request))
           (msg.region_epoch (msg.scan_context request))
           (Some (msg.isolation_level (msg.scan_context request))) None false)
        (msg.scan_stream_meta request) (msg.scan_start_ts request)
        (IntersectRange (store.Range region) uniform_range) (msg.scan_limit request)
        (msg.key_only request) (msg.is_reverse request)
        (list_to_set (msg.resolved_locks (msg.scan_context request))) true
  ∧ 0 ≤ msg.scan_start_ts request
  ∧ msg.scan_limit request ≤ FLAGS.stream_message_max_limit_size flags
  ∧ msg.limit (msg.scan_stream_meta request) ≤ FLAGS.stream_message_max_limit_size flags
  ∧ (0 < msg.scan_limit request ∨ 0 < msg.limit (msg.scan_stream_meta request))
  ∧ msg.has_coprocessor request = false
  ∧ ValidateRange uniform_range = OK
  ∧ ValidateRangeInRange (store.Range region) uniform_range = OK.
Proof.
  intros Hrun Hin uniform_range. unfold DocumentService.DoTxnScanDocument in Hrun.
  fold uniform_range in Hrun.
  destruct (SetTxnAccessMaxTs_rest region (msg.scan_start_ts request)) as (Hrange & _).
  rewrite Hrange in Hrun.
  destruct (ok (DocumentService.ValidateTxnScanRequestIndex _ _ _ _)) eqn:Hvalid;
    cbn [negb] in Hrun;
    [|case_bool_decide; simplify_eq; by apply elem_of_nil in Hin].
  assert (Hchecked :
    0 ≤ msg.scan_start_ts request
    ∧ msg.scan_limit request ≤ FLAGS.stream_message_max_limit_size flags
    ∧ msg.limit (msg.scan_stream_meta request) ≤ FLAGS.stream_message_max_limit_size flags
    ∧ (0 < msg.scan_limit request ∨ 0 < msg.limit (msg.scan_stream_meta request))
    ∧ msg.has_coprocessor request = false
    ∧ ValidateRange uniform_range = OK
    ∧ ValidateRangeInRange (store.Range region) uniform_range = OK).
  { apply ok_true in Hvalid. unfold DocumentService.ValidateTxnScanRequestIndex in Hvalid.
    rewrite Hrange in Hvalid.
    repeat match type of Hvalid with
           | (if negb (ok ?s) then _ else _) = _ =>
             let E := fresh "E" in destruct (ok s) eqn:E; cbn [negb] in Hvalid;
               [apply ok_true in E|by apply ok_false in E]
           | (if ?c then _ else _) = _ =>
             let E := fresh "E" in destruct c eqn:E; [done|]
           end.
    apply andb_false_iff in E. apply orb_false_iff in E0 as [E0 E0'].
    split_and!; [lia|lia|lia|destruct E; [left|right]; lia|done|done|done]. }
  assert (Hcall : DocumentService.calls o = [call] ∧ call = engine.TxnScan
        (engine.mkContext (msg.region_id (msg.scan_context request))
           (msg.region_epoch (msg.scan_context request))
           (Some (msg.isolation_level (msg.scan_context request))) None false)
        (msg.scan_stream_meta request) (msg.scan_start_ts request)
        (IntersectRange (store.Range region) uniform_range) (msg.scan_limit request)
        (msg.key_only request) (msg.is_reverse request)
        (list_to_set (msg.resolved_locks (msg.scan_context request))) true).
  { destruct Hchecked as (_ & _ & _ & _ & Hco & _). rewrite Hco in Hrun. cbn [negb] in Hrun.
    repeat (case_match || case_bool_decide); simplify_eq;
      cbn [DocumentService.calls] in Hin;
      first [by apply elem_of_nil in Hin|by apply list_elem_of_singleton in Hin as ->]. }
  destruct Hcall as [Hc1 Hc2]. destruct Hchecked as (? & ? & ? & ? & ? & ? & ?).
  by split_and!.
Qed.

(** What a validation that returned [OK] has checked: every early return of
    the chain was passed. *)
Ltac passed H :=
  repeat match type of H with
         | (if negb (ok ?s) then _ else _) = OK =>
           let E := fresh "E" in
           destruct (ok s) eqn:E; cbn [negb] in H; [apply ok_true in E|by apply ok_false in E]
         | (if negb ?c then _ else _) = OK =>
           let E := fresh "E" in
           destruct c eqn:E; cbn [negb] in H; [|first [done|by apply index_not_ready_error in H]]
         | (if ?c then _ else _) = OK =>
           let E := fresh "E" in destruct c eqn:E; [done|]
         end.

Lemma int64_add_fits (a b : Z) :
  - 2 ^ 63 ≤ a + b < 2 ^ 63 → DocumentService.int64_add a b = a + b.
Proof.
  intros Hfit. unfold DocumentService.int64_add.
  destruct (Z.neg_nonneg_cases (a + b)) as [Hneg|Hpos].
  - assert (Hmod : (a + b) mod 2 ^ 64 = a + b + 2 ^ 64).
    { symmetry. apply (Z.mod_unique_pos _ _ (-1)); lia. }
    rewrite Hmod. destruct (Z.ltb_spec (a + b + 2 ^ 64) (2 ^ 63)); lia.
  - rewrite Z.mod_small by lia. destruct (Z.ltb_spec (a + b) (2 ^ 63)); lia.
Qed.

(** X16. A storage call of [DoDocumentAdd] or [DoDocumentDelete] carries the
    request as it came and was checked before: the batch is not empty and
    within [document_max_batch_count], the region id is not 0, the store is
    the leader and the document index is ready, and the ids passed
    [ValidateDocumentRegion]. For an add, moreover, every id is legal, the
    request is within [document_max_request_size], the cluster is writable,
    the ttl is not negative, and the context carries an expiry exactly when
    the ttl is positive: the [int64_t] sum of now and the ttl, which is
    now + ttl whenever that fits 64 bits. Validation puts no upper bound on
    the ttl, so the sum can wrap around. A delete names the region by the id
    of the region found, not by the id in the request. *)
Theorem document_writes_reach_storage_checked `{Collaborators} (flags : FLAGS.t)
    (region : store.Region) (is_sync : bool) :
  (∀ request response call,
     call ∈ DocumentService.calls
              (DocumentService.DoDocumentAdd flags region request response is_sync) →
     call
     = engine.DocumentAdd
         (engine.mkContext (msg.region_id (msg.add_context request))
            (msg.region_epoch (msg.add_context request)) None
            (if msg.ttl request >? 0
             then Some (DocumentService.int64_add TimestampMs (msg.ttl request)) else None)
            (negb is_sync))
         is_sync (msg.documents request) (msg.is_update request)
     ∧ msg.documents request ≠ []
     ∧ Z.of_nat (length (msg.documents request)) ≤ FLAGS.document_max_batch_count flags
     ∧ (∀ document, document ∈ msg.documents request →
          DocumentCodec.IsLegalDocumentId (msg.id document) = true)
     ∧ ByteSizeLong_add request
       ≤ DocumentService.to_size_t (FLAGS.document_max_request_size flags)
     ∧ 0 ≤ msg.ttl request
     ∧ (TimestampMs + msg.ttl request < 2 ^ 63 → - 2 ^ 63 ≤ TimestampMs →
        DocumentService.int64_add TimestampMs (msg.ttl request) = TimestampMs + msg.ttl request)
     ∧ msg.region_id (msg.add_context request) ≠ 0
     ∧ ValidateLeader region = OK
     ∧ store.IsReady (store.document_index_wapper_ region) = true
     ∧ ValidateClusterReadOnly = OK
     ∧ ValidateDocumentRegion region (map msg.id (msg.documents request)) = OK)
  ∧ (∀ request response call,
       call ∈ DocumentService.calls
                (DocumentService.DoDocumentDelete flags region request response is_sync) →
       call
       = engine.DocumentDelete
           (engine.mkContext (msg.region_id (msg.del_context request))
              (msg.region_epoch (msg.del_context request)) None None (negb is_sync))
           is_sync (store.Id region) (msg.ids request)
       ∧ msg.ids request ≠ []
       ∧ Z.of_nat (length (msg.ids request)) ≤ FLAGS.document_max_batch_count flags
       ∧ msg.region_id (msg.del_context request) ≠ 0
       ∧ ValidateLeader region = OK
       ∧ store.IsReady (store.document_index_wapper_ region) = true
       ∧ ValidateDocumentRegion region (msg.ids request) = OK).
Proof.
  split; intros request response call;
    [unfold DocumentService.DoDocumentAdd|unfold DocumentService.DoDocumentDelete].
  - destruct (ok (DocumentService.ValidateDocumentAddRequest flags request region)) eqn:Hvalid;
      cbn [negb]; [|by intros ?%elem_of_nil].
    intros Hin.
    assert (Hcall : call = engine.DocumentAdd
         (engine.mkContext (msg.region_id (msg.add_context request))
            (msg.region_epoch (msg.add_context request)) None
            (if msg.ttl request >? 0
             then Some (DocumentService.int64_add TimestampMs (msg.ttl request)) else None)
            (negb is_sync))
         is_sync (msg.documents request) (msg.is_update request)).
    { case_match; cbn [DocumentService.calls] in Hin;
        by apply list_elem_of_singleton in Hin. }
    clear Hin. apply ok_true in Hvalid.
    unfold DocumentService.ValidateDocumentAddRequest in Hvalid. passed Hvalid.
    case_bool_decide as Hne; [done|]. passed Hvalid.
    split_and!; try done; try lia.
    + intros document Hd.
      match goal with
      | Hall : forallb _ _ = true |- _ =>
        rewrite forallb_forall in Hall; apply Hall; by apply list_elem_of_In
      end.
    + intros Hhi Hlo. apply int64_add_fits. lia.
  - destruct (ok (DocumentService.ValidateDocumentDeleteRequest flags request region))
      eqn:Hvalid; cbn [negb]; [|by intros ?%elem_of_nil].
    intros Hin.
    assert (Hcall : call = engine.DocumentDelete
           (engine.mkContext (msg.region_id (msg.del_context request))
              (msg.region_epoch (msg.del_context request)) None None (negb is_sync))
           is_sync (store.Id region) (msg.ids request)).
    { case_match; cbn [DocumentService.calls] in Hin;
        by apply list_elem_of_singleton in Hin. }
    clear Hin. apply ok_true in Hvalid.
    unfold DocumentService.ValidateDocumentDeleteRequest in Hvalid. passed Hvalid.
    case_bool_decide as Hne; [done|]. passed Hvalid.
    split_and!; try done; lia.
Qed.

(** X17. The read bodies [DoDocumentBatchQuery], [DoDocumentSearch] and
    [DoDocumentSearchAll] run the closure exactly once, leave the region as
    it is, and answer all or nothing: either the error of the response is
    untouched and the documents of the one successful storage call are
    appended to the response (for a search-all together with the stream id
    and the has-more bit of the stream), or the error code is set to a
    status other than [OK] and the documents of the response are untouched.
    A search for [top_n = 0] returns the response as it came. *)
Theorem document_reads_answer_all_or_nothing `{Collaborators} (flags : FLAGS.t)
    (region : store.Region) :
  (∀ request response,
     let o := DocumentService.DoDocumentBatchQuery flags region request response in
     DocumentService.done_runs o = 1%nat ∧ DocumentService.region_after o = region
     ∧ ((msg.bq_error (DocumentService.response o) = msg.bq_error response
         ∧ ∃ call, DocumentService.calls o = [call] ∧ engine.status (storage call) = OK
             ∧ msg.doucments (DocumentService.response o)
               = msg.doucments response ++ engine.document_with_ids (storage call))
        ∨ (msg.errcode (msg.bq_error (DocumentService.response o)) ≠ OK
           ∧ msg.doucments (DocumentService.response o) = msg.doucments response)))
  ∧ (∀ request response,
       let o := DocumentService.DoDocumentSearch flags region request response in
       DocumentService.done_runs o = 1%nat ∧ DocumentService.region_after o = region
       ∧ ((msg.s_error (DocumentService.response o) = msg.s_error response
           ∧ ∃ call, DocumentService.calls o = [call] ∧ engine.status (storage call) = OK
               ∧ msg.s_document_with_scores (DocumentService.response o)
                 = msg.s_document_with_scores response ++ engine.document_results (storage call))
          ∨ (msg.top_n (msg.s_parameter request) = 0
             ∧ DocumentService.response o = response ∧ DocumentService.calls o = [])
          ∨ (msg.errcode (msg.s_error (DocumentService.response o)) ≠ OK
             ∧ msg.s_document_with_scores (DocumentService.response o)
               = msg.s_document_with_scores response)))
  ∧ (∀ request response o,
       DocumentService.DoDocumentSearchAll flags region request response = Some o →
       DocumentService.done_runs o = 1%nat ∧ DocumentService.region_after o = region
       ∧ ((msg.sa_error (DocumentService.response o) = msg.sa_error response
           ∧ ∃ call stream_id,
               DocumentService.calls o = [call] ∧ engine.status (storage call) = OK
               ∧ engine.stream (storage call) = Some stream_id
               ∧ msg.sa_document_with_scores (DocumentService.response o)
                 = msg.sa_document_with_scores response
                   ++ engine.document_results (storage call)
               ∧ msg.sa_resp_stream_meta (DocumentService.response o)
                 = Some (msg.mkStreamResponseMeta stream_id (engine.has_more (storage call))))
          ∨ (msg.errcode (msg.sa_error (DocumentService.response o)) ≠ OK
             ∧ msg.sa_document_with_scores (DocumentService.response o)
               = msg.sa_document_with_scores response
             ∧ msg.sa_resp_stream_meta (DocumentService.response o)
               = msg.sa_resp_stream_meta response))).
Proof.
  split_and!.
  - intros request response o. subst o. unfold DocumentService.DoDocumentBatchQuery.
    destruct (ok (DocumentService.ValidateDocumentBatchQueryRequest _ _ _)) eqn:Hvalid;
      cbn [negb]; [|split_and!; [done..|right; split; [by apply ok_false|done]]].
    match goal with
    | |- context [storage ?c] => destruct (ok (engine.status (storage c))) eqn:Hcall
    end; cbn [negb]; (split_and!; [done..|]).
    + left. split; [done|]. eexists. split_and!; [done|by apply ok_true|done].
    + right. split; [by apply ok_false|done].
  - intros request response o. subst o. unfold DocumentService.DoDocumentSearch.
    destruct (ok (DocumentService.ValidateDocumentSearchRequest _ _ _)) eqn:Hvalid;
      cbn [negb]; [|split_and!; [done..|right; right; split; [by apply ok_false|done]]].
    destruct (Z.eqb_spec (msg.top_n (msg.s_parameter request)) 0) as [Hzero|_];
      [split_and!; [done..|right; by left]|].
    match goal with
    | |- context [storage ?c] => destruct (ok (engine.status (storage c))) eqn:Hcall
    end; cbn [negb]; (split_and!; [done..|]).
    + left. split; [done|]. eexists. split_and!; [done|by apply ok_true|done].
    + right. right. split; [by apply ok_false|done].
  - intros request response o. unfold DocumentService.DoDocumentSearchAll.
    destruct (ok (DocumentService.ValidateDocumentSearchAllRequest _ _ _)) eqn:Hvalid;
      cbn [negb];
      [|intros [= <-]; split_and!; [done..|right; split_and!; [by apply ok_false|done..]]].
    match goal with
    | |- context [storage ?c] => destruct (ok (engine.status (storage c))) eqn:Hcall
    end; cbn [negb].
    + destruct (engine.stream _) as [stream_id|] eqn:Hstream; [|done].
      intros [= <-]. split_and!; [done..|]. left. split; [done|].
      eexists _, stream_id. split_and!; [done|by apply ok_true|done..].
    + intros [= <-]. split_and!; [done..|]. right. split_and!; [by apply ok_false|done..].
Qed.

(** X18. A [DoTxnScanDocument] whose validation fails makes no storage call
    and answers with the validation status as error code, with one
    exception: when the status is [ERANGE_INVALID] the response is returned
    exactly as it came, without an error. So a scan with legal limits and
    start timestamp and a matching epoch whose range [ValidateRange] or
    [ValidateRangeInRange] reports as [ERANGE_INVALID] is answered like a
    scan that found nothing, and without stream meta. *)
Theorem invalid_range_scan_is_answered_without_error `{Collaborators} (flags : FLAGS.t)
    (region : store.Region) (request : msg.TxnScanRequest) (response : msg.TxnScanResponse) :
  let region' := store.SetTxnAccessMaxTs region (msg.scan_start_ts request) in
  let uniform_range := TransformRangeWithOptions (msg.scan_range request) in
  let status := DocumentService.ValidateTxnScanRequestIndex flags request (Some region')
                  uniform_range in
  (status ≠ OK →
   ∃ o, DocumentService.DoTxnScanDocument flags region request response = Some o
        ∧ DocumentService.calls o = [] ∧ DocumentService.done_runs o = 1%nat
        ∧ (status = ERANGE_INVALID → DocumentService.response o = response)
        ∧ (status ≠ ERANGE_INVALID →
           msg.errcode (msg.scan_error (DocumentService.response o)) = status
           ∧ msg.scan_documents (DocumentService.response o) = msg.scan_documents response
           ∧ msg.scan_resp_stream_meta (DocumentService.response o)
             = msg.scan_resp_stream_meta response))
  ∧ (0 < msg.scan_limit request ∨ 0 < msg.limit (msg.scan_stream_meta request) →
     msg.scan_limit request ≤ FLAGS.stream_message_max_limit_size flags →
     msg.limit (msg.scan_stream_meta request) ≤ FLAGS.stream_message_max_limit_size flags →
     0 ≤ msg.scan_start_ts request →
     ValidateRegionEpoch (msg.region_epoch (msg.scan_context request)) (Some region') = OK →
     ValidateRange uniform_range = ERANGE_INVALID
     ∨ (ValidateRange uniform_range = OK
        ∧ ValidateRangeInRange (store.Range region) uniform_range = ERANGE_INVALID) →
     DocumentService.DoTxnScanDocument flags region request response
     = Some (DocumentService.mkOutcome response [] 1 region')).
Proof.
  intros region' uniform_range status. split.
  - intros Hnok. unfold DocumentService.DoTxnScanDocument.
    fold region' uniform_range status.
    destruct (ok status) eqn:Hok; [by apply ok_true in Hok|]. cbn [negb].
    case_bool_decide as Hrange; eexists; (split; [done|]); by split_and!.
  - intros Hpos Hl1 Hl2 Hts Hepoch Hinvalid.
    assert (Hstatus : status = ERANGE_INVALID).
    { unfold status, DocumentService.ValidateTxnScanRequestIndex.
      destruct (SetTxnAccessMaxTs_rest region (msg.scan_start_ts request)) as (Hr & _).
      fold region'. fold region' in Hr. rewrite Hr.
      destruct ((msg.scan_limit request <=? 0)
                && (msg.limit (msg.scan_stream_meta request) <=? 0)) eqn:E1; [lia|].
      destruct ((msg.scan_limit request >? FLAGS.stream_message_max_limit_size flags)
                || (msg.limit (msg.scan_stream_meta request)
                    >? FLAGS.stream_message_max_limit_size flags)) eqn:E2; [lia|].
      destruct (Z.ltb_spec (msg.scan_start_ts request) 0); [lia|].
      rewrite Hepoch. change (ok OK) with true. cbn [negb].
      destruct Hinvalid as [Hv|[Hv Hin]]; rewrite Hv; [done|].
      change (ok OK) with true. cbn [negb]. by rewrite Hin. }
    unfold DocumentService.DoTxnScanDocument. fold region' uniform_range status.
    rewrite Hstatus. done.
Qed.

Lemma add_documents_cons `{Collaborators} (kv : msg.KeyValue) (kvs : list msg.KeyValue)
    (documents : list msg.DocumentWithId) :
  DocumentService.add_documents (kv :: kvs) documents
  = match document_of_value kv with
    | Some document => DocumentService.add_documents kvs (documents ++ [document])
    | None => (documents, false)
    end.
Proof.
  cbn [DocumentService.add_documents]. unfold document_of_value.
  case_bool_decide; [done|]. by destruct (ParseFromString (msg.value kv)).
Qed.

Lemma add_documents_all_parsed `{Collaborators} (kvs : list msg.KeyValue) :
  ∀ documents,
    Forall (λ kv, is_Some (document_of_value kv)) kvs →
    DocumentService.add_documents kvs documents
    = (documents ++ omap document_of_value kvs, true).
Proof.
  induction kvs as [|kv kvs IH]; intros documents Hall; [cbn; by rewrite app_nil_r|].
  apply Forall_cons_1 in Hall as [[document Hkv] Hall].
  rewrite add_documents_cons, Hkv, IH by done.
  cbn [omap list_omap]. rewrite Hkv. by rewrite <- app_assoc.
Qed.

(** X19. The loop that turns the key-values read into documents stops at the
    first value that is neither empty nor parses: the documents of the
    key-values before it are appended to those already in the response, in
    order, an empty value giving the default document; the loop reports
    success exactly when no such value exists, and then one document per
    key-value was appended. *)
Theorem add_documents_appends_until_bad_value `{Collaborators} (kvs : list msg.KeyValue)
    (documents : list msg.DocumentWithId) :
  let result := DocumentService.add_documents kvs documents in
  (∃ kvs1 kvs2,
     kvs = kvs1 ++ kvs2
     ∧ Forall (λ kv, is_Some (document_of_value kv)) kvs1
     ∧ result.1 = documents ++ omap document_of_value kvs1
     ∧ length result.1 = (length documents + length kvs1)%nat
     ∧ (if result.2 then kvs2 = []
        else ∃ kv rest, kvs2 = kv :: rest ∧ document_of_value kv = None))
  ∧ (result.2 = true ↔ Forall (λ kv, is_Some (document_of_value kv)) kvs).
Proof.
  cbn zeta. revert documents.
  induction kvs as [|kv kvs IH]; intros documents.
  - split; [|done]. exists [], []. cbn. rewrite app_nil_r. split_and!; [done..|lia|done].
  - rewrite add_documents_cons.
    destruct (document_of_value kv) as [document|] eqn:Hkv.
    + destruct (IH (documents ++ [document])) as [(kvs1 & kvs2 & IH1) IH2].
      destruct IH1 as (-> & Hall & Hres & Hlen & Hrest). split.
      * exists (kv :: kvs1), kvs2. split_and!; [done| | | |done].
        -- constructor; [by rewrite Hkv|done].
        -- rewrite Hres. cbn [omap list_omap]. rewrite Hkv. by rewrite <- app_assoc.
        -- rewrite Hlen, length_app. cbn. lia.
      * rewrite IH2, Forall_cons. rewrite Hkv.
        split; [intros ?; split; [by eexists|done]|by intros [_ ?]].
    + cbn [fst snd]. split.
      * exists [], (kv :: kvs). cbn. rewrite app_nil_r.
        split_and!; [done|done|done|lia|by eexists _, _].
      * split; [done|]. intros Hall%Forall_cons_1. destruct Hall as [Hsome _].
        rewrite Hkv in Hsome. by destruct Hsome.
Qed.


(** ** Validation of transactional requests *)

Lemma check_resolve_keys_ok `{Collaborators} (region : store.Region) (keys : list string) :
  DocumentService.check_resolve_keys region keys = OK
  ↔ Forall (λ key, key ≠ EmptyString ∧ ValidateRegion region [key] = OK) keys.
Proof.
  induction keys as [|key keys IH]; [done|].
  cbn [DocumentService.check_resolve_keys]. rewrite Forall_cons, <- IH.
  case_bool_decide as Hkey; [split; [done|by intros [[? _] _]]|].
  destruct (ok (ValidateRegion region [key])) eqn:Hr; cbn [negb].
  - apply ok_true in Hr. by split; [|intros [_ ?]].
  - apply ok_false in Hr. split; [done|by intros [[_ ?] _]].
Qed.

(** X21. [DocumentValidateTxnResolveLockRequest] returns [OK] exactly when
    the region epoch matches, [start_ts] is not 0, [commit_ts] is not
    negative and is either 0 or at least [start_ts], every key is non-empty
    and, taken alone, passes [ValidateRegion], the document index is ready
    and the cluster is writable. A request without keys passes the key
    checks. *)
Theorem TxnResolveLock_validates_iff `{Collaborators} (request : msg.TxnResolveLockRequest)
    (region : store.Region) :
  DocumentService.DocumentValidateTxnResolveLockRequest request region = OK
  ↔ ValidateRegionEpoch (msg.region_epoch (msg.rl_context request)) (Some region) = OK
    ∧ msg.rl_start_ts request ≠ 0
    ∧ 0 ≤ msg.rl_commit_ts request
    ∧ (msg.rl_commit_ts request = 0 ∨ msg.rl_start_ts request ≤ msg.rl_commit_ts request)
    ∧ Forall (λ key, key ≠ EmptyString ∧ ValidateRegion region [key] = OK) (msg.rl_keys request)
    ∧ store.IsReady (store.document_index_wapper_ region) = true
    ∧ ValidateClusterReadOnly = OK.
Proof.
  unfold DocumentService.DocumentValidateTxnResolveLockRequest.
  assert (Hkeys :
    (if Z.of_nat (length (msg.rl_keys request)) >? 0
     then DocumentService.check_resolve_keys region (msg.rl_keys request) else OK)
    = DocumentService.check_resolve_keys region (msg.rl_keys request)).
  { by destruct (msg.rl_keys request). }
  rewrite Hkeys. clear Hkeys.
  destruct (ok (ValidateRegionEpoch _ _)) eqn:Hepoch; cbn [negb];
    [apply ok_true in Hepoch|apply ok_false in Hepoch; by split; [|intros (? & _)]].
  destruct (Z.eqb_spec (msg.rl_start_ts request) 0) as [Hs|Hs];
    [by split; [|intros (_ & ? & _)]|].
  destruct (Z.ltb_spec (msg.rl_commit_ts request) 0) as [Hc|Hc];
    [split; [done|intros (_ & _ & ? & _); lia]|].
  destruct ((msg.rl_commit_ts request >? 0)
            && (msg.rl_commit_ts request <? msg.rl_start_ts request)) eqn:Horder;
    [split; [done|intros (_ & _ & _ & ? & _); lia]|].
  destruct (ok (DocumentService.check_resolve_keys _ _)) eqn:Hk; cbn [negb];
    [apply ok_true, check_resolve_keys_ok in Hk
    |apply ok_false in Hk; split; [done|intros (_ & _ & _ & _ & ?%check_resolve_keys_ok & _); done]].
  destruct (store.IsReady _) eqn:Hready; cbn [negb];
    [|split; [by intros ?%index_not_ready_error|by intros (_ & _ & _ & _ & _ & ? & _)]].
  destruct (ok ValidateClusterReadOnly) eqn:Hro; cbn [negb];
    [apply ok_true in Hro|apply ok_false in Hro; by split; [|intros (_ & _ & _ & _ & _ & _ & ?)]].
  split; [intros _|done]. split_and!; [done..|lia|done|done|done].
Qed.

Lemma commit_document_ids_Some `{Collaborators} (keys : list string) :
  ∀ document_ids,
    DocumentService.commit_document_ids keys document_ids
    = if forallb (λ key, negb (UnPackageDocumentId key =? 0)) keys
      then Some (document_ids ++ map UnPackageDocumentId keys) else None.
Proof.
  induction keys as [|key keys IH]; intros document_ids; cbn.
  - by rewrite app_nil_r.
  - destruct (UnPackageDocumentId key =? 0); [done|]. cbn. rewrite IH.
    by rewrite <- app_assoc.
Qed.

Lemma no_zero_ids `{Collaborators} (keys : list string) :
  forallb (λ key, negb (UnPackageDocumentId key =? 0)) keys = true
  ↔ Forall (λ key, UnPackageDocumentId key ≠ 0) keys.
Proof.
  rewrite forallb_forall, Forall_forall. setoid_rewrite list_elem_of_In.
  split; intros Hall key Hin; specialize (Hall key Hin).
  - apply negb_true_iff in Hall. lia.
  - apply negb_true_iff. lia.
Qed.

Lemma no_empty_keys (keys : list string) :
  existsb (λ key, bool_decide (key = EmptyString)) keys = false
  ↔ Forall (λ key, key ≠ EmptyString) keys.
Proof.
  rewrite Forall_forall. setoid_rewrite list_elem_of_In. split.
  - intros Hex key Hin ->. apply not_true_iff_false in Hex. apply Hex.
    apply existsb_exists. exists EmptyString. by rewrite bool_decide_eq_true.
  - intros Hall. apply not_true_iff_false. intros (key & Hin & Hk)%existsb_exists.
    apply bool_decide_eq_true in Hk. by apply (Hall key).
Qed.

(** X22. [ValidateTxnCommitRequest] returns [OK] exactly when the region
    epoch matches, [start_ts] and [commit_ts] are not 0, there are between 1
    and [document_max_batch_count] keys, the request is within
    [document_max_request_size], the document index is ready, the cluster is
    writable, no key is empty, no key decodes to the document id 0, the ids
    decoded from the keys (in key order) pass [ValidateDocumentRegion] and
    the keys pass [ValidateRegion]. *)
Theorem TxnCommit_validates_iff `{Collaborators} `{TxnCollaborators} (flags : FLAGS.t)
    (request : msg.TxnCommitRequest) (region : store.Region) :
  DocumentService.ValidateTxnCommitRequest flags request region = OK
  ↔ ValidateRegionEpoch (msg.region_epoch (msg.cm_context request)) (Some region) = OK
    ∧ msg.cm_start_ts request ≠ 0
    ∧ msg.cm_commit_ts request ≠ 0
    ∧ msg.cm_keys request ≠ []
    ∧ Z.of_nat (length (msg.cm_keys request)) ≤ FLAGS.document_max_batch_count flags
    ∧ ByteSizeLong_commit request
      ≤ DocumentService.to_size_t (FLAGS.document_max_request_size flags)
    ∧ store.IsReady (store.document_index_wapper_ region) = true
    ∧ ValidateClusterReadOnly = OK
    ∧ Forall (λ key, UnPackageDocumentId key ≠ 0 ∧ key ≠ EmptyString) (msg.cm_keys request)
    ∧ ValidateDocumentRegion region (map UnPackageDocumentId (msg.cm_keys request)) = OK
    ∧ ValidateRegion region (msg.cm_keys request) = OK.
Proof.
  unfold DocumentService.ValidateTxnCommitRequest. rewrite commit_document_ids_Some.
  cbn [app].
  destruct (ok (ValidateRegionEpoch _ _)) eqn:Hepoch; cbn [negb];
    [apply ok_true in Hepoch|apply ok_false in Hepoch; by split; [|intros (? & _)]].
  destruct (Z.eqb_spec (msg.cm_start_ts request) 0) as [Hs|Hs];
    [by split; [|intros (_ & ? & _)]|].
  destruct (Z.eqb_spec (msg.cm_commit_ts request) 0) as [Hc|Hc];
    [by split; [|intros (_ & _ & ? & _)]|].
  case_bool_decide as Hne; [by split; [|intros (_ & _ & _ & ? & _)]|].
  destruct (Z.gtb_spec (Z.of_nat (length (msg.cm_keys request)))
              (FLAGS.document_max_batch_count flags)) as [Hn|Hn];
    [split; [done|intros (_ & _ & _ & _ & ? & _); lia]|].
  destruct (Z.gtb_spec (ByteSizeLong_commit request)
              (DocumentService.to_size_t (FLAGS.document_max_request_size flags))) as [Hb|Hb];
    [split; [done|intros (_ & _ & _ & _ & _ & ? & _); lia]|].
  destruct (store.IsReady _) eqn:Hready; cbn [negb];
    [|split; [by intros ?%index_not_ready_error|by intros (_ & _ & _ & _ & _ & _ & ? & _)]].
  destruct (ok ValidateClusterReadOnly) eqn:Hro; cbn [negb];
    [apply ok_true in Hro
    |apply ok_false in Hro; by split; [|intros (_ & _ & _ & _ & _ & _ & _ & ? & _)]].
  destruct (forallb _ _) eqn:Hdec.
  - apply no_zero_ids in Hdec.
    destruct (ok (ValidateDocumentRegion _ _)) eqn:Hdr; cbn [negb];
      [apply ok_true in Hdr
      |apply ok_false in Hdr;
       by split; [|intros (_ & _ & _ & _ & _ & _ & _ & _ & _ & ? & _)]].
    destruct (existsb _ _) eqn:Hex.
    + split; [done|]. intros (_ & _ & _ & _ & _ & _ & _ & _ & Hall & _).
      cut (Forall (λ key, key ≠ EmptyString) (msg.cm_keys request)).
      { intros Hg. apply no_empty_keys in Hg. congruence. }
      eapply Forall_impl; [exact Hall|]. by intros ? [_ ?].
    + apply no_empty_keys in Hex.
      destruct (ok (ValidateRegion _ _)) eqn:Hr; cbn [negb];
        [apply ok_true in Hr
        |apply ok_false in Hr;
         by split; [|intros (_ & _ & _ & _ & _ & _ & _ & _ & _ & _ & ?)]].
      split; [intros _|done]. split_and!; [done..|lia|lia|done|done| |done|done].
      rewrite Forall_forall in *. intros key Hin. split; [by apply Hdec|by apply Hex].
  - split; [done|]. intros (_ & _ & _ & _ & _ & _ & _ & _ & Hall & _).
    apply not_true_iff_false in Hdec. destruct Hdec. apply no_zero_ids.
    eapply Forall_impl; [exact Hall|]. by intros ? [? _].
Qed.

Lemma string_compare_refl (s : string) : String.compare s s = Eq.
Proof.
  pose proof (String.compare_antisym s s) as Ha.
  destruct (String.compare s s); [done|done..].
Qed.

Lemma key_range_checks (start_key end_key : string) :
  bool_decide (start_key = EmptyString) = false
  ∧ bool_decide (end_key = EmptyString) = false
  ∧ bool_decide (start_key = end_key) = false
  ∧ DocumentService.compare_gt start_key end_key = false
  ↔ start_key ≠ EmptyString ∧ String.compare start_key end_key = Lt.
Proof.
  rewrite !bool_decide_eq_false. unfold DocumentService.compare_gt. split.
  - intros (Hs & He & Hne & Hgt). split; [done|].
    destruct (String.compare start_key end_key) eqn:Hc; [|done|done].
    by apply String.compare_eq_iff in Hc.
  - intros [Hs Hlt]. rewrite Hlt. split_and!; [done| | |done].
    + intros ->. by destruct start_key.
    + intros ->. by rewrite string_compare_refl in Hlt.
Qed.

(** X23. [ValidateTxnDeleteRangeRequest] returns [OK] exactly when the
    region epoch matches and the start key is not empty and strictly below
    the end key in the byte-wise order of [std::string]; the four key checks
    of the code amount to this. [ValidateTxnDumpRequest] asks in addition
    that [end_ts] is not 0. Neither asks whether the keys lie in the
    region. *)
Theorem key_range_validates_iff `{Collaborators} (region : store.Region) :
  (∀ request,
     DocumentService.ValidateTxnDeleteRangeRequest request region = OK
     ↔ ValidateRegionEpoch (msg.region_epoch (msg.dr_context request)) (Some region) = OK
       ∧ msg.dr_start_key request ≠ EmptyString
       ∧ String.compare (msg.dr_start_key request) (msg.dr_end_key request) = Lt)
  ∧ (∀ request,
       DocumentService.ValidateTxnDumpRequest request region = OK
       ↔ ValidateRegionEpoch (msg.region_epoch (msg.dump_context request)) (Some region) = OK
         ∧ msg.dump_start_key request ≠ EmptyString
         ∧ String.compare (msg.dump_start_key request) (msg.dump_end_key request) = Lt
         ∧ msg.end_ts request ≠ 0).
Proof.
  split; intros request;
    [unfold DocumentService.ValidateTxnDeleteRangeRequest
    |unfold DocumentService.ValidateTxnDumpRequest].
  - pose proof (key_range_checks (msg.dr_start_key request) (msg.dr_end_key request)) as Hk.
    destruct (ok (ValidateRegionEpoch _ _)) eqn:Hepoch; cbn [negb];
      [apply ok_true in Hepoch|apply ok_false in Hepoch; by split; [|intros (? & _)]].
    destruct (bool_decide (msg.dr_start_key request = EmptyString)),
      (bool_decide (msg.dr_end_key request = EmptyString)),
      (bool_decide (msg.dr_start_key request = msg.dr_end_key request)),
      (DocumentService.compare_gt _ _);
      (split; [intros Hok; first [done|split; [done|]; by apply Hk]
              |intros (_ & Hkeys); first [done|apply Hk in Hkeys;
               destruct Hkeys as (? & ? & ? & ?); done]]).
  - pose proof (key_range_checks (msg.dump_start_key request) (msg.dump_end_key request)) as Hk.
    destruct (ok (ValidateRegionEpoch _ _)) eqn:Hepoch; cbn [negb];
      [apply ok_true in Hepoch|apply ok_false in Hepoch; by split; [|intros (? & _)]].
    destruct (Z.eqb_spec (msg.end_ts request) 0) as [Hts|Hts];
    destruct (bool_decide (msg.dump_start_key request = EmptyString)),
      (bool_decide (msg.dump_end_key request = EmptyString)),
      (bool_decide (msg.dump_start_key request = msg.dump_end_key request)),
      (DocumentService.compare_gt _ _);
      (split; [intros Hok; first [done|split; [done|];
               assert (Hkeys : msg.dump_start_key request ≠ EmptyString
                               ∧ String.compare (msg.dump_start_key request)
                                   (msg.dump_end_key request) = Lt) by (by apply Hk);
               destruct Hkeys; by split_and!]
              |intros (_ & Hs & Hlt & Hend); first [done|
               assert (Hkeys : msg.dump_start_key request ≠ EmptyString
                               ∧ String.compare (msg.dump_start_key request)
                                   (msg.dump_end_key request) = Lt) by done;
               apply Hk in Hkeys; destruct Hkeys as (? & ? & ? & ?); done]]).
Qed.

(** X24. [DoTxnBatchGetDocument] runs the closure exactly once and calls
    [storage->TxnBatchGet] at most once, and only for a checked request:
    there are keys, none of them empty, they passed [ValidateRegion],
    [start_ts] is not 0, and under snapshot isolation [CheckKeys] found no
    memory lock. When [CheckKeys] finds one, the body answers
    [ETXN_MEMORY_LOCK_CONFLICT] with the result info of [CheckKeys] and
    leaves storage alone. After a successful call whose values all parse, the
    error is untouched, the result info of the call is set and one document
    per key-value is appended. *)
Theorem TxnBatchGet_reaches_storage_checked `{Collaborators} `{TxnCollaborators}
    (region : store.Region) (request : msg.TxnBatchGetRequest)
    (response : msg.TxnBatchGetResponse) :
  let o := DocumentService.DoTxnBatchGetDocument region request response in
  let region' := store.SetTxnAccessMaxTs region (msg.bg_start_ts request) in
  let resolved_locks : gset Z := list_to_set (msg.resolved_locks (msg.bg_context request)) in
  let isolation_level := msg.isolation_level (msg.bg_context request) in
  let check :=
    CheckKeys region' (msg.bg_keys request) isolation_level (msg.bg_start_ts request)
      resolved_locks in
  let ctx := engine.mkContext (msg.region_id (msg.bg_context request))
               (msg.region_epoch (msg.bg_context request)) (Some isolation_level) None false in
  let reply := TxnBatchGet ctx (msg.bg_start_ts request) (msg.bg_keys request) resolved_locks in
  DocumentService.bg_done_runs o = 1%nat
  ∧ (∀ call, call ∈ DocumentService.bg_calls o →
       DocumentService.bg_calls o = [call]
       ∧ call = DocumentService.mkTxnBatchGetCall ctx (msg.bg_start_ts request)
                  (msg.bg_keys request) resolved_locks
       ∧ msg.bg_keys request ≠ []
       ∧ Forall (λ key, key ≠ EmptyString) (msg.bg_keys request)
       ∧ msg.bg_start_ts request ≠ 0
       ∧ ValidateRegion region' (msg.bg_keys request) = OK
       ∧ (isolation_level = msg.SnapshotIsolation → check.1 = false))
  ∧ (DocumentService.ValidateTxnBatchGetRequest request region' = OK →
     isolation_level = msg.SnapshotIsolation → check.1 = true →
     DocumentService.bg_calls o = []
     ∧ msg.errcode (msg.bg_error (DocumentService.bg_response o)) = ETXN_MEMORY_LOCK_CONFLICT
     ∧ msg.bg_txn_result (DocumentService.bg_response o) = Some check.2
     ∧ msg.bg_documents (DocumentService.bg_response o) = msg.bg_documents response)
  ∧ (DocumentService.bg_calls o ≠ [] → engine.status reply = OK →
     Forall (λ kv, is_Some (document_of_value kv)) (engine.kvs reply) →
     msg.bg_error (DocumentService.bg_response o) = msg.bg_error response
     ∧ msg.bg_txn_result (DocumentService.bg_response o) = Some (engine.txn_result_info reply)
     ∧ msg.bg_documents (DocumentService.bg_response o)
       = msg.bg_documents response ++ omap document_of_value (engine.kvs reply)).
Proof.
  cbn zeta. unfold DocumentService.DoTxnBatchGetDocument.
  set (region' := store.SetTxnAccessMaxTs region (msg.bg_start_ts request)).
  set (resolved_locks := list_to_set (msg.resolved_locks (msg.bg_context request)) : gset Z).
  set (check := CheckKeys region' _ _ _ _).
  set (ctx := engine.mkContext _ _ _ _ _).
  set (reply := TxnBatchGet ctx _ _ _).
  destruct (ok (DocumentService.ValidateTxnBatchGetRequest request region')) eqn:Hvalid;
    cbn [negb].
  2:{ apply ok_false in Hvalid. split_and!; [done|by intros ? ?%elem_of_nil|done|done]. }
  apply ok_true in Hvalid. pose proof Hvalid as Hchecked.
  unfold DocumentService.ValidateTxnBatchGetRequest in Hchecked. passed Hchecked.
  match goal with Hex : existsb _ _ = false |- _ => apply no_empty_keys in Hex; rename Hex into Hkeys end.
  assert (Hne : msg.bg_keys request ≠ []).
  { intros Hnil. rewrite Hnil in *. done. }
  assert (Hts : msg.bg_start_ts request ≠ 0) by lia.
  destruct (bool_decide (msg.isolation_level (msg.bg_context request) = msg.SnapshotIsolation)
            && check.1) eqn:Hconflict.
  { apply andb_prop in Hconflict as [Hiso%bool_decide_eq_true Hfound].
    split_and!; [done|by intros ? ?%elem_of_nil|done|done]. }
  assert (Hfree : msg.isolation_level (msg.bg_context request) = msg.SnapshotIsolation →
                  check.1 = false).
  { intros Hiso. apply andb_false_iff in Hconflict as [Hc|Hc]; [|done].
    by apply bool_decide_eq_false in Hc. }
  assert (Hconf : msg.isolation_level (msg.bg_context request) = msg.SnapshotIsolation →
                  check.1 = true → False).
  { intros Hiso Hfound. rewrite Hfree in Hfound; done. }
  destruct (ok (engine.status reply)) eqn:Hcall; cbn [negb].
  - apply ok_true in Hcall.
    destruct (DocumentService.add_documents (engine.kvs reply) (msg.bg_documents response))
      as [documents parsed] eqn:Hadd.
    assert (Hparsed : Forall (λ kv, is_Some (document_of_value kv)) (engine.kvs reply) →
                      parsed = true
                      ∧ documents
                        = msg.bg_documents response ++ omap document_of_value (engine.kvs reply)).
    { intros Hall. rewrite (add_documents_all_parsed _ _ Hall) in Hadd. by simplify_eq. }
    destruct parsed; cbn [negb DocumentService.bg_calls DocumentService.bg_done_runs
                            DocumentService.bg_response].
    + split_and!; [done| |by intros _ Hiso Hfound; destruct (Hconf Hiso Hfound)|].
      * intros call ->%list_elem_of_singleton. by split_and!.
      * intros _ _ Hall. destruct (Hparsed Hall) as [_ ->]. by split_and!.
    + split_and!; [done| |by intros _ Hiso Hfound; destruct (Hconf Hiso Hfound)|].
      * intros call ->%list_elem_of_singleton. by split_and!.
      * intros _ _ Hall. by destruct (Hparsed Hall).
  - apply ok_false in Hcall.
    split_and!; [done| |by intros _ Hiso Hfound; destruct (Hconf Hiso Hfound)|done].
    intros call ->%list_elem_of_singleton. by split_and!.
Qed.

(** ** Serving statistics of a region *)

Lemma as_int32_mod (z : Z) : store.as_int32 z mod 2 ^ 32 = z mod 2 ^ 32.
Proof.
  unfold store.as_int32. case_match.
  - by rewrite Z.mod_mod.
  - rewrite <- (Z.mod_add _ 1) by done. replace (z mod 2 ^ 32 - 2 ^ 32 + 1 * 2 ^ 32)
      with (z mod 2 ^ 32) by lia. by rewrite Z.mod_mod.
Qed.

Lemma as_int32_small (z : Z) : - 2 ^ 31 ≤ z < 2 ^ 31 → store.as_int32 z = z.
Proof.
  intros Hz. unfold store.as_int32.
  destruct (Z.neg_nonneg_cases z) as [Hneg|Hpos].
  - replace (z mod 2 ^ 32) with (z + 2 ^ 32).
    + destruct (Z.ltb_spec (z + 2 ^ 32) (2 ^ 31)); lia.
    + apply Z.mod_unique_pos with (q := -1); lia.
  - rewrite Z.mod_small by lia. destruct (Z.ltb_spec z (2 ^ 31)); lia.
Qed.

Lemma as_int32_congr (a b : Z) : a mod 2 ^ 32 = b mod 2 ^ 32 → store.as_int32 a = store.as_int32 b.
Proof. unfold store.as_int32. by intros ->. Qed.

Lemma as_int32_add (a b : Z) : store.as_int32 (store.as_int32 a + b) = store.as_int32 (a + b).
Proof.
  apply as_int32_congr. rewrite Z.add_mod by done. rewrite as_int32_mod.
  by rewrite <- Z.add_mod.
Qed.

(** X25. The serving-request counter of a region, a 32-bit atomic that
    wraps around, depends only on how many increments and decrements were
    made, not on their order: after any sequence of [IncServingRequestCount]
    and [DecServingRequestCount] it is the initial count plus the increments
    minus the decrements, wrapped to 32 bits. With as many decrements as
    increments the counter is back at its initial value, also when it
    overflowed in between; the last serving time is never touched. *)
Theorem serving_request_count_balances (statistics_ : store.Statistics) (ops : list bool) :
  let step s (inc : bool) :=
    if inc then store.IncServingRequestCount s else store.DecServingRequestCount s in
  let final := fold_left step ops statistics_ in
  let incs := Z.of_nat (length (filter (λ inc, inc = true) ops)) in
  let decs := Z.of_nat (length (filter (λ inc, inc = false) ops)) in
  - 2 ^ 31 ≤ store.GetServingRequestCount statistics_ < 2 ^ 31 →
  store.GetServingRequestCount final
  = store.as_int32 (store.GetServingRequestCount statistics_ + incs - decs)
  ∧ (incs = decs → store.GetServingRequestCount final = store.GetServingRequestCount statistics_)
  ∧ store.GetLastServingTime final = store.GetLastServingTime statistics_.
Proof.
  cbn zeta. intros Hrange.
  set (step := λ s (inc : bool),
         if inc then store.IncServingRequestCount s else store.DecServingRequestCount s).
  assert (Hgen : ∀ ops s,
    store.GetServingRequestCount s = store.as_int32 (store.GetServingRequestCount s) →
    store.GetServingRequestCount (fold_left step ops s)
    = store.as_int32 (store.GetServingRequestCount s
                      + Z.of_nat (length (filter (λ inc, inc = true) ops))
                      - Z.of_nat (length (filter (λ inc, inc = false) ops)))
    ∧ store.GetLastServingTime (fold_left step ops s) = store.GetLastServingTime s).
  { clear. induction ops as [|inc ops IH]; intros s Hs.
    - cbn. split; [|done]. rewrite Hs at 1. f_equal. lia.
    - cbn [fold_left]. destruct (IH (step s inc)) as [IH1 IH2].
      { destruct inc; cbn; apply as_int32_congr; by rewrite as_int32_mod. }
      rewrite IH1, IH2. split; [|by destruct inc].
      destruct inc; cbn [step store.IncServingRequestCount store.DecServingRequestCount
                          store.GetServingRequestCount store.serving_request_count].
      + rewrite filter_cons_True, filter_cons_False by done. cbn [length].
        rewrite <- Z.add_sub_assoc, as_int32_add. f_equal.
        unfold store.GetServingRequestCount. lia.
      + rewrite filter_cons_False, filter_cons_True by done. cbn [length].
        rewrite <- Z.add_sub_assoc, as_int32_add. f_equal.
        unfold store.GetServingRequestCount. lia. }
  destruct (Hgen ops statistics_) as [H1 H2]; [by rewrite as_int32_small|].
  split_and!; [done| |done].
  intros Heq. rewrite H1, Heq.
  replace (store.GetServingRequestCount statistics_ + _ - _)
    with (store.GetServingRequestCount statistics_) by lia.
  by apply as_int32_small.
Qed.

(** ** The templates of Helper *)

Lemma string_app_nil_r (s : string) : (s ++ "")%string = s.
Proof.
  induction s as [|c s IH]; [done|].
  change (String c (s ++ "")%string = String c s). by rewrite IH.
Qed.

Lemma string_app_assoc (a b c : string) : ((a ++ b) ++ c)%string = (a ++ (b ++ c))%string.
Proof.
  induction a as [|x a IH]; [done|].
  change (String x ((a ++ b) ++ c)%string = String x (a ++ (b ++ c))%string). by rewrite IH.
Qed.

Lemma fold_left_snoc {T : Type} (l acc : list T) :
  fold_left (λ acc item, acc ++ [item]) l acc = acc ++ l.
Proof.
  revert acc. induction l as [|x l IH]; intros acc; cbn; [by rewrite app_nil_r|].
  by rewrite IH, <- app_assoc.
Qed.

Lemma VectorToString_loop {T : Type} (format : T → string) (vec : list T) :
  ∀ (pre : list T) (str : string),
    fold_left
      (λ str i,
         match (pre ++ vec) !! i with
         | Some item =>
           let str := (str ++ format item)%string in
           if (i + 1 <? length (pre ++ vec))%nat then (str ++ ",")%string else str
         | None => str
         end)
      (seq (length pre) (length vec)) str
    = (str ++ String.concat "," (map format vec))%string.
Proof.
  induction vec as [|x vec IH]; intros pre str; [cbn; by rewrite string_app_nil_r|].
  cbn [length seq fold_left].
  rewrite (list_lookup_middle pre vec x (length pre)) by done. cbn zeta.
  specialize (IH (pre ++ [x])). rewrite <- app_assoc in IH. cbn [app] in IH.
  assert (Hlen : length (pre ++ [x]) = S (length pre)) by (rewrite length_app; cbn; lia).
  rewrite Hlen in IH. rewrite IH. clear IH Hlen.
  rewrite length_app. cbn [length].
  destruct vec as [|y vec].
  - cbn [length map String.concat].
    destruct (Nat.ltb_spec (length pre + 1) (length pre + 1)); [lia|].
    by rewrite string_app_nil_r.
  - cbn [length map String.concat].
    destruct (Nat.ltb_spec (length pre + 1) (length pre + S (S (length vec)))); [|lia].
    by rewrite !string_app_assoc.
Qed.

Lemma concat_sep (sep x : string) (rest : list string) :
  String.concat sep (x :: rest)
  = (x ++ String.concat "" (map (λ y, sep ++ y) rest))%string.
Proof.
  revert x. induction rest as [|y rest IH]; intros x.
  - cbn. by rewrite string_app_nil_r.
  - change (String.concat sep (x :: y :: rest))
      with (x ++ sep ++ String.concat sep (y :: rest))%string.
    rewrite IH. cbn [map].
    destruct rest as [|z rest]; cbn [map String.concat];
      rewrite ?string_app_nil_r, ?string_app_assoc; reflexivity.
Qed.

(** X26. [Helper::VectorToString] joins the formatted elements with ","
    and [Helper::SetToString] joins the printed elements with ", ": both give
    the elements in order with the separator between neighbours only, and
    the empty string for no elements. *)
Theorem VectorToString_joins {T : Type} (format : T → string) (elements : list T) :
  Helper.VectorToString format elements = String.concat "," (map format elements)
  ∧ Helper.SetToString format elements = String.concat ", " (map format elements).
Proof.
  split.
  - unfold Helper.VectorToString.
    exact (VectorToString_loop format elements [] EmptyString).
  - unfold Helper.SetToString.
    assert (Hrest : ∀ set ss i,
      (fold_left
         (λ '(ss, i) elem,
            let ss := if negb (i =? 0)%nat then (ss ++ ", ")%string else ss in
            ((ss ++ format elem)%string, S i))
         set (ss, S i)).1
      = (ss ++ String.concat "" (map (λ y, ", " ++ y)%string (map format set)))%string).
    { induction set as [|x set IH]; intros ss i; [cbn; by rewrite string_app_nil_r|].
      cbn [fold_left map]. cbn [Nat.eqb negb]. rewrite IH.
      destruct set as [|y set]; cbn [map String.concat];
        rewrite ?string_app_nil_r, ?string_app_assoc; reflexivity. }
    destruct elements as [|x set]; [done|].
    cbn [fold_left map]. cbn [Nat.eqb negb]. rewrite Hrest. by rewrite concat_sep.
Qed.

(** X27. [Helper::VectorToPbRepeated] appends the vector to what the
    repeated field already holds, in order; it does not clear the field.
    [Helper::PbRepeatedToVector] gives the elements of the field in order, so
    writing a vector to an empty field and reading it back gives the
    vector. *)
Theorem PbRepeated_round_trip {T : Type} (vec out : list T) :
  Helper.VectorToPbRepeated vec out = out ++ vec
  ∧ Helper.PbRepeatedToVector out = out
  ∧ Helper.PbRepeatedToVector (Helper.VectorToPbRepeated vec []) = vec.
Proof.
  unfold Helper.VectorToPbRepeated, Helper.PbRepeatedToVector.
  by rewrite !fold_left_snoc.
Qed.

(** ** Requests refused before queueing *)

(** X28. With the region found and the background backlog within its bound,
    a [TxnGc] whose [safe_point_ts] is 0, a [TxnCheckTxnStatus] with an empty
    primary key or with [lock_ts], [caller_start_ts] or [current_ts] 0, and a
    [TxnResolveLock] whose [start_ts] is 0 or whose [commit_ts] is negative
    or positive and below [start_ts], is refused by the validation made
    before queueing: the entry point sets the validation status (which is
    not [OK], and is [EILLEGAL_PARAMTETERS] when the region epoch matches)
    as error of the response and returns without queueing a task and
    without running the closure. *)
Theorem malformed_txn_requests_are_left_unanswered `{Collaborators} (flags : FLAGS.t)
    (env : DocumentService.Surroundings) (region : store.Region) (rpc : DocumentService.Rpc)
    (epoch : msg.RegionEpoch) :
  DocumentService.region_found env = true →
  DocumentService.IsBackgroundPendingTaskCountExceed flags env = false →
  (∃ request,
     rpc = DocumentService.TxnGc
     ∧ epoch = msg.region_epoch (msg.gc_context request)
     ∧ DocumentService.validation env = DocumentService.DocumentValidateTxnGcRequest request region
     ∧ msg.safe_point_ts request = 0)
  ∨ (∃ request,
       rpc = DocumentService.TxnCheckTxnStatus
       ∧ epoch = msg.region_epoch (msg.cs_context request)
       ∧ DocumentService.validation env
         = DocumentService.DocumentValidateTxnCheckTxnStatusRequest request region
       ∧ (msg.primary_key request = EmptyString ∨ msg.lock_ts request = 0
          ∨ msg.caller_start_ts request = 0 ∨ msg.current_ts request = 0))
  ∨ (∃ request,
       rpc = DocumentService.TxnResolveLock
       ∧ epoch = msg.region_epoch (msg.rl_context request)
       ∧ DocumentService.validation env
         = DocumentService.DocumentValidateTxnResolveLockRequest request region
       ∧ (msg.rl_start_ts request = 0 ∨ msg.rl_commit_ts request < 0
          ∨ 0 < msg.rl_commit_ts request < msg.rl_start_ts request)) →
  DocumentService.validation env ≠ OK
  ∧ (ValidateRegionEpoch epoch (Some region) = OK →
     DocumentService.validation env = EILLEGAL_PARAMTETERS)
  ∧ DocumentService.serve flags env rpc
    = [DocumentService.SetError (DocumentService.validation env)]
  ∧ DocumentService.done_count (DocumentService.serve flags env rpc) = 0%nat.
Proof.
  intros Hregion Hback Hrequest.
  assert (Hstatus : DocumentService.validation env ≠ OK
                    ∧ (ValidateRegionEpoch epoch (Some region) = OK →
                       DocumentService.validation env = EILLEGAL_PARAMTETERS)).
  { destruct Hrequest as [(request & _ & -> & -> & Hbad)
                         |[(request & _ & -> & -> & Hbad)|(request & _ & -> & -> & Hbad)]].
    - unfold DocumentService.DocumentValidateTxnGcRequest.
      destruct (ok (ValidateRegionEpoch _ _)) eqn:Hepoch; cbn [negb];
        [|apply ok_false in Hepoch; by split].
      rewrite Hbad. by split.
    - unfold DocumentService.DocumentValidateTxnCheckTxnStatusRequest.
      destruct (ok (ValidateRegionEpoch _ _)) eqn:Hepoch; cbn [negb];
        [|apply ok_false in Hepoch; by split].
      case_bool_decide as Hkey; [by split|].
      destruct (Z.eqb_spec (msg.lock_ts request) 0); [by split|].
      destruct (Z.eqb_spec (msg.caller_start_ts request) 0); [by split|].
      destruct (Z.eqb_spec (msg.current_ts request) 0); [by split|].
      by destruct_or!.
    - unfold DocumentService.DocumentValidateTxnResolveLockRequest.
      destruct (ok (ValidateRegionEpoch _ _)) eqn:Hepoch; cbn [negb];
        [|apply ok_false in Hepoch; by split].
      destruct (Z.eqb_spec (msg.rl_start_ts request) 0); [by split|].
      destruct (Z.ltb_spec (msg.rl_commit_ts request) 0); [by split|].
      destruct (Z.gtb_spec (msg.rl_commit_ts request) 0),
        (Z.ltb_spec (msg.rl_commit_ts request) (msg.rl_start_ts request));
        cbn [andb]; first [by split|destruct_or!; lia]. }
  destruct Hstatus as [Hnok Hcode].
  assert (Hs : DocumentService.serve flags env rpc
               = [DocumentService.SetError (DocumentService.validation env)]).
  { unfold DocumentService.serve. rewrite Hregion, Hback, !andb_false_r.
    destruct (ok (DocumentService.validation env)) eqn:Hok; [by apply ok_true in Hok|].
    by destruct Hrequest as [(? & -> & _)|[(? & -> & _)|(? & -> & _)]]. }
  split_and!; [done|done|done|by rewrite Hs].
Qed.

(** * The further properties at work on the sample surroundings *)

(** Upserting a row under the new id 7 leaves the row of the id 42 alone. *)
Lemma upsert_keeps_others_sample :
  let batch := [common.mkVectorWithId 7 [sample.f4; sample.f3]] in
  let run := VectorIndexFlat.AddOrUpsert (H := sample.math) sample.stocked batch true in
  rev_map_consistent (VectorIndexFlat.index_id_map2_ sample.stocked)
  ∧ run.1.1 = OK
  ∧ faiss.vectors_of (VectorIndexFlat.index_id_map2_ run.1.2) 42
    = faiss.vectors_of (VectorIndexFlat.index_id_map2_ sample.stocked) 42.
Proof.
  intros batch run.
  assert (Hc : rev_map_consistent (VectorIndexFlat.index_id_map2_ sample.stocked)).
  { apply rev_map_consistent_by_dom. vm_compute. reflexivity. }
  assert (Hrun : run = (OK, run.1.2, run.2)) by reflexivity.
  split; [exact Hc|]. split; [by rewrite Hrun|].
  destruct (AddOrUpsert_keeps_rest_appends_batch (H := sample.math) sample.stocked run.1.2 batch
              true run.2 Hc Hrun) as [_ Hrows].
  apply Hrows. intros Hin. apply list_elem_of_singleton in Hin. discriminate Hin.
Defined.

(** A row of dimension 3 is refused by the index of dimension 2, which stays
    as it was. *)
Lemma upsert_failure_sample :
  let batch := [common.mkVectorWithId 7 [sample.f4; sample.f3; sample.f0]] in
  let run := VectorIndexFlat.AddOrUpsert (H := sample.math) sample.stocked batch true in
  run.1.1 = EVECTOR_INVALID ∧ run.1.2 = sample.stocked ∧ run.2 = [].
Proof.
  intros batch run.
  assert (Hst : run.1.1 = EVECTOR_INVALID) by reflexivity.
  split; [exact Hst|].
  apply (proj1 (AddOrUpsert_failure_changes_nothing (H := sample.math) sample.stocked batch true)).
  fold run. rewrite Hst. discriminate.
Defined.

(** Deleting the id 42 from the stocked index leaves no row under it. *)
Lemma delete_sample :
  let run := VectorIndexFlat.Delete (H := sample.math) sample.stocked [42] in
  rev_map_consistent (VectorIndexFlat.index_id_map2_ sample.stocked)
  ∧ run.1.1 = OK
  ∧ faiss.vectors_of (VectorIndexFlat.index_id_map2_ run.1.2) 42 = [].
Proof.
  intros run.
  assert (Hc : rev_map_consistent (VectorIndexFlat.index_id_map2_ sample.stocked)).
  { apply rev_map_consistent_by_dom. vm_compute. reflexivity. }
  destruct (Delete_removes_listed_ids (H := sample.math) sample.stocked [42] Hc)
    as (Hok & _ & Hgone & _).
  split; [exact Hc|]. split; [exact Hok|]. apply Hgone. left.
Defined.

(** A fresh index that took the rows of the ids 7 and 8 and then lost the id
    7 holds no id twice. *)
Lemma each_id_once_sample :
  let init := VectorIndexFlat.new 1 METRIC_TYPE_L2 2 in
  let batch := [common.mkVectorWithId 7 [sample.f4; sample.f3];
                common.mkVectorWithId 8 [sample.f3; sample.f4]] in
  let self1 := (VectorIndexFlat.AddOrUpsert (H := sample.math) init batch true).1.2 in
  let self2 := (VectorIndexFlat.Delete (H := sample.math) self1 [7]).1.2 in
  evolves (H := sample.math) init self2
  ∧ NoDup (faiss.id_map (VectorIndexFlat.index_id_map2_ self2))
  ∧ size (faiss.rev_map (VectorIndexFlat.index_id_map2_ self2))
    = faiss.ntotal (VectorIndexFlat.index_id_map2_ self2).
Proof.
  intros init batch self1 self2.
  assert (Hev : evolves (H := sample.math) init self2) by (do 2 constructor; constructor).
  split; [exact Hev|].
  exact (proj2 (flat_index_holds_each_id_once (H := sample.math) 1 METRIC_TYPE_L2 2 self2 Hev)).
Defined.

(** Adding a row under the new id 7 to the stocked index raises the count
    from 1 to 2. *)
Lemma count_after_upsert_sample :
  let batch := [common.mkVectorWithId 7 [sample.f4; sample.f3]] in
  let run := VectorIndexFlat.AddOrUpsert (H := sample.math) sample.stocked batch true in
  rev_map_consistent (VectorIndexFlat.index_id_map2_ sample.stocked)
  ∧ run.1.1 = OK
  ∧ (VectorIndexFlat.GetCount run.1.2).2 = (VectorIndexFlat.GetCount sample.stocked).2 + 1.
Proof.
  intros batch run.
  assert (Hc : rev_map_consistent (VectorIndexFlat.index_id_map2_ sample.stocked)).
  { apply rev_map_consistent_by_dom. vm_compute. reflexivity. }
  assert (Hrun : run = (OK, run.1.2, run.2)) by reflexivity.
  split; [exact Hc|]. split; [by rewrite Hrun|].
  destruct (GetCount_after_upsert (H := sample.math) sample.stocked run.1.2 batch true run.2
              Hc Hrun) as (_ & Hfresh & _).
  apply Hfresh. intros i Hi Hin.
  apply list_elem_of_singleton in Hi. apply list_elem_of_singleton in Hin.
  rewrite Hi in Hin. discriminate Hin.
Defined.

(** An index of dimension 2 that loaded the sample file, one row under the
    id 5, reports 32 bytes. *)
Lemma memory_size_sample :
  let init := VectorIndexFlat.new 1 METRIC_TYPE_L2 2 in
  let self := (VectorIndexFlat.Load init false sample.index_file).2 in
  lives (H := sample.math) init self
  ∧ faiss.id_map (VectorIndexFlat.index_id_map2_ self) = [5]
  ∧ VectorIndexFlat.GetMemorySize self = (OK, 32).
Proof.
  intros init self.
  assert (Hlives : lives (H := sample.math) init self) by (constructor; constructor).
  split; [exact Hlives|]. split; [reflexivity|].
  assert (Hfit : (VectorIndexFlat.GetCount self).2 * (24 + 4 * 2) < 2 ^ 63) by reflexivity.
  exact (proj1 (GetMemorySize_per_row (H := sample.math) 1 METRIC_TYPE_L2 2 self Hlives
                  ltac:(discriminate) Hfit) (NoDup_singleton 5)).
Defined.

(** Loading the sample file into the stocked index installs its one row. *)
Lemma load_sample :
  let run := VectorIndexFlat.Load sample.stocked false sample.index_file in
  run.1 = OK
  ∧ faiss.entries (VectorIndexFlat.index_id_map2_ run.2) = [(5, [sample.f3; sample.f4])]
  ∧ rev_map_consistent (VectorIndexFlat.index_id_map2_ run.2).
Proof.
  intros run.
  assert (Hrun : VectorIndexFlat.Load sample.stocked false sample.index_file = (OK, run.2))
    by reflexivity.
  destruct (proj2 (Load_installs_matching_index sample.stocked run.2 false sample.index_file OK
                     Hrun) eq_refl)
    as (_ & _ & _ & _ & Hcons & m & entries & Hfile & _ & _ & Hentries & _).
  split; [reflexivity|]. split; [|exact Hcons].
  rewrite Hentries. by injection Hfile as _ <-.
Defined.

(** After a row was added to the stocked index, a lag of 10001 log entries
    against the default bound of 10000 asks for a save, a lag of 10000 does
    not. *)
Lemma need_to_save_sample :
  let batch := [common.mkVectorWithId 7 [sample.f4; sample.f3]] in
  let run := VectorIndexFlat.AddOrUpsert (H := sample.math) sample.stocked batch true in
  rev_map_consistent (VectorIndexFlat.index_id_map2_ sample.stocked)
  ∧ run.1.1 = OK
  ∧ VectorIndexFlat.NeedToSave VectorIndexFlat.FLAGS_flat_need_save_count run.1.2 10001 = true
  ∧ VectorIndexFlat.NeedToSave VectorIndexFlat.FLAGS_flat_need_save_count run.1.2 10000 = false.
Proof.
  intros batch run.
  assert (Hc : rev_map_consistent (VectorIndexFlat.index_id_map2_ sample.stocked)).
  { apply rev_map_consistent_by_dom. vm_compute. reflexivity. }
  assert (Hrun : run = (OK, run.1.2, run.2)) by reflexivity.
  split; [exact Hc|]. split; [by rewrite Hrun|]. split.
  - exact (proj1 (NeedToSave_after_upsert (H := sample.math)
                    VectorIndexFlat.FLAGS_flat_need_save_count sample.stocked run.1.2 batch true
                    run.2 10001 Hc Hrun)).
  - exact (proj1 (NeedToSave_after_upsert (H := sample.math)
                    VectorIndexFlat.FLAGS_flat_need_save_count sample.stocked run.1.2 batch true
                    run.2 10000 Hc Hrun)).
Defined.

(** [TxnGc] whose validation fails is neither queued nor answered. *)
Lemma refused_before_queueing_sample :
  let steps := DocumentService.serve sample.flags sample.refusing DocumentService.TxnGc in
  steps = [DocumentService.SetError EILLEGAL_PARAMTETERS]
  ∧ DocumentService.done_count steps = 0%nat.
Proof.
  intros steps.
  destruct (proj2 (refused_before_queueing_is_left_unanswered sample.flags sample.refusing
                     DocumentService.TxnGc OK) eq_refl eq_refl eq_refl ltac:(discriminate))
    as (Hsteps & Hdone & _).
  split; [exact Hsteps|exact Hdone].
Defined.

(** A scan with limit 10 reaches storage once, with the coprocessor
    disabled. *)
Lemma scan_reaches_storage_sample :
  let run := DocumentService.DoTxnScanDocument (H := sample.collaborators) sample.flags
               sample.region (sample.scan_request 10) sample.scan_response in
  ∃ o call,
    run = Some o ∧ call ∈ DocumentService.calls o ∧ DocumentService.calls o = [call]
    ∧ msg.scan_limit (sample.scan_request 10) ≤ FLAGS.stream_message_max_limit_size sample.flags.
Proof.
  intros run.
  destruct run as [o|] eqn:Hrun; [|by vm_compute in Hrun].
  assert (Hin : ∃ call, call ∈ DocumentService.calls o).
  { unfold run in Hrun. vm_compute in Hrun. injection Hrun as <-. eexists. left. }
  destruct Hin as [call Hin]. exists o, call.
  destruct (TxnScan_reaches_storage_checked (H := sample.collaborators) sample.flags
              sample.region (sample.scan_request 10) sample.scan_response o call Hrun Hin)
    as (Hcalls & _ & _ & Hlimit & _).
  split; [reflexivity|]. split; [exact Hin|]. split; [exact Hcalls|exact Hlimit].
Defined.

(** A document add of the id 5 reaches storage with the batch as it came;
    with the ttl [INT64_MAX] at the time 1700000000000 the sum wraps around,
    and the context carries the expiry -9223370336854775809. *)
Lemma add_reaches_storage_sample :
  let request := sample.add_request [5] in
  let o := DocumentService.DoDocumentAdd (H := sample.collaborators) sample.flags sample.region
             request sample.add_response true in
  let lasting :=
    msg.mkDocumentAddRequest sample.context [sample.document 5] false DocumentCodec.INT64_MAX in
  let o' := DocumentService.DoDocumentAdd (H := sample.collaborators) sample.flags sample.region
              lasting sample.add_response true in
  (∃ call,
     call ∈ DocumentService.calls o
     ∧ msg.documents request ≠ []
     ∧ ∀ document, document ∈ msg.documents request →
         DocumentCodec.IsLegalDocumentId (msg.id document) = true)
  ∧ (∃ call,
       call ∈ DocumentService.calls o'
       ∧ call = engine.DocumentAdd
                  (engine.mkContext 80001 sample.epoch None (Some (-9223370336854775809)) false)
                  true [sample.document 5] false).
Proof.
  intros request o lasting o'. split.
  - assert (Hin : ∃ call, call ∈ DocumentService.calls o) by (eexists; left).
    destruct Hin as [call Hin]. exists call.
    destruct (proj1 (document_writes_reach_storage_checked (H := sample.collaborators) sample.flags
                       sample.region true) request sample.add_response call Hin)
      as (_ & Hne & _ & Hlegal & _).
    split; [exact Hin|]. split; [exact Hne|exact Hlegal].
  - assert (Hin : ∃ call, call ∈ DocumentService.calls o') by (eexists; left).
    destruct Hin as [call Hin]. exists call.
    destruct (proj1 (document_writes_reach_storage_checked (H := sample.collaborators) sample.flags
                       sample.region true) lasting sample.add_response call Hin)
      as (Hcall & _).
    split; [exact Hin|exact Hcall].
Defined.

(** A scan without a positive limit is refused with [EILLEGAL_PARAMTETERS];
    a scan from "c" to "b" is answered with the response as it came. *)
Lemma refused_scan_sample :
  (∃ o,
     DocumentService.DoTxnScanDocument (H := sample.collaborators) sample.flags sample.region
       (sample.scan_request 0) sample.scan_response = Some o
     ∧ DocumentService.calls o = []
     ∧ msg.errcode (msg.scan_error (DocumentService.response o)) = EILLEGAL_PARAMTETERS)
  ∧ DocumentService.DoTxnScanDocument (H := sample.range_checking) sample.flags sample.region
      sample.backward_scan_request sample.scan_response
    = Some (DocumentService.mkOutcome sample.scan_response [] 1
              (store.SetTxnAccessMaxTs sample.region 100)).
Proof.
  split.
  - destruct (proj1 (invalid_range_scan_is_answered_without_error (H := sample.collaborators)
                       sample.flags sample.region (sample.scan_request 0) sample.scan_response)
                ltac:(discriminate))
      as (o & Hrun & Hcalls & _ & _ & Herr).
    exists o. split; [exact Hrun|]. split; [exact Hcalls|].
    exact (proj1 (Herr ltac:(discriminate))).
  - apply (proj2 (invalid_range_scan_is_answered_without_error (H := sample.range_checking)
                    sample.flags sample.region sample.backward_scan_request
                    sample.scan_response)).
    + left. reflexivity.
    + discriminate.
    + discriminate.
    + discriminate.
    + reflexivity.
    + left. reflexivity.
Defined.

(** A delete range from "b" to "c" validates. *)
Lemma delete_range_sample :
  DocumentService.ValidateTxnDeleteRangeRequest (H := sample.collaborators)
    sample.delete_range_request sample.region = OK.
Proof.
  apply (proj1 (key_range_validates_iff (H := sample.collaborators) sample.region)).
  split; [reflexivity|]. split; [discriminate|reflexivity].
Defined.

(** A batch get of one key reaches storage once and answers with the default
    document for the empty value found. *)
Lemma batch_get_sample :
  let o := DocumentService.DoTxnBatchGetDocument (H := sample.collaborators)
             (H0 := sample.txn_collaborators) sample.region sample.batch_get_request
             sample.batch_get_response in
  DocumentService.bg_done_runs o = 1%nat
  ∧ msg.bg_documents (DocumentService.bg_response o) = [msg.mkDocumentWithId 0 []]
  ∧ store.TxnAccessMaxTs (DocumentService.bg_region_after o) = 100.
Proof.
  intros o.
  destruct (TxnBatchGet_reaches_storage_checked (H := sample.collaborators)
              (H0 := sample.txn_collaborators) sample.region sample.batch_get_request
              sample.batch_get_response) as (Hdone & _ & _ & Hdocs).
  split; [exact Hdone|]. split; [|reflexivity].
  apply Hdocs; [discriminate|reflexivity|].
  constructor; [by eexists|constructor].
Defined.

(** A counter at the largest 32-bit value wraps on the next request and is
    back when that request is done. *)
Lemma serving_request_count_sample :
  let served := store.DecServingRequestCount (store.IncServingRequestCount sample.busy) in
  store.GetServingRequestCount (store.IncServingRequestCount sample.busy) = - 2147483648
  ∧ store.GetServingRequestCount served = store.GetServingRequestCount sample.busy.
Proof.
  intros served. split; [reflexivity|].
  apply (proj1 (proj2 (serving_request_count_balances sample.busy [true; false]
                         ltac:(split; [discriminate|reflexivity])))).
  reflexivity.
Defined.

(** A [TxnGc] without a safe point is refused before queueing and is left
    unanswered. *)
Lemma malformed_gc_sample :
  let request := msg.mkTxnGcRequest sample.context 0 in
  let steps := DocumentService.serve sample.flags sample.refusing DocumentService.TxnGc in
  DocumentService.validation sample.refusing
  = DocumentService.DocumentValidateTxnGcRequest (H := sample.collaborators) request sample.region
  ∧ steps = [DocumentService.SetError EILLEGAL_PARAMTETERS]
  ∧ DocumentService.done_count steps = 0%nat.
Proof.
  intros request steps.
  assert (Hv : DocumentService.validation sample.refusing
               = DocumentService.DocumentValidateTxnGcRequest (H := sample.collaborators)
                   request sample.region) by reflexivity.
  destruct (malformed_txn_requests_are_left_unanswered (H := sample.collaborators) sample.flags
              sample.refusing sample.region DocumentService.TxnGc sample.epoch eq_refl eq_refl
              (or_introl (ex_intro _ request
                            (conj eq_refl (conj eq_refl (conj Hv eq_refl))))))
    as (_ & _ & Hsteps & Hdone).
  split; [exact Hv|]. split; [exact Hsteps|exact Hdone].
Defined.


(** A cosine index of dimension 2 takes the row (3, 4) under the id 42 and
    stores its normalised row, (0.6, 0.8) in binary32; a search on the index
    that holds it hands faiss the normalised query, in one call under the
    read lock. *)
Lemma cosine_sample :
  let init := VectorIndexFlat.new 1 METRIC_TYPE_COSINE 2 in
  let batch := [common.mkVectorWithId 42 [sample.f3; sample.f4]] in
  let q := [common.mkVectorWithId 0 [sample.f4; sample.f3]] in
  let self := (VectorIndexFlat.AddOrUpsert (H := sample.math) init batch true).1.2 in
  lives (H := sample.math) init self
  ∧ faiss.metric_type (VectorIndexFlat.index_id_map2_ self) = faiss.METRIC_INNER_PRODUCT
  ∧ VectorIndexFlat.normalize_ self = true
  ∧ faiss.entries (VectorIndexFlat.index_id_map2_ self)
    = [(42, [S754_finite false 10066330 (-24); S754_finite false 13421773 (-24)])]
  ∧ (VectorIndexFlat.Search (H := sample.math) self q 1 [] []).2
    = [VectorIndexFlat.LockRead;
       VectorIndexFlat.search 1
         [[S754_finite false 13421773 (-24); S754_finite false 10066330 (-24)]] 1 None;
       VectorIndexFlat.UnlockRead].
Proof.
  intros init batch q self.
  assert (H0 : lives (H := sample.math) init init) by constructor.
  assert (Hlives : lives (H := sample.math) init self) by (constructor; constructor).
  destruct (cosine_is_normalized_inner_product (H := sample.math) 1 2 init H0)
    as (_ & _ & Hadd & _).
  destruct (Hadd batch true ltac:(discriminate) eq_refl eq_refl) as (_ & _ & Hentries).
  destruct (cosine_is_normalized_inner_product (H := sample.math) 1 2 self Hlives)
    as (Hm & Hn & _ & Hsearch & _).
  destruct (Hsearch q 1%N [] [] ltac:(discriminate) eq_refl eq_refl) as [_ Htrace].
  split; [exact Hlives|]. split; [exact Hm|]. split; [exact Hn|].
  split; [exact Hentries|exact Htrace].
Defined.
